(** * Eclipse HCI library: protocol engine

    A shallow embedding of the TypeScript sources of the Eclipse HCI client:
    the Node [Buffer] operations the code relies on, the level/dB conversion
    table, the request framing ([HCIRequest.getRequest]), the payload
    codecs of the crosspoint, level and alias messages with the request
    classes built on them, and the two [EclipseHCI] connection classes
    found in the repository (the [handleMessage]/[addToQueue]/[processQueue]
    class and the [handleData]/[enqueue]/[drain] class).

    Conventions.
    - A [Buffer] is a list of bytes; offsets, lengths and field values are
      integers ([Z]), as JavaScript numbers restricted to the integers the
      code feeds them.
    - A JavaScript exception is an explicit [Threw] outcome.
    - [console.log] and debug output are not modelled.
    - Level and dB values that go through [LevelConversion] are IEEE-754
      doubles ([PrimFloat.float]), as in the source. *)

From Stdlib Require Import ZArith List Bool Lia.
From Stdlib Require Import Strings.Byte.
From Stdlib Require Import PrimFloat FloatOps SpecFloat Uint63.
Import ListNotations.

Set Warnings "-inexact-float".
Local Open Scope Z_scope.

(* ================================================================== *)
(** ** Outcomes of code that may throw *)

Inductive outcome (A : Type) : Type :=
| Ok (a : A)
| Threw (message : list byte).

Arguments Ok {A} a.
Arguments Threw {A} message.

Definition bind {A B : Type} (m : outcome A) (k : A -> outcome B) : outcome B :=
  match m with
  | Ok a => k a
  | Threw e => Threw e
  end.

Notation "x <- m ;; k" := (bind m (fun x => k))
  (at level 61, m at next level, right associativity).

(** Error names used by the embedded code.  The text after the name in the
    source messages only interpolates the offending value. *)
Definition RangeError : list byte := [x52; x61; x6e; x67; x65; x45; x72; x72; x6f; x72].
Definition ValidationError : list byte := [x45; x72; x72; x6f; x72].

(* ================================================================== *)
(** ** JavaScript numbers used by [LevelConversion] *)

Module JSNumber.

Definition number := float.

(** Conversion of an integer to a double; exact below 2^53. *)
Definition of_Z (z : Z) : number :=
  if z <? 0 then PrimFloat.opp (of_uint63 (Uint63.of_Z (- z)))
  else of_uint63 (Uint63.of_Z z).

(** [a === b] on numbers. *)
Definition strict_eq (a b : number) : bool := PrimFloat.eqb a b.

(** [Math.round]: nearest integer, ties towards plus infinity; NaN,
    infinities and integral values are returned unchanged. *)
Definition Math_round (x : number) : number :=
  match Prim2SF x with
  | S754_finite s m e =>
      if 0 <=? e then x
      else
        let d := 2 ^ (- e) in
        let n := if s then Z.neg m else Z.pos m in
        let r := (2 * n + d) / (2 * d) in
        if r =? 0 then (if s then neg_zero else zero) else of_Z r
  | _ => x
  end.

Definition Math_min (a b : number) : number :=
  if is_nan a || is_nan b then nan
  else if PrimFloat.ltb a b then a
  else if PrimFloat.ltb b a then b
  else if get_sign a then a else b.

Definition Math_max (a b : number) : number :=
  if is_nan a || is_nan b then nan
  else if PrimFloat.ltb a b then b
  else if PrimFloat.ltb b a then a
  else if get_sign a then b else a.

End JSNumber.

(* ================================================================== *)
(** ** Node [Buffer] *)

Module Buffer.

Definition t := list byte.

Definition u8 (b : byte) : Z := Z.of_N (Byte.to_N b).

(** The byte stored for an integer [z]: its low eight bits. *)
Definition byte_of_Z (z : Z) : byte :=
  match Byte.of_N (Z.to_N (z mod 256)) with
  | Some b => b
  | None => x00
  end.

Definition length (b : t) : Z := Z.of_nat (List.length b).

Definition alloc0 : t := [].

Definition concat (bs : list t) : t := List.concat bs.

Fixpoint equals (a b : t) : bool :=
  match a, b with
  | [], [] => true
  | x :: a', y :: b' => Byte.eqb x y && equals a' b'
  | _, _ => false
  end.

(** Index normalisation of [subarray]: a negative index counts from the
    end, and the result is clamped to [0, len]. *)
Definition clamp (len i : Z) : Z :=
  if i <? 0 then Z.max (len + i) 0 else Z.min i len.

(** [b.subarray(s, e)]. *)
Definition subarray (b : t) (s e : Z) : t :=
  let len := length b in
  let s' := clamp len s in
  let e' := clamp len e in
  firstn (Z.to_nat (e' - s')) (skipn (Z.to_nat s') b).

(** [b.subarray(s)]: the end defaults to the length. *)
Definition subarray_from (b : t) (s : Z) : t := subarray b s (length b).

Fixpoint starts_with (needle b : t) : bool :=
  match needle, b with
  | [], _ => true
  | x :: needle', y :: b' => Byte.eqb x y && starts_with needle' b'
  | _ :: _, [] => false
  end.

Fixpoint indexOf_at (needle b : t) (i : Z) : Z :=
  match b with
  | [] => if starts_with needle [] then i else -1
  | _ :: b' => if starts_with needle b then i else indexOf_at needle b' (i + 1)
  end.

(** [b.indexOf(needle)]: offset of the first occurrence, or -1. *)
Definition indexOf (b needle : t) : Z := indexOf_at needle b 0.

Definition byte_at (b : t) (off : Z) : option byte :=
  if off <? 0 then None else nth_error b (Z.to_nat off).

(** [b.readUInt8(off)]; out of bounds is a RangeError. *)
Definition readUInt8 (b : t) (off : Z) : outcome Z :=
  match byte_at b off with
  | Some x => Ok (u8 x)
  | None => Threw RangeError
  end.

(** [b.readUInt16BE(off)]. *)
Definition readUInt16BE (b : t) (off : Z) : outcome Z :=
  match byte_at b off, byte_at b (off + 1) with
  | Some hi, Some lo => Ok (u8 hi * 256 + u8 lo)
  | _, _ => Threw RangeError
  end.

(** [b.readUInt32BE(off)]. *)
Definition readUInt32BE (b : t) (off : Z) : outcome Z :=
  match byte_at b off, byte_at b (off + 1), byte_at b (off + 2), byte_at b (off + 3) with
  | Some b0, Some b1, Some b2, Some b3 =>
      Ok (((u8 b0 * 256 + u8 b1) * 256 + u8 b2) * 256 + u8 b3)
  | _, _, _, _ => Threw RangeError
  end.

(** The bytes stored by [writeUInt8(v, _)]; a value outside 0..255 is a
    RangeError. *)
Definition writeUInt8 (v : Z) : outcome t :=
  if (0 <=? v) && (v <=? 255) then Ok [byte_of_Z v] else Threw RangeError.

(** The bytes stored by [writeUInt16BE(v, _)]; a value outside 0..65535
    is a RangeError. *)
Definition writeUInt16BE (v : Z) : outcome t :=
  if (0 <=? v) && (v <=? 65535)
  then Ok [byte_of_Z (v / 256); byte_of_Z v]
  else Threw RangeError.

(** The bytes stored by [writeUInt32BE(v, _)]. *)
Definition writeUInt32BE (v : Z) : outcome t :=
  if (0 <=? v) && (v <=? 4294967295)
  then Ok [byte_of_Z (v / 16777216); byte_of_Z (v / 65536); byte_of_Z (v / 256); byte_of_Z v]
  else Threw RangeError.

End Buffer.

(** The frame delimiters, [Buffer.from([0x5A, 0x0F])] and
    [Buffer.from([0x2E, 0x8D])]. *)
Definition startBytes : Buffer.t := [x5a; x0f].
Definition endBytes : Buffer.t := [x2e; x8d].

(* ================================================================== *)
(** ** [LevelConversion] (Utilities/LevelConversion.ts) *)

Module LevelConversion.
Import JSNumber.
Local Open Scope float_scope.

Record entry := { dB : number; level : number; hex : Z }.

Definition LEVEL_REFERENCE_TABLE : list entry :=
  [ {| dB := -90; level := 0;   hex := 0x0000 |};
    {| dB := -72; level := 18;  hex := 0x0012 |};
    {| dB := -66; level := 35;  hex := 0x0023 |};
    {| dB := -60; level := 52;  hex := 0x0034 |};
    {| dB := -54; level := 69;  hex := 0x0045 |};
    {| dB := -48; level := 86;  hex := 0x0056 |};
    {| dB := -42; level := 103; hex := 0x0067 |};
    {| dB := -36; level := 119; hex := 0x0077 |};
    {| dB := -30; level := 136; hex := 0x0088 |};
    {| dB := -24; level := 153; hex := 0x0099 |};
    {| dB := -18; level := 170; hex := 0x00AA |};
    {| dB := -12; level := 179; hex := 0x00B3 |};
    {| dB := -9;  level := 187; hex := 0x00BB |};
    {| dB := -6;  level := 196; hex := 0x00C4 |};
    {| dB := -3;  level := 204; hex := 0x00CC |};
    {| dB := 0;   level := 212; hex := 0x00D4 |};
    {| dB := 3;   level := 221; hex := 0x00DD |};
    {| dB := 6;   level := 229; hex := 0x00E5 |};
    {| dB := 9;   level := 238; hex := 0x00EE |};
    {| dB := 12;  level := 246; hex := 0x00F6 |};
    {| dB := 15;  level := 255; hex := 0x00FF |};
    {| dB := 18;  level := 263; hex := 0x0107 |};
    {| dB := 21;  level := 272; hex := 0x0110 |};
    {| dB := 24;  level := 280; hex := 0x0118 |};
    {| dB := 27;  level := 287; hex := 0x011F |} ].

(** [dBToLevel(dB)]. *)
Definition dBToLevel (d : number) : number :=
  if strict_eq d neg_infinity || PrimFloat.ltb d (-72) then 0
  else
    match find (fun e => strict_eq (dB e) d) LEVEL_REFERENCE_TABLE with
    | Some exactMatch => level exactMatch
    | None =>
        let calculatedLevel := Math_round (d / 0.355 + 204) in
        Math_max 0 (Math_min 287 calculatedLevel)
    end.

(** [levelToDB(level)]. *)
Definition levelToDB (l : number) : number :=
  if strict_eq l 0 then neg_infinity
  else
    match find (fun e => strict_eq (level e) l) LEVEL_REFERENCE_TABLE with
    | Some exactMatch => dB exactMatch
    | None => (l - 204) * 0.355
    end.

(** [isValidLevel(level)] on an integer argument ([Number.isInteger]
    holds by typing). *)
Definition isValidLevel (l : Z) : bool := ((0 <=? l) && (l <=? 287))%Z.

End LevelConversion.

(* ================================================================== *)
(** ** [HCIRequest] (HCIRequest.ts) *)

(** [x | 0]: the ToInt32 conversion JavaScript applies to the operands of
    its bitwise operators. *)
Definition ToInt32 (x : Z) : Z := (x + 2147483648) mod 4294967296 - 2147483648.

Module HCIRequest.

Record t := {
  RequestID : Z;
  ResponseID : option Z;
  Version : Z;
  ProtocolVersion : Z;
  Data : Buffer.t;
  Urgent : bool;
  Timestamp : Z
}.

(** [new HCIRequest(requestID, data, urgent, responseID)]; [now] is the
    value of [Date.now()].  [responseID || null] turns a missing or zero
    id into [null]. *)
Definition new (requestID : Z) (data : Buffer.t) (urgent : bool)
    (responseID : option Z) (now : Z) : t :=
  {| RequestID := requestID;
     ResponseID := match responseID with
                   | Some 0 => None
                   | other => other
                   end;
     Version := 2;
     ProtocolVersion := 1;
     Data := data;
     Urgent := urgent;
     Timestamp := now |}.

Definition set_ProtocolVersion (r : t) (v : Z) : t :=
  {| RequestID := RequestID r; ResponseID := ResponseID r; Version := Version r;
     ProtocolVersion := v; Data := Data r; Urgent := Urgent r;
     Timestamp := Timestamp r |}.

Definition set_Version (r : t) (v : Z) : t :=
  {| RequestID := RequestID r; ResponseID := ResponseID r; Version := v;
     ProtocolVersion := ProtocolVersion r; Data := Data r; Urgent := Urgent r;
     Timestamp := Timestamp r |}.

Definition set_Data (r : t) (d : Buffer.t) : t :=
  {| RequestID := RequestID r; ResponseID := ResponseID r; Version := Version r;
     ProtocolVersion := ProtocolVersion r; Data := d; Urgent := Urgent r;
     Timestamp := Timestamp r |}.

Definition getMessageSize (r : t) : Z := Buffer.length (Data r).

Definition preamble : Buffer.t := [xab; xba; xce; xde].

(** [getRequest(flags = 0x00)].  The buffer is filled front to back, so
    the frame is the concatenation of the pieces in the order they are
    written; each [write*] may throw. *)
Definition getRequest (r : t) (flags : Z) : outcome Buffer.t :=
  let finalFlags := Z.lor (ToInt32 flags) 0x08 in
  if Version r =? 2 then
    let protocol : Buffer.t := [Buffer.byte_of_Z (ProtocolVersion r)] in
    let headerSize :=
      Buffer.length startBytes + 2 + 2 + 1 + Buffer.length preamble + Buffer.length protocol in
    let totalLength := headerSize + Buffer.length (Data r) + Buffer.length endBytes in
    len <- Buffer.writeUInt16BE totalLength ;;
    id <- Buffer.writeUInt16BE (RequestID r) ;;
    fl <- Buffer.writeUInt8 finalFlags ;;
    Ok (startBytes ++ len ++ id ++ fl ++ preamble ++ protocol ++ Data r ++ endBytes)
  else
    let headerSize := Buffer.length startBytes + 2 + 2 + 1 in
    let totalLength := headerSize + Buffer.length (Data r) + Buffer.length endBytes in
    len <- Buffer.writeUInt16BE totalLength ;;
    id <- Buffer.writeUInt16BE (RequestID r) ;;
    fl <- Buffer.writeUInt8 finalFlags ;;
    Ok (startBytes ++ len ++ id ++ fl ++ Data r ++ endBytes).

End HCIRequest.

(* ================================================================== *)
(** ** [RequestCrosspointLevelActions] (message 0x0026) *)

Module RequestCrosspointLevelActions.

Record CrosspointLevelAction := {
  destinationPort : Z;
  sourcePort : Z;
  levelValue : Z
}.

(** The body of the [for] loop of [createPayload] for one action. *)
Definition encodeAction (action : CrosspointLevelAction) : outcome Buffer.t :=
  if (destinationPort action <? 1) || (destinationPort action >? 1024) then
    Threw ValidationError
  else if (sourcePort action <? 1) || (sourcePort action >? 1024) then
    Threw ValidationError
  else if negb (LevelConversion.isValidLevel (levelValue action)) then
    Threw ValidationError
  else
    d <- Buffer.writeUInt16BE (destinationPort action - 1) ;;
    s <- Buffer.writeUInt16BE (sourcePort action - 1) ;;
    l <- Buffer.writeUInt16BE (levelValue action) ;;
    Ok (d ++ s ++ l).

Fixpoint encodeActions (actions : list CrosspointLevelAction) : outcome (list Buffer.t) :=
  match actions with
  | [] => Ok []
  | action :: rest =>
      actionBuffer <- encodeAction action ;;
      actionBuffers <- encodeActions rest ;;
      Ok (actionBuffer :: actionBuffers)
  end.

(** [createPayload(actions)]. *)
Definition createPayload (actions : list CrosspointLevelAction) : outcome Buffer.t :=
  countBuffer <- Buffer.writeUInt16BE (Z.of_nat (List.length actions)) ;;
  actionBuffers <- encodeActions actions ;;
  Ok (Buffer.concat [countBuffer; Buffer.concat actionBuffers]).

(** The constructor: the payload is built first, then the parent is
    initialised with message id 0x0026 and the protocol version set. *)
Definition new (actions : list CrosspointLevelAction) (urgent : bool)
    (responseID : option Z) (now : Z) : outcome HCIRequest.t :=
  payload <- createPayload actions ;;
  Ok (HCIRequest.set_ProtocolVersion
        (HCIRequest.new 0x0026 payload urgent responseID now) 1).

End RequestCrosspointLevelActions.

(* ================================================================== *)
(** ** [ReplyCrosspointLevelStatus] (message 0x0028) *)

Module ReplyCrosspointLevelStatus.

Record CrosspointLevelData := {
  destinationPort : Z;
  sourcePort : Z;
  levelValue : Z;
  levelDB : JSNumber.number
}.

(** [rawPayload] holds the payload bytes (the source stores their
    hexadecimal rendering); [timestamp] is the clock reading. *)
Record CrosspointLevelStatusData := {
  messageID : Z;
  timestamp : Z;
  count : Z;
  levelData : list CrosspointLevelData;
  rawPayload : Buffer.t
}.

(** The [for (let i = 0; i < count; i++)] loop, [n] iterations left;
    [None] is the [return null] inside the loop. *)
Fixpoint parseEntries (n : nat) (payload : Buffer.t) (offset : Z)
    : outcome (option (list CrosspointLevelData)) :=
  match n with
  | O => Ok (Some [])
  | S n' =>
      if offset + 6 >? Buffer.length payload then Ok None
      else
        d <- Buffer.readUInt16BE payload offset ;;
        s <- Buffer.readUInt16BE payload (offset + 2) ;;
        l <- Buffer.readUInt16BE payload (offset + 4) ;;
        let e := {| destinationPort := d + 1;
                    sourcePort := s + 1;
                    levelValue := l;
                    levelDB := LevelConversion.levelToDB (JSNumber.of_Z l) |} in
        rest <- parseEntries n' payload (offset + 6) ;;
        Ok (option_map (cons e) rest)
  end.

(** [parse(payload)]; [None] is [null]. *)
Definition parse (payload : Buffer.t) (now : Z)
    : outcome (option CrosspointLevelStatusData) :=
  if Buffer.length payload <? 2 then Ok None
  else
    count <- Buffer.readUInt16BE payload 0 ;;
    let expectedDataSize := count * 6 in
    if Buffer.length payload <? 2 + expectedDataSize then Ok None
    else
      entries <- parseEntries (Z.to_nat count) payload 2 ;;
      Ok (option_map
            (fun levelData =>
               {| messageID := 0x0028;
                  timestamp := now;
                  count := count;
                  levelData := levelData;
                  rawPayload := payload |})
            entries).

End ReplyCrosspointLevelStatus.

(* ================================================================== *)
(** ** [RequestCrosspointActions] (message 0x0011) *)

Module RequestCrosspointActions.

Inductive Direction := add | delete.
Inductive EnableDisable := enable | inhibit.

Record CrosspointAction := {
  direction : Direction;
  destinationPort : Z;
  sourcePort : Z;
  enableDisable : EnableDisable;
  priority : Z
}.

(** [validatePorts(sourcePort, destinationPort)]. *)
Definition validatePorts (sourcePort destinationPort : Z) : bool :=
  (sourcePort >? 0) && (sourcePort <=? 1024) &&
  (destinationPort >? 0) && (destinationPort <=? 1024).

Definition word0 (action : CrosspointAction) : Z :=
  let w := 0 in
  let w := match direction action with add => Z.lor w 0x0001 | delete => w end in
  let w := Z.lor w (Z.shiftl (Z.land (Z.shiftr (destinationPort action) 8) 0x03) 1) in
  let w := Z.lor w 0x0400 in
  let w := Z.lor w (Z.shiftl (Z.land (Z.shiftr (sourcePort action - 1) 8) 0x03) 11) in
  Z.lor w 0x2000.

Definition word1 (action : CrosspointAction) : Z :=
  let w := 0 in
  let w := Z.lor w (Z.land (destinationPort action - 1) 0xFF) in
  Z.lor w (Z.shiftl (Z.land (sourcePort action - 1) 0xFF) 8).

Definition word3 (action : CrosspointAction) : Z :=
  let w := 0 in
  let w := Z.lor w 0x0002 in
  let w := Z.lor w 0x03F8 in
  let w := match enableDisable action with inhibit => Z.lor w 0x0800 | enable => w end in
  Z.lor w (Z.shiftl (Z.land (priority action) 0x07) 13).

(** The body of the [for] loop of [createPayload] for one action. *)
Definition encodeAction (action : CrosspointAction) : outcome Buffer.t :=
  if negb (validatePorts (sourcePort action) (destinationPort action)) then
    Threw ValidationError
  else if (priority action <? 0) || (priority action >? 7) then
    Threw ValidationError
  else
    actionTypeBuffer <- Buffer.writeUInt16BE 0x0001 ;;
    w0 <- Buffer.writeUInt16BE (word0 action) ;;
    w1 <- Buffer.writeUInt16BE (word1 action) ;;
    w2 <- Buffer.writeUInt16BE 0x0000 ;;
    w3 <- Buffer.writeUInt16BE (word3 action) ;;
    Ok (Buffer.concat [actionTypeBuffer; w0 ++ w1 ++ w2 ++ w3]).

Fixpoint encodeActions (actions : list CrosspointAction) : outcome (list Buffer.t) :=
  match actions with
  | [] => Ok []
  | action :: rest =>
      b <- encodeAction action ;;
      bs <- encodeActions rest ;;
      Ok (b :: bs)
  end.

(** [createPayload(actions)]. *)
Definition createPayload (actions : list CrosspointAction) : outcome Buffer.t :=
  countBuffer <- Buffer.writeUInt16BE (Z.of_nat (List.length actions)) ;;
  actionDataBuffers <- encodeActions actions ;;
  Ok (Buffer.concat [countBuffer; Buffer.concat actionDataBuffers]).

Definition new (actions : list CrosspointAction) (urgent : bool)
    (responseID : option Z) (now : Z) : outcome HCIRequest.t :=
  payload <- createPayload actions ;;
  Ok (HCIRequest.set_ProtocolVersion
        (HCIRequest.new 0x0011 payload urgent responseID now) 2).

End RequestCrosspointActions.

(* ================================================================== *)
(** ** [EclipseHCI], the [handleMessage] / [addToQueue] / [processQueue]
       class (src/EclipseHCI.ts) *)

Module EclipseHCI.

(** The instance fields.  [socket] is a handle to the [net.Socket];
    [queueProcessor] holds the period of the running [setInterval] timer;
    [wire] records, in order, every buffer passed to [socket.write].
    The [address] and [port] fields only feed log messages. *)
Record t := {
  connected : bool;
  socket : option nat;
  buffer : Buffer.t;
  messageQueue : list HCIRequest.t;
  queueProcessor : option Z;
  rateLimitMs : Z;
  isProcessingQueue : bool;
  wire : list Buffer.t
}.

(** State right after the field initialisers of the constructor. *)
Definition init (rateLimitMs : Z) : t :=
  {| connected := false; socket := None; buffer := Buffer.alloc0;
     messageQueue := []; queueProcessor := None; rateLimitMs := rateLimitMs;
     isProcessingQueue := false; wire := [] |}.

Definition with_connected (s : t) (v : bool) : t :=
  {| connected := v; socket := socket s; buffer := buffer s;
     messageQueue := messageQueue s; queueProcessor := queueProcessor s;
     rateLimitMs := rateLimitMs s; isProcessingQueue := isProcessingQueue s;
     wire := wire s |}.

Definition with_socket (s : t) (v : option nat) : t :=
  {| connected := connected s; socket := v; buffer := buffer s;
     messageQueue := messageQueue s; queueProcessor := queueProcessor s;
     rateLimitMs := rateLimitMs s; isProcessingQueue := isProcessingQueue s;
     wire := wire s |}.

Definition with_buffer (s : t) (v : Buffer.t) : t :=
  {| connected := connected s; socket := socket s; buffer := v;
     messageQueue := messageQueue s; queueProcessor := queueProcessor s;
     rateLimitMs := rateLimitMs s; isProcessingQueue := isProcessingQueue s;
     wire := wire s |}.

Definition with_messageQueue (s : t) (v : list HCIRequest.t) : t :=
  {| connected := connected s; socket := socket s; buffer := buffer s;
     messageQueue := v; queueProcessor := queueProcessor s;
     rateLimitMs := rateLimitMs s; isProcessingQueue := isProcessingQueue s;
     wire := wire s |}.

Definition with_queueProcessor (s : t) (v : option Z) : t :=
  {| connected := connected s; socket := socket s; buffer := buffer s;
     messageQueue := messageQueue s; queueProcessor := v;
     rateLimitMs := rateLimitMs s; isProcessingQueue := isProcessingQueue s;
     wire := wire s |}.

Definition with_isProcessingQueue (s : t) (v : bool) : t :=
  {| connected := connected s; socket := socket s; buffer := buffer s;
     messageQueue := messageQueue s; queueProcessor := queueProcessor s;
     rateLimitMs := rateLimitMs s; isProcessingQueue := v;
     wire := wire s |}.

Definition with_wire (s : t) (v : list Buffer.t) : t :=
  {| connected := connected s; socket := socket s; buffer := buffer s;
     messageQueue := messageQueue s; queueProcessor := queueProcessor s;
     rateLimitMs := rateLimitMs s; isProcessingQueue := isProcessingQueue s;
     wire := v |}.

(* ---------------------------------------------------------------- *)
(** *** [processMessage] *)

Record Flags := {
  E : bool; M : bool; U : bool; G : bool; S : bool; N : bool;
  Reserved1 : bool; Reserved2 : bool
}.

Definition decodeFlags (flagsByte : Z) : Flags :=
  {| E := negb (Z.land flagsByte 0x01 =? 0);
     M := negb (Z.land flagsByte 0x02 =? 0);
     U := negb (Z.land flagsByte 0x04 =? 0);
     G := negb (Z.land flagsByte 0x08 =? 0);
     S := negb (Z.land flagsByte 0x10 =? 0);
     N := negb (Z.land flagsByte 0x20 =? 0);
     Reserved1 := negb (Z.land flagsByte 0x40 =? 0);
     Reserved2 := negb (Z.land flagsByte 0x80 =? 0) |}.

Inductive HCIVersion := HCIv1 | HCIv2.

(** The header fields [processMessage] has decoded when it reaches the
    payload extraction. *)
Record Header := {
  messageID : Z;
  flags : Flags;
  hciVersion : HCIVersion;
  protocolVersion : option Z
}.

(** How a call of [processMessage] ends: one of the three early
    [return]s, or the call of [ProcessHCI.handleMessageByID] with the
    header and the payload. *)
Inductive processed :=
| LengthFieldMismatch
| MessageTooShort
| NoPayload (h : Header)
| HandleMessageByID (h : Header) (payload : Buffer.t).

Definition expectedV2Signature : Buffer.t := [xab; xba; xce; xde].

Definition processMessage (message : Buffer.t) : outcome processed :=
  lengthField <- Buffer.readUInt16BE message (Buffer.length startBytes) ;;
  if negb (lengthField =? Buffer.length message) then Ok LengthFieldMismatch
  else if Buffer.length message <? Buffer.length startBytes + 2 + 2 + 1 then
    Ok MessageTooShort
  else
    messageID <- Buffer.readUInt16BE message (Buffer.length startBytes + 2) ;;
    flagsByte <- Buffer.readUInt8 message (Buffer.length startBytes + 2 + 2) ;;
    let flags := decodeFlags flagsByte in
    let payloadStart := Buffer.length startBytes + 2 + 2 + 1 in
    version <-
      (if Buffer.length message >=? payloadStart + 4 then
         let versionBytes := Buffer.subarray message payloadStart (payloadStart + 4) in
         if Buffer.equals versionBytes expectedV2Signature then
           let payloadStart := payloadStart + 4 in
           if Buffer.length message >=? payloadStart + 1 then
             protocolVersion <- Buffer.readUInt8 message payloadStart ;;
             Ok (HCIv2, Some protocolVersion, payloadStart + 1)
           else Ok (HCIv2, None, payloadStart)
         else Ok (HCIv1, None, payloadStart)
       else Ok (HCIv1, None, payloadStart)) ;;
    let '(hciVersion, protocolVersion, payloadStart) := version in
    let h := {| messageID := messageID; flags := flags;
                hciVersion := hciVersion; protocolVersion := protocolVersion |} in
    let payloadEnd := Buffer.length message - Buffer.length endBytes in
    if payloadEnd <=? payloadStart then Ok (NoPayload h)
    else Ok (HandleMessageByID h (Buffer.subarray message payloadStart payloadEnd)).

(* ---------------------------------------------------------------- *)
(** *** [handleMessage] *)

(** One pass through the body of the [while] loop, entered with a
    non-empty buffer. *)
Inductive iteration :=
| Break (buffer : Buffer.t)
| Continue (buffer : Buffer.t)
| Process (completeMessage : Buffer.t) (buffer : Buffer.t).

(** The body from the check of the length field on; [buffer] is the
    buffer after the bytes before the start marker have been dropped. *)
Definition handleMessage_framed (buffer : Buffer.t) : outcome iteration :=
  if Buffer.length buffer <? Buffer.length startBytes + 2 then Ok (Break buffer)
  else
    lengthField <- Buffer.readUInt16BE buffer (Buffer.length startBytes) ;;
    if Buffer.length buffer <? lengthField then Ok (Break buffer)
    else
      let completeMessage := Buffer.subarray buffer 0 lengthField in
      let expectedEndStart := lengthField - Buffer.length endBytes in
      let actualEndBytes := Buffer.subarray_from completeMessage expectedEndStart in
      if negb (Buffer.equals actualEndBytes endBytes) then
        Ok (Continue (Buffer.subarray_from buffer (Buffer.length startBytes)))
      else
        Ok (Process completeMessage (Buffer.subarray_from buffer lengthField)).

Definition handleMessage_body (buffer : Buffer.t) : outcome iteration :=
  let startIndex := Buffer.indexOf buffer startBytes in
  if startIndex =? -1 then Ok (Break buffer)
  else
    let buffer := if startIndex >? 0 then Buffer.subarray_from buffer startIndex
                  else buffer in
    handleMessage_framed buffer.

(** The [while (this.buffer.length > 0)] loop.  The result is the list
    of buffers handed to [processMessage], in call order, and the buffer
    left in [this.buffer]; [None] means the fuel ran out before the loop
    ended.  [processMessage] returns normally on every message the loop
    hands over (the handler it calls is outside this model), so its
    outcome does not influence the loop. *)
Fixpoint handleMessage_loop (fuel : nat) (buffer : Buffer.t)
    : option (outcome (list Buffer.t * Buffer.t)) :=
  if Buffer.length buffer >? 0 then
    match fuel with
    | O => None
    | Datatypes.S fuel' =>
        match handleMessage_body buffer with
        | Threw e => Some (Threw e)
        | Ok (Break buffer') => Some (Ok ([], buffer'))
        | Ok (Continue buffer') => handleMessage_loop fuel' buffer'
        | Ok (Process completeMessage buffer') =>
            match handleMessage_loop fuel' buffer' with
            | Some (Ok (ms, rest)) => Some (Ok (completeMessage :: ms, rest))
            | other => other
            end
        end
    end
  else Some (Ok ([], buffer)).

(** Every pass that does not leave the loop shortens the buffer, so its
    length bounds the number of passes. *)
Definition enough_fuel (buffer : Buffer.t) : nat := Datatypes.S (List.length buffer).

(** [handleMessage(data)]: the new instance state and the messages
    handed to [processMessage]. *)
Definition handleMessage (s : t) (data : Buffer.t)
    : option (outcome (t * list Buffer.t)) :=
  let buffer := Buffer.concat [buffer s; data] in
  match handleMessage_loop (enough_fuel buffer) buffer with
  | Some (Ok (ms, rest)) => Some (Ok (with_buffer s rest, ms))
  | Some (Threw e) => Some (Threw e)
  | None => None
  end.

(* ---------------------------------------------------------------- *)
(** *** The queue *)

(** The [for] loop of [addToQueue] that computes [insertIndex]; [i] is
    the loop index at the head of [queue]. *)
Fixpoint findInsertIndex (queue : list HCIRequest.t) (i insertIndex : nat) : nat :=
  match queue with
  | [] => insertIndex
  | r :: rest =>
      if HCIRequest.Urgent r then findInsertIndex rest (Datatypes.S i) (Datatypes.S i)
      else insertIndex
  end.

(** [array.splice(index, 0, x)]. *)
Definition splice_insert {A : Type} (l : list A) (index : nat) (x : A) : list A :=
  firstn index l ++ x :: skipn index l.

Definition addToQueue (s : t) (request : HCIRequest.t) : t :=
  if HCIRequest.Urgent request then
    let insertIndex := findInsertIndex (messageQueue s) 0 0 in
    with_messageQueue s (splice_insert (messageQueue s) insertIndex request)
  else
    with_messageQueue s (messageQueue s ++ [request]).

Definition createAndQueueMessage (s : t) (requestID : Z) (data : Buffer.t)
    (urgent : bool) (responseID : option Z) (now : Z) : t :=
  addToQueue s (HCIRequest.new requestID data urgent responseID now).

Definition startQueueProcessor (s : t) : t :=
  with_queueProcessor s (Some (rateLimitMs s)).

Definition stopQueueProcessor (s : t) : t :=
  match queueProcessor s with
  | Some _ => with_queueProcessor s None
  | None => s
  end.

(** [sendHCIRequest(request)].  (The copy of this class that passes
    [request.getRequest()] instead of [request.Data] to [socket.write]
    differs only in the bytes of that one write.) *)
Definition sendHCIRequest (s : t) (request : HCIRequest.t) : t :=
  match socket s with
  | None => s
  | Some _ =>
      if negb (connected s) then s
      else with_wire s (wire s ++ [HCIRequest.Data request])
  end.

(** [processQueue()], run to completion: the body has a single [await]
    on a call that never suspends, so the [finally] clause runs before
    any other timer callback. *)
Definition processQueue (s : t) : t :=
  if isProcessingQueue s || negb (connected s)
     || (Z.of_nat (List.length (messageQueue s)) =? 0)
  then s
  else
    let s := with_isProcessingQueue s true in
    let s :=
      match messageQueue s with
      | request :: rest => sendHCIRequest (with_messageQueue s rest) request
      | [] => s
      end in
    with_isProcessingQueue s false.

(** A firing of the [setInterval] timer installed by
    [startQueueProcessor]; without a running timer nothing fires. *)
Definition tick (s : t) : t :=
  match queueProcessor s with
  | Some _ => processQueue s
  | None => s
  end.

Definition clearQueue (s : t) : t := with_messageQueue s [].

(** [getQueueStatus()]: total, urgent, normal. *)
Definition getQueueStatus (s : t) : Z * Z * Z :=
  let urgent := Z.of_nat (List.length (filter HCIRequest.Urgent (messageQueue s))) in
  let total := Z.of_nat (List.length (messageQueue s)) in
  (total, urgent, total - urgent).

(* ---------------------------------------------------------------- *)
(** *** Socket handlers installed by [setupSocketHandlers] *)

Definition on_data (s : t) (data : Buffer.t) : option (outcome (t * list Buffer.t)) :=
  let s := if negb (connected s)
           then startQueueProcessor (with_connected s true)
           else s in
  handleMessage s data.

Definition on_close (s : t) : t :=
  stopQueueProcessor (with_socket (with_connected s false) None).

Definition on_error (s : t) : t :=
  stopQueueProcessor (with_socket (with_connected s false) None).

Definition disconnect (s : t) : t :=
  with_connected (with_socket (stopQueueProcessor s) None) false.

End EclipseHCI.

(* ================================================================== *)
(** ** [EclipseHCI], the [handleData] / [enqueue] / [drain] class
       (the self-contained EclipseHCI.ts with its own [HCIRequest] and
       the [HCI] framing helpers) *)

Module EclipseHCIv2.

(** The static helpers of class [HCI]. *)
Module HCI.

Definition buildPacket (requestId : Z) (payload : Buffer.t) : outcome Buffer.t :=
  let total := 4 + Buffer.length payload + 2 in
  len <- Buffer.writeUInt16BE total ;;
  Ok (startBytes ++ len ++ payload ++ endBytes).

Definition v2Payload (requestId : Z) (data : Buffer.t) (token : Z) : outcome Buffer.t :=
  id <- Buffer.writeUInt16BE requestId ;;
  tok <- Buffer.writeUInt32BE token ;;
  Ok (id ++ tok ++ data).

End HCI.

(** The file's own minimal [HCIRequest]. *)
Module Request.

Record t := {
  RequestID : Z;
  Data : Buffer.t;
  Urgent : bool;
  ResponseID : option Z
}.

Definition getRequest (r : t) : outcome Buffer.t :=
  HCI.buildPacket (RequestID r) (Data r).

End Request.

Inductive ConnectionState := disconnected | connecting | connected | authenticated.

(** What the instance emits through its [EventEmitter]. *)
Inductive Event :=
| ev_statechange (st : ConnectionState)
| ev_connected
| ev_disconnected
| ev_authenticated (token : Z)
| ev_response (packet : Buffer.t)
| ev_response_id (reqId : Z) (payload : Buffer.t).

(** The instance fields; [opts_*] are the options the handlers read.
    [timer] and [reconnectTimer] hold the delay of the pending timer;
    [wire] records every buffer passed to [socket.write]; [emitted]
    records the emitted events. *)
Record t := {
  opts_rateLimitMs : Z;
  opts_reconnect : bool;
  opts_reconnectDelayMs : Z;
  socket : option nat;
  buffer : Buffer.t;
  queue : list Request.t;
  timer : option Z;
  processing : bool;
  reconnectTimer : option Z;
  state : ConnectionState;
  sessionToken : Z;
  wire : list Buffer.t;
  emitted : list Event
}.

Definition init (rateLimitMs : Z) (reconnect : bool) (reconnectDelayMs : Z) : t :=
  {| opts_rateLimitMs := rateLimitMs; opts_reconnect := reconnect;
     opts_reconnectDelayMs := reconnectDelayMs; socket := None;
     buffer := Buffer.alloc0; queue := []; timer := None; processing := false;
     reconnectTimer := None; state := disconnected; sessionToken := 0;
     wire := []; emitted := [] |}.

Definition with_socket (s : t) (v : option nat) : t :=
  {| opts_rateLimitMs := opts_rateLimitMs s; opts_reconnect := opts_reconnect s;
     opts_reconnectDelayMs := opts_reconnectDelayMs s; socket := v;
     buffer := buffer s; queue := queue s; timer := timer s;
     processing := processing s; reconnectTimer := reconnectTimer s;
     state := state s; sessionToken := sessionToken s; wire := wire s;
     emitted := emitted s |}.

Definition with_buffer (s : t) (v : Buffer.t) : t :=
  {| opts_rateLimitMs := opts_rateLimitMs s; opts_reconnect := opts_reconnect s;
     opts_reconnectDelayMs := opts_reconnectDelayMs s; socket := socket s;
     buffer := v; queue := queue s; timer := timer s;
     processing := processing s; reconnectTimer := reconnectTimer s;
     state := state s; sessionToken := sessionToken s; wire := wire s;
     emitted := emitted s |}.

Definition with_queue (s : t) (v : list Request.t) : t :=
  {| opts_rateLimitMs := opts_rateLimitMs s; opts_reconnect := opts_reconnect s;
     opts_reconnectDelayMs := opts_reconnectDelayMs s; socket := socket s;
     buffer := buffer s; queue := v; timer := timer s;
     processing := processing s; reconnectTimer := reconnectTimer s;
     state := state s; sessionToken := sessionToken s; wire := wire s;
     emitted := emitted s |}.

Definition with_timer (s : t) (v : option Z) : t :=
  {| opts_rateLimitMs := opts_rateLimitMs s; opts_reconnect := opts_reconnect s;
     opts_reconnectDelayMs := opts_reconnectDelayMs s; socket := socket s;
     buffer := buffer s; queue := queue s; timer := v;
     processing := processing s; reconnectTimer := reconnectTimer s;
     state := state s; sessionToken := sessionToken s; wire := wire s;
     emitted := emitted s |}.

Definition with_processing (s : t) (v : bool) : t :=
  {| opts_rateLimitMs := opts_rateLimitMs s; opts_reconnect := opts_reconnect s;
     opts_reconnectDelayMs := opts_reconnectDelayMs s; socket := socket s;
     buffer := buffer s; queue := queue s; timer := timer s;
     processing := v; reconnectTimer := reconnectTimer s;
     state := state s; sessionToken := sessionToken s; wire := wire s;
     emitted := emitted s |}.

Definition with_reconnectTimer (s : t) (v : option Z) : t :=
  {| opts_rateLimitMs := opts_rateLimitMs s; opts_reconnect := opts_reconnect s;
     opts_reconnectDelayMs := opts_reconnectDelayMs s; socket := socket s;
     buffer := buffer s; queue := queue s; timer := timer s;
     processing := processing s; reconnectTimer := v;
     state := state s; sessionToken := sessionToken s; wire := wire s;
     emitted := emitted s |}.

Definition with_state (s : t) (v : ConnectionState) : t :=
  {| opts_rateLimitMs := opts_rateLimitMs s; opts_reconnect := opts_reconnect s;
     opts_reconnectDelayMs := opts_reconnectDelayMs s; socket := socket s;
     buffer := buffer s; queue := queue s; timer := timer s;
     processing := processing s; reconnectTimer := reconnectTimer s;
     state := v; sessionToken := sessionToken s; wire := wire s;
     emitted := emitted s |}.

Definition with_sessionToken (s : t) (v : Z) : t :=
  {| opts_rateLimitMs := opts_rateLimitMs s; opts_reconnect := opts_reconnect s;
     opts_reconnectDelayMs := opts_reconnectDelayMs s; socket := socket s;
     buffer := buffer s; queue := queue s; timer := timer s;
     processing := processing s; reconnectTimer := reconnectTimer s;
     state := state s; sessionToken := v; wire := wire s;
     emitted := emitted s |}.

Definition with_wire (s : t) (v : list Buffer.t) : t :=
  {| opts_rateLimitMs := opts_rateLimitMs s; opts_reconnect := opts_reconnect s;
     opts_reconnectDelayMs := opts_reconnectDelayMs s; socket := socket s;
     buffer := buffer s; queue := queue s; timer := timer s;
     processing := processing s; reconnectTimer := reconnectTimer s;
     state := state s; sessionToken := sessionToken s; wire := v;
     emitted := emitted s |}.

Definition emit (s : t) (e : Event) : t :=
  {| opts_rateLimitMs := opts_rateLimitMs s; opts_reconnect := opts_reconnect s;
     opts_reconnectDelayMs := opts_reconnectDelayMs s; socket := socket s;
     buffer := buffer s; queue := queue s; timer := timer s;
     processing := processing s; reconnectTimer := reconnectTimer s;
     state := state s; sessionToken := sessionToken s; wire := wire s;
     emitted := emitted s ++ [e] |}.

(* ---------------------------------------------------------------- *)
(** *** [handlePacket] and [handleData] *)

Definition handlePacket (s : t) (packet : Buffer.t) : outcome t :=
  let payload := Buffer.subarray packet 4 (-2) in
  reqId <- Buffer.readUInt16BE payload 0 ;;
  if reqId =? 0x8001 then
    token <- Buffer.readUInt32BE payload 2 ;;
    let s := with_sessionToken s token in
    let s := with_state s authenticated in
    let s := emit s (ev_authenticated (sessionToken s)) in
    Ok (emit s (ev_statechange (state s)))
  else
    let s := emit s (ev_response packet) in
    Ok (emit s (ev_response_id reqId payload)).

(** How a call of [handleData] ends: it returns, an exception escapes
    it, or the loop is still running when the fuel is used up.  The
    list holds the packets passed to [handlePacket], in call order. *)
Inductive run :=
| Returned (s : t) (packets : list Buffer.t)
| Raised (s : t) (packets : list Buffer.t) (e : list byte)
| OutOfFuel.

(** The [while (this.buffer.length >= 6)] loop. *)
Fixpoint handleData_loop (fuel : nat) (s : t) (packets : list Buffer.t) : run :=
  if Buffer.length (buffer s) >=? 6 then
    match fuel with
    | O => OutOfFuel
    | S fuel' =>
        if negb (Buffer.equals (Buffer.subarray (buffer s) 0 2) startBytes) then
          let idx := Buffer.indexOf (buffer s) startBytes in
          let s := with_buffer s (if idx =? -1 then Buffer.alloc0
                                  else Buffer.subarray_from (buffer s) idx) in
          handleData_loop fuel' s packets
        else
          match Buffer.readUInt16BE (buffer s) 2 with
          | Threw e => Raised s packets e
          | Ok len =>
              if Buffer.length (buffer s) <? len then Returned s packets
              else
                let packet := Buffer.subarray (buffer s) 0 len in
                let s := with_buffer s (Buffer.subarray_from (buffer s) len) in
                if negb (Buffer.equals (Buffer.subarray_from packet (-2)) endBytes) then
                  handleData_loop fuel' s packets
                else
                  match handlePacket s packet with
                  | Threw e => Raised s (packets ++ [packet]) e
                  | Ok s' => handleData_loop fuel' s' (packets ++ [packet])
                  end
          end
    end
  else Returned s packets.

(** [handleData(data)] with [fuel] passes of the loop allowed. *)
Definition handleData (fuel : nat) (s : t) (data : Buffer.t) : run :=
  handleData_loop fuel (with_buffer s (Buffer.concat [buffer s; data])) [].

(* ---------------------------------------------------------------- *)
(** *** The queue *)

(** [array.findIndex(p)], scanning from index [i]; [None] is -1. *)
Fixpoint findIndex {A : Type} (p : A -> bool) (l : list A) (i : nat) : option nat :=
  match l with
  | [] => None
  | x :: rest => if p x then Some i else findIndex p rest (S i)
  end.

Definition enqueue (s : t) (req : Request.t) : t :=
  if Request.Urgent req then
    match findIndex (fun r => negb (Request.Urgent r)) (queue s) 0 with
    | None => with_queue s (queue s ++ [req])
    | Some idx => with_queue s (EclipseHCI.splice_insert (queue s) idx req)
    end
  else with_queue s (queue s ++ [req]).

Definition sendRaw (s : t) (packet : Buffer.t) (urgent : bool) : t :=
  enqueue s {| Request.RequestID := 0; Request.Data := packet;
               Request.Urgent := urgent; Request.ResponseID := None |}.

Definition sendCommand (s : t) (id : Z) (data : Buffer.t) (urgent : bool) : outcome t :=
  payload <- HCI.v2Payload id data (sessionToken s) ;;
  packet <- HCI.buildPacket id payload ;;
  Ok (sendRaw s packet urgent).

Definition startQueue (s : t) : t := with_timer s (Some (opts_rateLimitMs s)).

Definition stopQueue (s : t) : t := with_timer s None.

(** [drain()].  When [getRequest] throws, the function is left with
    [processing] still set and nothing written. *)
Definition drain (s : t) : t :=
  if processing s
  then s
  else
    match socket s with
    | None => s
    | Some _ =>
        if Z.of_nat (List.length (queue s)) =? 0 then s
        else
          let s := with_processing s true in
          match queue s with
          | req :: rest =>
              let s := with_queue s rest in
              match Request.getRequest req with
              | Ok frame => with_processing (with_wire s (wire s ++ [frame])) false
              | Threw _ => s
              end
          | [] => s
          end
    end.

(** A firing of the [setInterval] timer installed by [startQueue]. *)
Definition tick (s : t) : t :=
  match timer s with
  | Some _ => drain s
  | None => s
  end.

(* ---------------------------------------------------------------- *)
(** *** Socket handlers installed by [setupSocket] *)

Definition handleClose (s : t) (hadError : bool) : t :=
  let s := with_state s disconnected in
  let s := with_sessionToken s 0 in
  let s := stopQueue s in
  let s := with_socket s None in
  let s := emit s ev_disconnected in
  let s := emit s (ev_statechange (state s)) in
  if opts_reconnect s then
    match reconnectTimer s with
    | None => with_reconnectTimer s (Some (opts_reconnectDelayMs s))
    | Some _ => s
    end
  else s.

(** The ['error'] listener only logs. *)
Definition on_error (s : t) : t := s.

(** A transport error as the instance sees it: [net.Socket] emits
    ['error'] and then ['close'] with [hadError = true]. *)
Definition transport_error (s : t) : t := handleClose (on_error s) true.

End EclipseHCIv2.

(* ================================================================== *)
(** ** Submitting a request

    The README's usage, [eclipse.addToQueue(new Request...(actions,
    urgent))]: the constructor runs first, and when it throws the call of
    [addToQueue] is never reached, so the instance is left as it was. *)

Module Submit.

Definition crosspointActions (s : EclipseHCI.t)
    (actions : list RequestCrosspointActions.CrosspointAction)
    (urgent : bool) (now : Z) : EclipseHCI.t * outcome unit :=
  match RequestCrosspointActions.new actions urgent None now with
  | Threw e => (s, Threw e)
  | Ok request => (EclipseHCI.addToQueue s request, Ok tt)
  end.

Definition crosspointLevelActions (s : EclipseHCI.t)
    (actions : list RequestCrosspointLevelActions.CrosspointLevelAction)
    (urgent : bool) (now : Z) : EclipseHCI.t * outcome unit :=
  match RequestCrosspointLevelActions.new actions urgent None now with
  | Threw e => (s, Threw e)
  | Ok request => (EclipseHCI.addToQueue s request, Ok tt)
  end.

End Submit.

(* ================================================================== *)
(** ** Notions used in the statements *)

(** A well-formed frame: it opens with the start marker, its length field
    holds its own byte count, and its last two bytes are the end marker. *)
Definition valid_frame (f : Buffer.t) : Prop :=
  Buffer.starts_with startBytes f = true /\
  Buffer.readUInt16BE f 2 = Ok (Buffer.length f) /\
  Buffer.subarray_from f (-2) = endBytes.

(** The record [ReplyCrosspointLevelStatus.parse] is expected to return
    for a list of level actions: the same ports and level values, each
    with the dB value [parse] attaches to it. *)
Definition decodedLevelAction (a : RequestCrosspointLevelActions.CrosspointLevelAction)
    : ReplyCrosspointLevelStatus.CrosspointLevelData :=
  {| ReplyCrosspointLevelStatus.destinationPort :=
       RequestCrosspointLevelActions.destinationPort a;
     ReplyCrosspointLevelStatus.sourcePort :=
       RequestCrosspointLevelActions.sourcePort a;
     ReplyCrosspointLevelStatus.levelValue :=
       RequestCrosspointLevelActions.levelValue a;
     ReplyCrosspointLevelStatus.levelDB :=
       LevelConversion.levelToDB
         (JSNumber.of_Z (RequestCrosspointLevelActions.levelValue a)) |}.

(** Ports in 1..1024 and a level in 0..287. *)
Definition inRangeLevelAction (a : RequestCrosspointLevelActions.CrosspointLevelAction)
    : Prop :=
  1 <= RequestCrosspointLevelActions.destinationPort a <= 1024 /\
  1 <= RequestCrosspointLevelActions.sourcePort a <= 1024 /\
  0 <= RequestCrosspointLevelActions.levelValue a <= 287.

(** A port field outside the accepted 1..1024. *)
Definition portOutOfRange (p : Z) : Prop := p < 1 \/ 1024 < p.

(** Byte sequences used in the scenarios below. *)
Module Scenario.

(** The fourteen bytes of the specification's scenario, with the length
    field 0x000B as printed there. *)
Definition printed : Buffer.t :=
  [x5a; x0f; x00; x0b; x00; x0d; x08; xab; xba; xce; xde; x01; x2e; x8d].

(** The same bytes with the length field holding their count, 0x000E. *)
Definition counted : Buffer.t :=
  [x5a; x0f; x00; x0e; x00; x0d; x08; xab; xba; xce; xde; x01; x2e; x8d].

(** A well-formed eight-byte frame. *)
Definition frame8 : Buffer.t := [x5a; x0f; x00; x08; x00; x0d; x2e; x8d].

(** A stray start marker directly followed by [frame8] and by zero
    bytes up to 0x5A0F = 23055 bytes in all: the candidate that starts
    at the stray marker reads the marker of [frame8] as its length. *)
Definition strayMarkerThenFrame : Buffer.t :=
  startBytes ++ frame8 ++ repeat x00 (Z.to_nat 23045).

(** A six-byte candidate with a wrong end marker and one more byte. *)
Definition badEndThenByte : Buffer.t := [x5a; x0f; x00; x06; x00; x00; x01].

(** Five bytes of noise and [frame8], cut inside the start marker. *)
Definition noiseChunk : Buffer.t := [x00; x00; x00; x00; x00; x5a].
Definition frameChunk : Buffer.t := [x0f; x00; x08; x00; x0d; x2e; x8d].

End Scenario.

(** The requests that are not urgent, for either queue. *)
Definition normalRequest (r : HCIRequest.t) : bool := negb (HCIRequest.Urgent r).
Definition normalRequest2 (r : EclipseHCIv2.Request.t) : bool :=
  negb (EclipseHCIv2.Request.Urgent r).

Module Feed.

(** The messages [ms] of an earlier run of the loop put in front of the
    messages of a later run. *)
Definition after (ms : list Buffer.t)
    (later : option (outcome (list Buffer.t * Buffer.t)))
    : option (outcome (list Buffer.t * Buffer.t)) :=
  match later with
  | Some (Ok (ms', rest)) => Some (Ok (ms ++ ms', rest))
  | other => other
  end.

(** Successive ['data'] events on the [handleMessage] class: the chunks
    go through [handleMessage] one call after the other; the messages
    handed to [processMessage] are collected in call order. *)
Fixpoint handleMessages (s : EclipseHCI.t) (chunks : list Buffer.t)
    : option (outcome (EclipseHCI.t * list Buffer.t)) :=
  match chunks with
  | [] => Some (Ok (s, []))
  | chunk :: rest =>
      match EclipseHCI.handleMessage s chunk with
      | Some (Ok (s', ms)) =>
          match handleMessages s' rest with
          | Some (Ok (s'', ms')) => Some (Ok (s'', ms ++ ms'))
          | other => other
          end
      | other => other
      end
  end.

(** Successive ['data'] events on the [handleData] class, each call
    allowed [fuel] passes of its loop; [None] when a call is still
    looping after that.  An exception that escapes the listener is not
    caught anywhere in the class, so the run ends there, with the packets
    handed over so far. *)
Fixpoint handleDatas (fuel : nat) (s : EclipseHCIv2.t) (chunks : list Buffer.t)
    : option (EclipseHCIv2.t * list Buffer.t) :=
  match chunks with
  | [] => Some (s, [])
  | chunk :: rest =>
      match EclipseHCIv2.handleData fuel s chunk with
      | EclipseHCIv2.OutOfFuel => None
      | EclipseHCIv2.Raised s' ps _ => Some (s', ps)
      | EclipseHCIv2.Returned s' ps =>
          match handleDatas fuel s' rest with
          | Some (s'', ps') => Some (s'', ps ++ ps')
          | None => None
          end
      end
  end.

End Feed.

Module Trace.

(** What can happen to an instance of the [handleMessage] class between
    two observations. *)
Inductive event :=
| Tick
| AddToQueue (request : HCIRequest.t)
| ClearQueue
| Data (data : Buffer.t)
| Close
| Error
| Disconnect.

Definition step (s : EclipseHCI.t) (e : event) : EclipseHCI.t :=
  match e with
  | Tick => EclipseHCI.tick s
  | AddToQueue request => EclipseHCI.addToQueue s request
  | ClearQueue => EclipseHCI.clearQueue s
  | Data data =>
      match EclipseHCI.on_data s data with
      | Some (Ok (s', _)) => s'
      | _ => s
      end
  | Close => EclipseHCI.on_close s
  | Error => EclipseHCI.on_error s
  | Disconnect => EclipseHCI.disconnect s
  end.

Definition run (s : EclipseHCI.t) (es : list event) : EclipseHCI.t :=
  fold_left step es s.

Definition is_tick (e : event) : bool :=
  match e with Tick => true | _ => false end.

(** The same for the [handleData] class; [Connected n] is the socket
    [n] becoming the instance's transport with the dispatcher started. *)
Inductive event2 :=
| Tick2
| Enqueue2 (request : EclipseHCIv2.Request.t)
| Connected2 (sock : nat)
| Close2 (hadError : bool)
| Error2.

Definition step2 (s : EclipseHCIv2.t) (e : event2) : EclipseHCIv2.t :=
  match e with
  | Tick2 => EclipseHCIv2.tick s
  | Enqueue2 request => EclipseHCIv2.enqueue s request
  | Connected2 sock =>
      EclipseHCIv2.startQueue
        (EclipseHCIv2.with_state (EclipseHCIv2.with_socket s (Some sock))
           EclipseHCIv2.connected)
  | Close2 hadError => EclipseHCIv2.handleClose s hadError
  | Error2 => EclipseHCIv2.on_error s
  end.

Definition run2 (s : EclipseHCIv2.t) (es : list event2) : EclipseHCIv2.t :=
  fold_left step2 es s.

Definition is_tick2 (e : event2) : bool :=
  match e with Tick2 => true | _ => false end.

End Trace.

(* ================================================================== *)
(** ** The [handleData] class: connecting, logging in, disconnecting *)

Module EclipseHCIv2Session.
Import EclipseHCIv2.

Definition with_opts_reconnect (s : t) (v : bool) : t :=
  {| opts_rateLimitMs := opts_rateLimitMs s; opts_reconnect := v;
     opts_reconnectDelayMs := opts_reconnectDelayMs s; socket := socket s;
     buffer := buffer s; queue := queue s; timer := timer s;
     processing := processing s; reconnectTimer := reconnectTimer s;
     state := state s; sessionToken := sessionToken s; wire := wire s;
     emitted := emitted s |}.

(** [sendLoginV2()]; [user] and [pass] are the UTF-8 bytes of
    [opts.username] and [opts.password].  The payload buffer is filled
    front to back. *)
Definition sendLoginV2 (s : t) (user pass : Buffer.t) : outcome t :=
  tag <- Buffer.writeUInt16BE 0x0001 ;;
  userLength <- Buffer.writeUInt8 (Buffer.length user) ;;
  passLength <- Buffer.writeUInt8 (Buffer.length pass) ;;
  version <- Buffer.writeUInt16BE 2 ;;
  let payload := tag ++ userLength ++ user ++ passLength ++ pass ++ version in
  packet <- HCI.buildPacket 0x0001 payload ;;
  Ok (sendRaw s packet true).

(** The ['connect'] listener installed by [connect()].  When
    [sendLoginV2] throws, the promise of [connect()] is rejected and the
    instance stays as the listener has left it. *)
Definition on_connect (s : t) (sock : nat) (user pass : Buffer.t) : t :=
  let s := with_socket s (Some sock) in
  let s := with_buffer s Buffer.alloc0 in
  let s := with_state s connected in
  let s := emit s ev_connected in
  let s := startQueue s in
  match sendLoginV2 s user pass with
  | Ok s' => s'
  | Threw _ => s
  end.

(** The synchronous part of [connect()], up to the first [await]. *)
Definition connect (s : t) : t :=
  match state s with
  | connecting => s
  | _ => let s := with_state s connecting in
         emit s (ev_statechange (state s))
  end.

(** The callback of the reconnect timer armed by [handleClose]. *)
Definition reconnect_fires (s : t) : t :=
  connect (with_reconnectTimer s None).

(** [disconnect()]; the socket, once destroyed, reports ['close']. *)
Definition disconnect (s : t) : t := with_opts_reconnect s false.

(** What can happen to an instance between two observations.  A list of
    events is any list: it need not be in an order that Node can
    produce. *)
Inductive event :=
| Tick
| SendCommand (id : Z) (data : Buffer.t) (urgent : bool)
| Data (fuel : nat) (data : Buffer.t)
| Connect (sock : nat) (user pass : Buffer.t)
| Close (hadError : bool)
| Error
| ReconnectTimer
| Disconnect.

(** A call of [sendCommand] that throws enqueues nothing; a ['data']
    listener left by an exception, or still looping when the fuel is
    used up, leaves the instance as it is at that point. *)
Definition step (s : t) (e : event) : t :=
  match e with
  | Tick => tick s
  | SendCommand id data urgent =>
      match sendCommand s id data urgent with
      | Ok s' => s'
      | Threw _ => s
      end
  | Data fuel data =>
      match handleData fuel s data with
      | Returned s' _ => s'
      | Raised s' _ _ => s'
      | OutOfFuel => s
      end
  | Connect sock user pass => on_connect s sock user pass
  | Close hadError => handleClose s hadError
  | Error => on_error s
  | ReconnectTimer => reconnect_fires s
  | Disconnect => disconnect s
  end.

Definition run (s : t) (es : list event) : t := fold_left step es s.

End EclipseHCIv2Session.

(** The two bytes [writeUInt16BE] stores for [v], and the four bytes
    [writeUInt32BE] stores. *)
Definition u16be (v : Z) : Buffer.t := [Buffer.byte_of_Z (v / 256); Buffer.byte_of_Z v].
Definition u32be (v : Z) : Buffer.t :=
  [Buffer.byte_of_Z (v / 16777216); Buffer.byte_of_Z (v / 65536);
   Buffer.byte_of_Z (v / 256); Buffer.byte_of_Z v].

(* ================================================================== *)
(** ** [EclipseHCI] with [showDebug] and [ProcessResponse]

    The copy of the [handleMessage] class that logs through [writeDebug]
    and delegates [processMessage] to [ProcessResponse].  Its fields,
    its reassembler and its queue are those of [EclipseHCI] above; it
    differs in [sendHCIRequest], which writes the request's frame. *)

Module EclipseHCIFramed.
Import EclipseHCI.

(** [sendHCIRequest(request)]: [socket.write(request.getRequest())]
    inside [try]; an exception is caught and logged. *)
Definition sendHCIRequest (s : t) (request : HCIRequest.t) : t :=
  match socket s with
  | None => s
  | Some _ =>
      if negb (connected s) then s
      else
        match HCIRequest.getRequest request 0x00 with
        | Ok frame => with_wire s (wire s ++ [frame])
        | Threw _ => s
        end
  end.

Definition processQueue (s : t) : t :=
  if isProcessingQueue s || negb (connected s)
     || (Z.of_nat (List.length (messageQueue s)) =? 0)
  then s
  else
    let s := with_isProcessingQueue s true in
    let s :=
      match messageQueue s with
      | request :: rest => sendHCIRequest (with_messageQueue s rest) request
      | [] => s
      end in
    with_isProcessingQueue s false.

Definition tick (s : t) : t :=
  match queueProcessor s with
  | Some _ => processQueue s
  | None => s
  end.

(** [n] firings of the timer. *)
Fixpoint ticks (n : nat) (s : t) : t :=
  match n with
  | O => s
  | Datatypes.S n' => ticks n' (tick s)
  end.

End EclipseHCIFramed.

(* ================================================================== *)
(** ** [RequestCrosspointLevelActions]: the instance and its methods *)

(** How a method call ends: the instance as the call leaves it, and the
    value it returns or the exception it throws. *)
Definition ended (T A : Type) : Type := (T * outcome A)%type.

Module CrosspointLevelActionsRequest.
Import RequestCrosspointLevelActions.

(** The instance: the fields of the parent class and [Actions]. *)
Record t := {
  request : HCIRequest.t;
  Actions : list CrosspointLevelAction
}.

Definition new (actions : list CrosspointLevelAction) (urgent : bool)
    (responseID : option Z) (now : Z) : outcome t :=
  r <- RequestCrosspointLevelActions.new actions urgent responseID now ;;
  Ok {| request := r; Actions := actions |}.

(** [updatePayload()]: when [createPayload] throws, [Data] keeps its
    old value. *)
Definition updatePayload (o : t) : ended t unit :=
  match createPayload (Actions o) with
  | Ok payload =>
      ({| request := HCIRequest.set_Data (request o) payload; Actions := Actions o |},
       Ok tt)
  | Threw e => (o, Threw e)
  end.

(** [addAction(action)]: the action is pushed, then the payload is
    rebuilt. *)
Definition addAction (o : t) (action : CrosspointLevelAction) : ended t unit :=
  updatePayload {| request := request o; Actions := Actions o ++ [action] |}.

(** [removeAction(index)]. *)
Definition removeAction (o : t) (index : Z) : ended t bool :=
  if (index >=? 0) && (index <? Z.of_nat (List.length (Actions o))) then
    let spliced := firstn (Z.to_nat index) (Actions o)
                   ++ skipn (S (Z.to_nat index)) (Actions o) in
    match updatePayload {| request := request o; Actions := spliced |} with
    | (o', Ok _) => (o', Ok true)
    | (o', Threw e) => (o', Threw e)
    end
  else (o, Ok false).

Definition clearActions (o : t) : ended t unit :=
  updatePayload {| request := request o; Actions := [] |}.

(** [getPayloadSize()]: "Count (2) + (Action (6) * count)". *)
Definition getPayloadSize (o : t) : Z := 2 + Z.of_nat (List.length (Actions o)) * 6.

(** Calls of the methods that change the instance. *)
Inductive call :=
| AddAction (action : CrosspointLevelAction)
| RemoveAction (index : Z)
| ClearActions.

(** The instance after the call, and whether the call returned. *)
Definition invoke (o : t) (c : call) : t * bool :=
  match c with
  | AddAction action =>
      match addAction o action with (o', Ok _) => (o', true) | (o', Threw _) => (o', false) end
  | RemoveAction index =>
      match removeAction o index with (o', Ok _) => (o', true) | (o', Threw _) => (o', false) end
  | ClearActions =>
      match clearActions o with (o', Ok _) => (o', true) | (o', Threw _) => (o', false) end
  end.

(** A sequence of calls, each made whatever the previous one did; the
    flag tells whether all of them returned. *)
Fixpoint invokeAll (o : t) (cs : list call) : t * bool :=
  match cs with
  | [] => (o, true)
  | c :: rest =>
      let '(o', ok) := invoke o c in
      let '(o'', ok') := invokeAll o' rest in
      (o'', ok && ok')
  end.

End CrosspointLevelActionsRequest.

(* ================================================================== *)
(** ** [RequestCrosspointStatus] (message 0x000D) *)

Module RequestCrosspointStatus.

(** The instance: the fields of the parent class and [Ports]. *)
Record t := {
  request : HCIRequest.t;
  Ports : list Z
}.

(** The [for] loop that validates each port number (0-1023). *)
Fixpoint validatePorts (ports : list Z) : outcome unit :=
  match ports with
  | [] => Ok tt
  | port :: rest =>
      if (port <? 0) || (port >? 1023) then Threw ValidationError
      else validatePorts rest
  end.

(** The [for] loop of [createPayload]. *)
Fixpoint encodePorts (ports : list Z) : outcome (list Buffer.t) :=
  match ports with
  | [] => Ok []
  | port :: rest =>
      portBuffer <- Buffer.writeUInt16BE port ;;
      portBuffers <- encodePorts rest ;;
      Ok (portBuffer :: portBuffers)
  end.

(** [createPayload(ports)]. *)
Definition createPayload (ports : list Z) : outcome Buffer.t :=
  countBuffer <- Buffer.writeUInt16BE (Z.of_nat (List.length ports)) ;;
  portBuffers <- encodePorts ports ;;
  Ok (Buffer.concat [countBuffer; Buffer.concat portBuffers]).

(** The checks shared by the constructor and [setPorts]. *)
Definition checkPorts (ports : list Z) : outcome unit :=
  if (Z.of_nat (List.length ports) <? 1) || (Z.of_nat (List.length ports) >? 495)
  then Threw ValidationError
  else validatePorts ports.

(** The constructor; [this.Ports] is a copy of the argument. *)
Definition new (ports : list Z) (urgent : bool) (responseID : option Z) (now : Z)
    : outcome t :=
  _ <- checkPorts ports ;;
  payload <- createPayload ports ;;
  Ok {| request := HCIRequest.set_Version
                     (HCIRequest.new 0x000D payload urgent responseID now) 2;
        Ports := ports |}.

Definition updatePayload (o : t) : ended t unit :=
  match createPayload (Ports o) with
  | Ok payload =>
      ({| request := HCIRequest.set_Data (request o) payload; Ports := Ports o |}, Ok tt)
  | Threw e => (o, Threw e)
  end.

(** [ports.includes(port)]. *)
Definition includes (ports : list Z) (port : Z) : bool := existsb (Z.eqb port) ports.

(** [ports.indexOf(port)]: the first index, or -1. *)
Fixpoint indexOf (ports : list Z) (port : Z) (i : Z) : Z :=
  match ports with
  | [] => -1
  | p :: rest => if p =? port then i else indexOf rest port (i + 1)
  end.

(** [addPort(port)]. *)
Definition addPort (o : t) (port : Z) : ended t unit :=
  if (port <? 0) || (port >? 1023) then (o, Threw ValidationError)
  else if Z.of_nat (List.length (Ports o)) >=? 495 then (o, Threw ValidationError)
  else if negb (includes (Ports o) port) then
    updatePayload {| request := request o; Ports := Ports o ++ [port] |}
  else (o, Ok tt).

(** [removePort(port)]: the port is spliced out before the check that
    at least one port is left. *)
Definition removePort (o : t) (port : Z) : ended t bool :=
  let index := indexOf (Ports o) port 0 in
  if negb (index =? -1) then
    let spliced := firstn (Z.to_nat index) (Ports o)
                   ++ skipn (S (Z.to_nat index)) (Ports o) in
    let o := {| request := request o; Ports := spliced |} in
    if Z.of_nat (List.length (Ports o)) =? 0 then (o, Threw ValidationError)
    else
      match updatePayload o with
      | (o', Ok _) => (o', Ok true)
      | (o', Threw e) => (o', Threw e)
      end
  else (o, Ok false).

(** [setPorts(ports)]. *)
Definition setPorts (o : t) (ports : list Z) : ended t unit :=
  match checkPorts ports with
  | Threw e => (o, Threw e)
  | Ok _ => updatePayload {| request := request o; Ports := ports |}
  end.

(** [addPorts(ports)]: [addPort] for each port, up to the first call
    that throws. *)
Fixpoint addPorts (o : t) (ports : list Z) : ended t unit :=
  match ports with
  | [] => (o, Ok tt)
  | port :: rest =>
      match addPort o port with
      | (o', Ok _) => addPorts o' rest
      | (o', Threw e) => (o', Threw e)
      end
  end.

(** [clearPorts()]. *)
Definition clearPorts (o : t) : ended t unit := (o, Threw ValidationError).

Definition hasPort (o : t) (port : Z) : bool := includes (Ports o) port.

Definition getPortCount (o : t) : Z := Z.of_nat (List.length (Ports o)).

(** [getPayloadSize()]: "Count (2) + (Port (2) * count)". *)
Definition getPayloadSize (o : t) : Z := 2 + Z.of_nat (List.length (Ports o)) * 2.

(** The ports pushed by the loop of [forPortRange], [n] of them from
    [port] on. *)
Fixpoint portRange (port : Z) (n : nat) : list Z :=
  match n with
  | O => []
  | S n' => port :: portRange (port + 1) n'
  end.

(** [forPortRange(startPort, endPort, urgent)]. *)
Definition forPortRange (startPort endPort : Z) (urgent : bool) (now : Z) : outcome t :=
  if startPort >? endPort then Threw ValidationError
  else new (portRange startPort (Z.to_nat (endPort - startPort + 1))) urgent None now.

(** Calls of the methods that change the instance. *)
Inductive call :=
| AddPort (port : Z)
| RemovePort (port : Z)
| SetPorts (ports : list Z)
| AddPorts (ports : list Z)
| ClearPorts.

Definition returned {T A : Type} (r : ended T A) : T * bool :=
  match r with
  | (o, Ok _) => (o, true)
  | (o, Threw _) => (o, false)
  end.

Definition invoke (o : t) (c : call) : t * bool :=
  match c with
  | AddPort port => returned (addPort o port)
  | RemovePort port => returned (removePort o port)
  | SetPorts ports => returned (setPorts o ports)
  | AddPorts ports => returned (addPorts o ports)
  | ClearPorts => returned (clearPorts o)
  end.

Fixpoint invokeAll (o : t) (cs : list call) : t * bool :=
  match cs with
  | [] => (o, true)
  | c :: rest =>
      let '(o', ok) := invoke o c in
      let '(o'', ok') := invokeAll o' rest in
      (o'', ok && ok')
  end.

End RequestCrosspointStatus.

(** A [RequestCrosspointStatus] instance in order: between 1 and 495
    ports, each in 0..1023, and a payload that is their count followed
    by the ports, as big-endian 16-bit words. *)
Definition portsInOrder (o : RequestCrosspointStatus.t) : Prop :=
  1 <= Z.of_nat (length (RequestCrosspointStatus.Ports o)) <= 495 /\
  Forall (fun p => 0 <= p <= 1023) (RequestCrosspointStatus.Ports o) /\
  HCIRequest.Data (RequestCrosspointStatus.request o)
  = u16be (Z.of_nat (length (RequestCrosspointStatus.Ports o)))
    ++ concat (map u16be (RequestCrosspointStatus.Ports o)).

(* ================================================================== *)
(** ** [ReplyCrosspointStatus] (message 0x000E) *)

Module ReplyCrosspointStatus.

Module ConnectedPortData.
Record t := {
  portNumber : Z;
  isListener : bool;
  isTalker : bool
}.
End ConnectedPortData.

Module MonitoredPortData.
Record t := {
  portNumber : Z;
  connectedPorts : list ConnectedPortData.t
}.
End MonitoredPortData.

(** [rawPayload] holds the payload bytes (the source stores their
    hexadecimal rendering); [timestamp] is the clock reading. *)
Record CrosspointStatusData := {
  messageID : Z;
  timestamp : Z;
  count : Z;
  monitoredPorts : list MonitoredPortData.t;
  rawPayload : Buffer.t
}.

(** The [while (offset + 2 <= payload.length)] loop that reads the
    connected ports of one monitored port: the ports read and the offset
    at which the loop stops.  [None] means the fuel ran out before the
    loop ended. *)
Fixpoint connectedPortsLoop (fuel : nat) (payload : Buffer.t) (offset : Z)
    : option (outcome (list ConnectedPortData.t * Z)) :=
  if offset + 2 <=? Buffer.length payload then
    match fuel with
    | O => None
    | S fuel' =>
        match Buffer.readUInt16BE payload offset with
        | Threw e => Some (Threw e)
        | Ok nextPortData =>
            let isNextMonitoredPort := negb (Z.land nextPortData 0x8000 =? 0) in
            if isNextMonitoredPort then Some (Ok ([], offset))
            else
              let offset := offset + 2 in
              let connected :=
                {| ConnectedPortData.portNumber := Z.land nextPortData 0x1FFF;
                   ConnectedPortData.isListener := negb (Z.land nextPortData 0x2000 =? 0);
                   ConnectedPortData.isTalker := negb (Z.land nextPortData 0x4000 =? 0) |} in
              match connectedPortsLoop fuel' payload offset with
              | Some (Ok (connectedPorts, offset')) =>
                  Some (Ok (connected :: connectedPorts, offset'))
              | other => other
              end
        end
    end
  else Some (Ok ([], offset)).

(** The [for (let i = 0; i < count; i++)] loop, [n] iterations left;
    the inner [None] is a [return null] inside the loop. *)
Fixpoint monitoredPortsLoop (n fuel : nat) (payload : Buffer.t) (offset : Z)
    : option (outcome (option (list MonitoredPortData.t))) :=
  match n with
  | O => Some (Ok (Some []))
  | S n' =>
      if offset + 2 >? Buffer.length payload then Some (Ok None)
      else
        match Buffer.readUInt16BE payload offset with
        | Threw e => Some (Threw e)
        | Ok monitoredPortData =>
            let offset := offset + 2 in
            let isMonitoredPort := negb (Z.land monitoredPortData 0x8000 =? 0) in
            if negb isMonitoredPort then Some (Ok None)
            else
              let monitoredPortNumber := Z.land monitoredPortData 0x1FFF in
              match connectedPortsLoop fuel payload offset with
              | None => None
              | Some (Threw e) => Some (Threw e)
              | Some (Ok (connectedPorts, offset)) =>
                  let monitored :=
                    {| MonitoredPortData.portNumber := monitoredPortNumber;
                       MonitoredPortData.connectedPorts := connectedPorts |} in
                  match monitoredPortsLoop n' fuel payload offset with
                  | Some (Ok (Some monitoredPorts)) =>
                      Some (Ok (Some (monitored :: monitoredPorts)))
                  | other => other
                  end
              end
        end
  end.

(** [parse(payload)]; the inner [None] is [null].  Each pass of the
    inner loop moves two bytes forward, so the byte count of the payload
    bounds the passes. *)
Definition parse (payload : Buffer.t) (now : Z)
    : option (outcome (option CrosspointStatusData)) :=
  if Buffer.length payload <? 2 then Some (Ok None)
  else
    match Buffer.readUInt16BE payload 0 with
    | Threw e => Some (Threw e)
    | Ok count =>
        match monitoredPortsLoop (Z.to_nat count) (List.length payload) payload 2 with
        | None => None
        | Some (Threw e) => Some (Threw e)
        | Some (Ok None) => Some (Ok None)
        | Some (Ok (Some monitoredPorts)) =>
            Some (Ok (Some {| messageID := 0x000E;
                              timestamp := now;
                              count := count;
                              monitoredPorts := monitoredPorts;
                              rawPayload := payload |}))
        end
    end.

End ReplyCrosspointStatus.

(* ================================================================== *)
(** ** [RequestUnicodeAliasAdd] (message 0x00F4) *)

Module RequestUnicodeAliasAdd.

(** A JavaScript string: its UTF-16 code units, each given by its high
    and its low byte. *)
Definition jsstring := list (byte * byte).

(** [text.charCodeAt(i)] for a code unit of the string. *)
Definition charCode (unit : byte * byte) : Z :=
  Buffer.u8 (fst unit) * 256 + Buffer.u8 (snd unit).

Record UnicodeAliasEntry := {
  system : Z;
  port : Z;
  text : jsstring;
  inhibitLocal : bool;
  inhibitRemote : bool
}.

(** [validateAlias(alias)]. *)
Definition validateAlias (alias : UnicodeAliasEntry) : outcome unit :=
  if (system alias <? 0) || (system alias >? 255) then Threw ValidationError
  else if (port alias <? 1) || (port alias >? 1024) then Threw ValidationError
  else if Z.of_nat (List.length (text alias)) >? 10 then Threw ValidationError
  else Ok tt.

(** [text.padEnd(10, '\0')]. *)
Definition padEnd10 (text : jsstring) : jsstring :=
  text ++ repeat (x00, x00) (10 - List.length text).

(** The loop [for (let i = 0; i < 10; i++)] that writes
    [paddedText.charCodeAt(i)], [n] iterations left.  The padded text
    has at least ten code units, so the loop never reads past its
    end. *)
Fixpoint encodeText (n : nat) (paddedText : jsstring) : outcome Buffer.t :=
  match n with
  | O => Ok []
  | S n' =>
      match paddedText with
      | unit :: rest =>
          w <- Buffer.writeUInt16BE (charCode unit) ;;
          ws <- encodeText n' rest ;;
          Ok (w ++ ws)
      | [] => Ok []
      end
  end.

(** The body of the [for] loop of [createPayload] for one alias; the 28
    bytes of the entry are written front to back. *)
Definition encodeAlias (alias : UnicodeAliasEntry) : outcome Buffer.t :=
  let flags := 0 in
  let flags := if inhibitRemote alias then Z.lor flags 0x4000 else flags in
  let flags := if inhibitLocal alias then Z.lor flags 0x8000 else flags in
  f <- Buffer.writeUInt16BE flags ;;
  d0 <- Buffer.writeUInt8 (system alias) ;;
  d1 <- Buffer.writeUInt8 0x01 ;;
  d2 <- Buffer.writeUInt8 0x00 ;;
  d3 <- Buffer.writeUInt8 (port alias - 1) ;;
  t <- encodeText 10 (padEnd10 (text alias)) ;;
  u <- Buffer.writeUInt16BE 0x8000 ;;
  Ok (f ++ d0 ++ d1 ++ d2 ++ d3 ++ t ++ u).

Fixpoint encodeAliases (aliases : list UnicodeAliasEntry) : outcome (list Buffer.t) :=
  match aliases with
  | [] => Ok []
  | alias :: rest =>
      entryBuffer <- encodeAlias alias ;;
      aliasBuffers <- encodeAliases rest ;;
      Ok (entryBuffer :: aliasBuffers)
  end.

(** [createPayload(aliases)]. *)
Definition createPayload (aliases : list UnicodeAliasEntry) : outcome Buffer.t :=
  countBuffer <- Buffer.writeUInt16BE (Z.of_nat (List.length aliases)) ;;
  aliasBuffers <- encodeAliases aliases ;;
  Ok (Buffer.concat [countBuffer; Buffer.concat aliasBuffers]).

(** [getPayloadSize()] for a request with these aliases:
    "Count (2) + (Entry (28) * count)". *)
Definition getPayloadSize (aliases : list UnicodeAliasEntry) : Z :=
  2 + Z.of_nat (List.length aliases) * 28.

End RequestUnicodeAliasAdd.

(* ================================================================== *)
(** ** [ReplyUnicodeAliasStatus] (message 0x00F5) *)

Module ReplyUnicodeAliasStatus.

Record UnicodeAliasStatusEntry := {
  system : Z;
  port : Z;
  text : RequestUnicodeAliasAdd.jsstring;
  inhibitLocal : bool;
  inhibitRemote : bool;
  isUnicode : bool;
  listenKeysOnly : bool
}.

(** [rawPayload] holds the payload bytes (the source stores their
    hexadecimal rendering); [timestamp] is the clock reading. *)
Record UnicodeAliasStatusData := {
  messageID : Z;
  timestamp : Z;
  isResponse : bool;
  count : Z;
  aliases : list UnicodeAliasStatusEntry;
  rawPayload : Buffer.t
}.

(** [String.fromCharCode(charCode)] for a 16-bit [charCode]. *)
Definition fromCharCode (charCode : Z) : byte * byte :=
  (Buffer.byte_of_Z (charCode / 256), Buffer.byte_of_Z charCode).

(** The loop [for (let j = 0; j < 10; j++)] that reads the text, [n]
    iterations left: the text read and the offset at which the loop
    stops.  The [break] at a zero [charCode] comes after the offset has
    moved past it. *)
Fixpoint textLoop (n : nat) (payload : Buffer.t) (offset : Z)
    : outcome (RequestUnicodeAliasAdd.jsstring * Z) :=
  match n with
  | O => Ok ([], offset)
  | S n' =>
      charCode <- Buffer.readUInt16BE payload offset ;;
      let offset := offset + 2 in
      if charCode =? 0 then Ok ([], offset)
      else
        r <- textLoop n' payload offset ;;
        Ok (fromCharCode charCode :: fst r, snd r)
  end.

(** The [for (let i = 0; i < count; i++)] loop, [n] iterations left;
    [None] is the [return null] inside the loop. *)
Fixpoint parseEntries (n : nat) (payload : Buffer.t) (offset : Z)
    : outcome (option (list UnicodeAliasStatusEntry)) :=
  match n with
  | O => Ok (Some [])
  | S n' =>
      if offset + 28 >? Buffer.length payload then Ok None
      else
        flagsWord <- Buffer.readUInt16BE payload offset ;;
        let offset := offset + 2 in
        let inhibitRemote := negb (Z.land flagsWord 0x4000 =? 0) in
        let inhibitLocal := negb (Z.land flagsWord 0x8000 =? 0) in
        system <- Buffer.readUInt8 payload offset ;;
        fixed1 <- Buffer.readUInt8 payload (offset + 1) ;;
        fixed2 <- Buffer.readUInt8 payload (offset + 2) ;;
        portRaw <- Buffer.readUInt8 payload (offset + 3) ;;
        let offset := offset + 4 in
        let port := portRaw + 1 in
        r <- textLoop 10 payload offset ;;
        let text := fst r in
        let offset := snd r in
        unicodeInfo <- Buffer.readUInt16BE payload offset ;;
        let offset := offset + 2 in
        let e := {| system := system;
                    port := port;
                    text := text;
                    inhibitLocal := inhibitLocal;
                    inhibitRemote := inhibitRemote;
                    isUnicode := negb (Z.land unicodeInfo 0x8000 =? 0);
                    listenKeysOnly := negb (Z.land unicodeInfo 0x4000 =? 0) |} in
        rest <- parseEntries n' payload offset ;;
        Ok (option_map (cons e) rest)
  end.

(** [parse(payload, flags)]; [None] is [null].  [flags] is the record
    [processMessage] decodes from the flags byte, so [flags.U || false]
    is [flags.U]. *)
Definition parse (payload : Buffer.t) (flags : EclipseHCI.Flags) (now : Z)
    : outcome (option UnicodeAliasStatusData) :=
  if Buffer.length payload <? 2 then Ok None
  else
    count <- Buffer.readUInt16BE payload 0 ;;
    let isResponse := EclipseHCI.U flags in
    let expectedDataSize := count * 28 in
    if Buffer.length payload <? 2 + expectedDataSize then Ok None
    else
      entries <- parseEntries (Z.to_nat count) payload 2 ;;
      Ok (option_map
            (fun aliases =>
               {| messageID := 0x00F5;
                  timestamp := now;
                  isResponse := isResponse;
                  count := count;
                  aliases := aliases;
                  rawPayload := payload |})
            entries).

End ReplyUnicodeAliasStatus.

(* ================================================================== *)
(** * Properties *)

(** ** Bytes and buffers *)

Section BufferFacts.

Lemma u8_range (b : byte) : 0 <= Buffer.u8 b < 256.
Proof.
  unfold Buffer.u8. pose proof (Byte.to_N_bounded b). lia.
Qed.

Lemma u8_byte_of_Z (z : Z) : Buffer.u8 (Buffer.byte_of_Z z) = z mod 256.
Proof.
  unfold Buffer.u8, Buffer.byte_of_Z.
  assert (Hr : 0 <= z mod 256 < 256) by (apply Z.mod_pos_bound; lia).
  destruct (Byte.of_N (Z.to_N (z mod 256))) as [b|] eqn:E.
  - apply Byte.to_of_N in E. rewrite E. lia.
  - apply Byte.of_N_None_iff in E. lia.
Qed.

Lemma byte_of_Z_u8 (b : byte) : Buffer.byte_of_Z (Buffer.u8 b) = b.
Proof.
  unfold Buffer.byte_of_Z. pose proof (u8_range b) as Hr.
  rewrite Z.mod_small by lia. unfold Buffer.u8. rewrite N2Z.id.
  now rewrite Byte.of_to_N.
Qed.

Lemma equals_eq (a b : Buffer.t) : Buffer.equals a b = true <-> a = b.
Proof.
  revert b. induction a as [|x a IH]; intros [|y b]; simpl; split; intro H;
    try reflexivity; try discriminate.
  - apply andb_prop in H as [H1 H2]. apply Byte.byte_dec_bl in H1.
    apply IH in H2. now subst.
  - injection H as -> ->. apply andb_true_intro. split.
    + now apply Byte.byte_dec_lb.
    + now apply IH.
Qed.

Lemma equals_refl (a : Buffer.t) : Buffer.equals a a = true.
Proof. now apply equals_eq. Qed.

Lemma starts_with_app (n r : Buffer.t) : Buffer.starts_with n (n ++ r) = true.
Proof.
  induction n as [|x n IH]; simpl; [reflexivity|].
  rewrite IH, andb_true_r. now apply Byte.byte_dec_lb.
Qed.

Lemma starts_with_inv (n b : Buffer.t) :
  Buffer.starts_with n b = true -> exists r, b = n ++ r.
Proof.
  revert b. induction n as [|x n IH]; intros b H.
  - now exists b.
  - destruct b as [|y b]; [discriminate|]. simpl in H.
    apply andb_prop in H as [H1 H2]. apply Byte.byte_dec_bl in H1.
    destruct (IH _ H2) as [r ->]. exists r. now subst.
Qed.

Lemma starts_with_mono (n b c : Buffer.t) :
  Buffer.starts_with n b = true -> Buffer.starts_with n (b ++ c) = true.
Proof.
  intro H. destruct (starts_with_inv _ _ H) as [r ->].
  rewrite <- app_assoc. apply starts_with_app.
Qed.

Lemma length_nonneg (b : Buffer.t) : 0 <= Buffer.length b.
Proof. unfold Buffer.length. lia. Qed.

Lemma length_app (a b : Buffer.t) :
  Buffer.length (a ++ b) = Buffer.length a + Buffer.length b.
Proof. unfold Buffer.length. rewrite length_app. lia. Qed.

Lemma subarray_from_skipn (b : Buffer.t) (k : Z) :
  0 <= k ->
  Buffer.subarray_from b k = skipn (Z.to_nat k) b.
Proof.
  intro Hk. unfold Buffer.subarray_from, Buffer.subarray, Buffer.clamp.
  pose proof (length_nonneg b) as Hl.
  replace (k <? 0) with false by (symmetry; apply Z.ltb_ge; lia).
  replace (Buffer.length b <? 0) with false by (symmetry; apply Z.ltb_ge; lia).
  rewrite Z.min_id.
  destruct (Z.le_gt_cases k (Buffer.length b)) as [Hle|Hgt].
  - rewrite Z.min_l by lia.
    apply firstn_all2. rewrite length_skipn. unfold Buffer.length in *. lia.
  - rewrite Z.min_r by lia. rewrite Z.sub_diag. simpl firstn.
    symmetry. apply skipn_all2. unfold Buffer.length in *. lia.
Qed.

Lemma subarray_0_firstn (b : Buffer.t) (n : Z) :
  0 <= n ->
  Buffer.subarray b 0 n = firstn (Z.to_nat n) b.
Proof.
  intro Hn. unfold Buffer.subarray, Buffer.clamp.
  pose proof (length_nonneg b) as Hl.
  replace (n <? 0) with false by (symmetry; apply Z.ltb_ge; lia).
  simpl (0 <? 0). cbv iota. rewrite (Z.min_l 0) by lia. simpl skipn.
  rewrite Z.sub_0_r.
  destruct (Z.le_gt_cases n (Buffer.length b)) as [Hle|Hgt].
  - now rewrite Z.min_l by lia.
  - rewrite Z.min_r by lia.
    rewrite !firstn_all2; unfold Buffer.length in *; try reflexivity; lia.
Qed.

Lemma byte_at_app_l (b c : Buffer.t) (off : Z) :
  off < Buffer.length b ->
  Buffer.byte_at (b ++ c) off = Buffer.byte_at b off.
Proof.
  intro H. unfold Buffer.byte_at. destruct (off <? 0) eqn:E; [reflexivity|].
  apply Z.ltb_ge in E. apply nth_error_app1. unfold Buffer.length in H. lia.
Qed.

Lemma byte_at_app_r (b c : Buffer.t) (off : Z) :
  0 <= off ->
  Buffer.byte_at (b ++ c) (Buffer.length b + off) = Buffer.byte_at c off.
Proof.
  intro H. unfold Buffer.byte_at, Buffer.length.
  replace (Z.of_nat (length b) + off <? 0) with false by (symmetry; apply Z.ltb_ge; lia).
  replace (off <? 0) with false by (symmetry; apply Z.ltb_ge; lia).
  rewrite nth_error_app2 by lia. f_equal. lia.
Qed.

Lemma readUInt16BE_app_l (b c : Buffer.t) (off : Z) :
  off + 2 <= Buffer.length b ->
  Buffer.readUInt16BE (b ++ c) off = Buffer.readUInt16BE b off.
Proof.
  intro H. unfold Buffer.readUInt16BE.
  now rewrite !byte_at_app_l by lia.
Qed.

Lemma readUInt16BE_app_r (b c : Buffer.t) (off : Z) :
  0 <= off ->
  Buffer.readUInt16BE (b ++ c) (Buffer.length b + off) = Buffer.readUInt16BE c off.
Proof.
  intro H. unfold Buffer.readUInt16BE.
  rewrite <- Z.add_assoc. now rewrite !byte_at_app_r by lia.
Qed.

Lemma byte_at_some (b : Buffer.t) (off : Z) :
  0 <= off < Buffer.length b -> exists x, Buffer.byte_at b off = Some x.
Proof.
  intros [H0 H1]. unfold Buffer.byte_at.
  replace (off <? 0) with false by (symmetry; apply Z.ltb_ge; lia).
  destruct (nth_error b (Z.to_nat off)) as [x|] eqn:E; [now exists x|].
  apply nth_error_None in E. unfold Buffer.length in H1. lia.
Qed.

Lemma readUInt16BE_ok (b : Buffer.t) (off : Z) :
  0 <= off -> off + 2 <= Buffer.length b ->
  exists v, Buffer.readUInt16BE b off = Ok v /\ 0 <= v <= 65535.
Proof.
  intros H0 H1. unfold Buffer.readUInt16BE.
  destruct (byte_at_some b off) as [hi ->]; [lia|].
  destruct (byte_at_some b (off + 1)) as [lo ->]; [lia|].
  eexists. split; [reflexivity|].
  pose proof (u8_range hi). pose proof (u8_range lo). lia.
Qed.

Lemma readUInt16BE_write (v : Z) (w rest : Buffer.t) :
  Buffer.writeUInt16BE v = Ok w ->
  Buffer.readUInt16BE (w ++ rest) 0 = Ok v /\ Buffer.length w = 2.
Proof.
  unfold Buffer.writeUInt16BE.
  destruct ((0 <=? v) && (v <=? 65535)) eqn:E; [|discriminate].
  intro H. injection H as <-.
  apply andb_prop in E as [E1 E2]. apply Z.leb_le in E1, E2.
  split; [|reflexivity].
  unfold Buffer.readUInt16BE, Buffer.byte_at. simpl.
  rewrite !u8_byte_of_Z. f_equal.
  rewrite (Z.mod_small (v / 256)).
  - pose proof (Z.div_mod v 256). lia.
  - split; [apply Z.div_pos; lia|]. apply Z.div_lt_upper_bound; lia.
Qed.

End BufferFacts.

(** Case analysis on the outcome of the first call of a sequence. *)
Ltac bind_inv H :=
  repeat match type of H with
  | bind ?m _ = _ =>
      let E := fresh "E" in
      destruct m eqn:E; simpl in H; [|discriminate H]
  end.

(* ================================================================== *)
(** ** Level conversion *)

Section LevelFacts.
Import LevelConversion JSNumber.
Local Open Scope float_scope.

Lemma levelToDB_cut : levelToDB 0 = neg_infinity.
Proof. vm_compute. reflexivity. Qed.

Lemma dBToLevel_cut : dBToLevel neg_infinity = 0.
Proof. vm_compute. reflexivity. Qed.

(** Every level of the reference table survives the trip to dB and
    back. *)
Lemma table_levels_roundtrip :
  Forall (fun e => dBToLevel (levelToDB (level e)) = level e) LEVEL_REFERENCE_TABLE.
Proof.
  unfold LEVEL_REFERENCE_TABLE.
  repeat (apply Forall_cons; [vm_compute; reflexivity|]). apply Forall_nil.
Qed.

(** Level 0 and negative infinity are converted into each other, and
    every level of the reference table is recovered from its dB value. *)
Theorem cut_and_table_levels_roundtrip :
  levelToDB 0 = neg_infinity /\
  dBToLevel neg_infinity = 0 /\
  Forall (fun e => dBToLevel (levelToDB (level e)) = level e) LEVEL_REFERENCE_TABLE.
Proof.
  split; [exact levelToDB_cut|]. split; [exact dBToLevel_cut|].
  exact table_levels_roundtrip.
Qed.

(** The conversion formula of the documentation, [(level - 204) * 0.355],
    on its own gives 0 dB at level 204; it is the table entry
    [{ dB: -3, level: 204 }], found first, that decides the result. *)
Lemma formula_at_204 : (204 - 204) * 0.355 = 0.
Proof. vm_compute. reflexivity. Qed.

Lemma table_has_204 :
  find (fun e => strict_eq (level e) 204) LEVEL_REFERENCE_TABLE
    = Some {| dB := -3; level := 204; hex := 0x00CC |}.
Proof. vm_compute. reflexivity. Qed.

Lemma table_has_0dB :
  find (fun e => strict_eq (dB e) 0) LEVEL_REFERENCE_TABLE
    = Some {| dB := 0; level := 212; hex := 0x00D4 |}.
Proof. vm_compute. reflexivity. Qed.

(** C2.  Level 204 is not converted to 0 dB, and 0 dB is not converted
    to level 204: [levelToDB(204)] is -3 and [dBToLevel(0)] is 212,
    both read from the reference table.  (The rest of the claim holds:
    [levelToDB_cut], [dBToLevel_cut], [table_levels_roundtrip].) *)
Theorem levelToDB_204_dBToLevel_0 :
  levelToDB 204 = -3 /\ dBToLevel 0 = 212 /\
  PrimFloat.eqb (levelToDB 204) 0 = false /\
  PrimFloat.eqb (dBToLevel 0) 204 = false.
Proof. repeat split; vm_compute; reflexivity. Qed.

End LevelFacts.

(* ================================================================== *)
(** ** Request framing *)

Section FramingFacts.

Lemma land_lor_8 (x : Z) : Z.land (Z.lor x 8) 8 = 8.
Proof.
  apply Z.bits_inj'. intros n Hn.
  rewrite Z.land_spec, Z.lor_spec.
  destruct (Z.testbit 8 n); [now rewrite orb_true_r | now rewrite andb_false_r].
Qed.

Lemma writeUInt16BE_inv (v : Z) (w : Buffer.t) :
  Buffer.writeUInt16BE v = Ok w ->
  0 <= v <= 65535 /\ w = [Buffer.byte_of_Z (v / 256); Buffer.byte_of_Z v].
Proof.
  unfold Buffer.writeUInt16BE.
  destruct ((0 <=? v) && (v <=? 65535)) eqn:E; [|discriminate].
  apply andb_prop in E as [E1 E2]. apply Z.leb_le in E1, E2.
  intro H. injection H as <-. split; [lia|reflexivity].
Qed.

Lemma writeUInt8_inv (v : Z) (w : Buffer.t) :
  Buffer.writeUInt8 v = Ok w ->
  0 <= v <= 255 /\ w = [Buffer.byte_of_Z v].
Proof.
  unfold Buffer.writeUInt8.
  destruct ((0 <=? v) && (v <=? 255)) eqn:E; [|discriminate].
  apply andb_prop in E as [E1 E2]. apply Z.leb_le in E1, E2.
  intro H. injection H as <-. split; [lia|reflexivity].
Qed.

Lemma writeUInt16BE_ok (v : Z) :
  0 <= v <= 65535 ->
  Buffer.writeUInt16BE v = Ok [Buffer.byte_of_Z (v / 256); Buffer.byte_of_Z v].
Proof.
  intro H. unfold Buffer.writeUInt16BE.
  replace (0 <=? v) with true by (symmetry; apply Z.leb_le; lia).
  replace (v <=? 65535) with true by (symmetry; apply Z.leb_le; lia).
  reflexivity.
Qed.

Lemma u16_recompose (v : Z) :
  0 <= v <= 65535 ->
  Buffer.u8 (Buffer.byte_of_Z (v / 256)) * 256 + Buffer.u8 (Buffer.byte_of_Z v) = v.
Proof.
  intro H. rewrite !u8_byte_of_Z.
  rewrite (Z.mod_small (v / 256)).
  - pose proof (Z.div_mod v 256). lia.
  - split; [apply Z.div_pos; lia|]. apply Z.div_lt_upper_bound; lia.
Qed.

Lemma subarray_from_last2 (x : Buffer.t) (a b : byte) :
  Buffer.subarray_from (x ++ [a; b]) (-2) = [a; b].
Proof.
  unfold Buffer.subarray_from, Buffer.subarray.
  rewrite length_app. pose proof (length_nonneg x) as Hx.
  change (Buffer.length [a; b]) with 2.
  assert (Hs : Buffer.clamp (Buffer.length x + 2) (-2) = Buffer.length x).
  { unfold Buffer.clamp. change (-2 <? 0) with true. cbv iota. lia. }
  assert (He : Buffer.clamp (Buffer.length x + 2) (Buffer.length x + 2)
               = Buffer.length x + 2).
  { unfold Buffer.clamp.
    replace (Buffer.length x + 2 <? 0) with false by (symmetry; apply Z.ltb_ge; lia).
    lia. }
  rewrite Hs, He.
  replace (Z.to_nat (Buffer.length x + 2 - Buffer.length x)) with 2%nat by lia.
  replace (Z.to_nat (Buffer.length x)) with (length x)
    by (unfold Buffer.length; lia).
  rewrite skipn_app, skipn_all, Nat.sub_diag. reflexivity.
Qed.

Lemma ends_with_endBytes (x : Buffer.t) :
  Buffer.subarray_from (x ++ endBytes) (-2) = endBytes.
Proof. apply subarray_from_last2. Qed.

(** The four properties, for a frame laid out as [getRequest] lays it
    out: marker, length, id, flags, then [mid], the payload and the end
    marker. *)
Lemma frame_layout (l1 l0 i1 i0 f : byte) (mid data : Buffer.t) :
  Buffer.u8 l1 * 256 + Buffer.u8 l0
    = 7 + Buffer.length mid + Buffer.length data + 2 ->
  Z.land (Buffer.u8 f) 0x08 = 0x08 ->
  forall frame,
  frame = [x5a; x0f; l1; l0; i1; i0; f] ++ mid ++ data ++ endBytes ->
  Buffer.starts_with startBytes frame = true /\
  Buffer.subarray_from frame (-2) = endBytes /\
  Buffer.readUInt16BE frame 2 = Ok (Buffer.length frame) /\
  exists flagsByte,
    Buffer.readUInt8 frame 6 = Ok flagsByte /\ Z.land flagsByte 0x08 = 0x08.
Proof.
  intros Hlen Hf frame ->. split; [reflexivity|split; [|split]].
  - rewrite !app_assoc. apply ends_with_endBytes.
  - unfold Buffer.readUInt16BE, Buffer.byte_at. simpl. rewrite Hlen. f_equal.
    unfold Buffer.length. simpl length. rewrite !List.length_app.
    unfold Buffer.length in Hlen. simpl length. lia.
  - exists (Buffer.u8 f). split; [reflexivity|exact Hf].
Qed.

(** C9.  Whatever the request (framing version 2 or any other version,
    any payload, any flags argument), a frame returned by [getRequest]
    starts with 0x5A 0x0F, ends with 0x2E 0x8D, carries its own byte
    count in the big-endian 16-bit field at offset 2, and has bit 3
    (0x08) of the flags byte at offset 6 set. *)
Theorem getRequest_frame (r : HCIRequest.t) (flags : Z) (frame : Buffer.t) :
  HCIRequest.getRequest r flags = Ok frame ->
  Buffer.starts_with startBytes frame = true /\
  Buffer.subarray_from frame (-2) = endBytes /\
  Buffer.readUInt16BE frame 2 = Ok (Buffer.length frame) /\
  exists flagsByte,
    Buffer.readUInt8 frame 6 = Ok flagsByte /\ Z.land flagsByte 0x08 = 0x08.
Proof.
  unfold HCIRequest.getRequest.
  change (Buffer.length startBytes) with 2.
  change (Buffer.length endBytes) with 2.
  change (Buffer.length HCIRequest.preamble) with 4.
  change (Buffer.length [Buffer.byte_of_Z (HCIRequest.ProtocolVersion r)]) with 1.
  set (n := Buffer.length (HCIRequest.Data r)).
  intro H.
  destruct (HCIRequest.Version r =? 2).
  - remember (2 + 2 + 2 + 1 + 4 + 1 + n + 2) as total eqn:Ht.
    destruct (Buffer.writeUInt16BE total) as [len|] eqn:E; [|discriminate H].
    destruct (Buffer.writeUInt16BE (HCIRequest.RequestID r)) as [id|] eqn:E0;
      [|discriminate H].
    destruct (Buffer.writeUInt8 (Z.lor (ToInt32 flags) 8)) as [fl|] eqn:E1;
      [|discriminate H].
    apply writeUInt16BE_inv in E as [Hlen ->].
    apply writeUInt16BE_inv in E0 as [Hid ->].
    apply writeUInt8_inv in E1 as [Hfl ->].
    cbn [bind] in H. injection H as <-.
    apply (frame_layout
             (Buffer.byte_of_Z (total / 256)) (Buffer.byte_of_Z total)
             (Buffer.byte_of_Z (HCIRequest.RequestID r / 256))
             (Buffer.byte_of_Z (HCIRequest.RequestID r))
             (Buffer.byte_of_Z (Z.lor (ToInt32 flags) 8))
             (HCIRequest.preamble ++ [Buffer.byte_of_Z (HCIRequest.ProtocolVersion r)])
             (HCIRequest.Data r)).
    + rewrite u16_recompose by exact Hlen.
      rewrite length_app. change (Buffer.length HCIRequest.preamble) with 4.
      change (Buffer.length [Buffer.byte_of_Z (HCIRequest.ProtocolVersion r)]) with 1.
      fold n. lia.
    + rewrite u8_byte_of_Z, Z.mod_small by lia. apply land_lor_8.
    + reflexivity.
  - remember (2 + 2 + 2 + 1 + n + 2) as total eqn:Ht.
    destruct (Buffer.writeUInt16BE total) as [len|] eqn:E; [|discriminate H].
    destruct (Buffer.writeUInt16BE (HCIRequest.RequestID r)) as [id|] eqn:E0;
      [|discriminate H].
    destruct (Buffer.writeUInt8 (Z.lor (ToInt32 flags) 8)) as [fl|] eqn:E1;
      [|discriminate H].
    apply writeUInt16BE_inv in E as [Hlen ->].
    apply writeUInt16BE_inv in E0 as [Hid ->].
    apply writeUInt8_inv in E1 as [Hfl ->].
    cbn [bind] in H. injection H as <-.
    apply (frame_layout
             (Buffer.byte_of_Z (total / 256)) (Buffer.byte_of_Z total)
             (Buffer.byte_of_Z (HCIRequest.RequestID r / 256))
             (Buffer.byte_of_Z (HCIRequest.RequestID r))
             (Buffer.byte_of_Z (Z.lor (ToInt32 flags) 8))
             [] (HCIRequest.Data r)).
    + rewrite u16_recompose by exact Hlen.
      change (Buffer.length []) with 0. fold n. lia.
    + rewrite u8_byte_of_Z, Z.mod_small by lia. apply land_lor_8.
    + reflexivity.
Qed.

(** [getRequest] does return a frame whenever the fields fit their wire
    widths: a 16-bit request id, a flags byte, and a payload that keeps
    the total length within 16 bits. *)
Lemma getRequest_returns (r : HCIRequest.t) (flags : Z) :
  0 <= HCIRequest.RequestID r <= 65535 ->
  0 <= flags <= 255 ->
  Buffer.length (HCIRequest.Data r) <= 65535 - 14 ->
  exists frame, HCIRequest.getRequest r flags = Ok frame.
Proof.
  intros Hid Hfl Hlen. unfold HCIRequest.getRequest.
  pose proof (length_nonneg (HCIRequest.Data r)) as H0.
  assert (Hff : 0 <= Z.lor (ToInt32 flags) 8 <= 255).
  { unfold ToInt32. rewrite Z.mod_small by lia.
    replace (flags + 2147483648 - 2147483648) with flags by lia.
    split.
    - apply Z.lor_nonneg. lia.
    - assert (Z.lor flags 8 < 2 ^ 8); [|lia].
      destruct (Z.eq_dec (Z.lor flags 8) 0) as [->|Hnz]; [lia|].
      apply Z.log2_lt_pow2; [pose proof (proj2 (Z.lor_nonneg flags 8)); lia|].
      rewrite Z.log2_lor by lia.
      apply Z.max_lub_lt.
      + destruct (Z.eq_dec flags 0) as [->|]; [simpl; lia|].
        apply Z.log2_lt_pow2; lia.
      + simpl. lia. }
  destruct (HCIRequest.Version r =? 2).
  - rewrite writeUInt16BE_ok; [|change (Buffer.length startBytes) with 2;
      change (Buffer.length HCIRequest.preamble) with 4;
      change (Buffer.length endBytes) with 2;
      change (Buffer.length [Buffer.byte_of_Z (HCIRequest.ProtocolVersion r)]) with 1; lia].
    rewrite writeUInt16BE_ok by lia. simpl.
    unfold Buffer.writeUInt8.
    replace (0 <=? Z.lor (ToInt32 flags) 8) with true by (symmetry; apply Z.leb_le; lia).
    replace (Z.lor (ToInt32 flags) 8 <=? 255) with true by (symmetry; apply Z.leb_le; lia).
    simpl. eexists. reflexivity.
  - rewrite writeUInt16BE_ok; [|change (Buffer.length startBytes) with 2;
      change (Buffer.length endBytes) with 2; lia].
    rewrite writeUInt16BE_ok by lia. simpl.
    unfold Buffer.writeUInt8.
    replace (0 <=? Z.lor (ToInt32 flags) 8) with true by (symmetry; apply Z.leb_le; lia).
    replace (Z.lor (ToInt32 flags) 8 <=? 255) with true by (symmetry; apply Z.leb_le; lia).
    simpl. eexists. reflexivity.
Qed.

Lemma getRequest_returns_witness :
  exists frame,
    HCIRequest.getRequest (HCIRequest.new 0x0011 [x00; x00] true None 0) 0 = Ok frame.
Proof.
  apply getRequest_returns; [cbn; lia | lia | unfold Buffer.length; cbn; lia].
Defined.

Lemma getRequest_frame_witness :
  HCIRequest.getRequest (HCIRequest.new 0x000D [] false None 0) 0
    = Ok [x5a; x0f; x00; x0e; x00; x0d; x08; xab; xba; xce; xde; x01; x2e; x8d] /\
  Buffer.readUInt16BE
    [x5a; x0f; x00; x0e; x00; x0d; x08; xab; xba; xce; xde; x01; x2e; x8d] 2
    = Ok 14.
Proof.
  split; [reflexivity|].
  exact (proj1 (proj2 (proj2
    (getRequest_frame (HCIRequest.new 0x000D [] false None 0) 0 _ eq_refl)))).
Defined.

End FramingFacts.

(* ================================================================== *)
(** ** Crosspoint level actions: encode, then decode *)

Section LevelCodecFacts.
Import RequestCrosspointLevelActions.

Lemma encodeAction_inv (a : CrosspointLevelAction) (b : Buffer.t) :
  encodeAction a = Ok b ->
  inRangeLevelAction a /\
  b = [Buffer.byte_of_Z ((destinationPort a - 1) / 256);
       Buffer.byte_of_Z (destinationPort a - 1);
       Buffer.byte_of_Z ((sourcePort a - 1) / 256);
       Buffer.byte_of_Z (sourcePort a - 1);
       Buffer.byte_of_Z (levelValue a / 256);
       Buffer.byte_of_Z (levelValue a)].
Proof.
  unfold encodeAction, inRangeLevelAction, LevelConversion.isValidLevel.
  destruct ((destinationPort a <? 1) || (destinationPort a >? 1024)) eqn:Ed;
    [discriminate|].
  destruct ((sourcePort a <? 1) || (sourcePort a >? 1024)) eqn:Es; [discriminate|].
  destruct ((0 <=? levelValue a) && (levelValue a <=? 287)) eqn:El; [|discriminate].
  cbn [negb]. intro H. bind_inv H. injection H as <-.
  apply writeUInt16BE_inv in E as [_ ->].
  apply writeUInt16BE_inv in E0 as [_ ->].
  apply writeUInt16BE_inv in E1 as [_ ->].
  apply orb_false_elim in Ed as [Ed1 Ed2]. apply orb_false_elim in Es as [Es1 Es2].
  apply andb_prop in El as [El1 El2].
  split; [|reflexivity]. lia.
Qed.

Lemma encodeAction_ok (a : CrosspointLevelAction) :
  inRangeLevelAction a -> exists b, encodeAction a = Ok b.
Proof.
  intros (Hd & Hs & Hl). unfold encodeAction, LevelConversion.isValidLevel.
  replace (destinationPort a <? 1) with false by (symmetry; apply Z.ltb_ge; lia).
  replace (destinationPort a >? 1024) with false by lia.
  replace (sourcePort a <? 1) with false by (symmetry; apply Z.ltb_ge; lia).
  replace (sourcePort a >? 1024) with false by lia.
  replace (0 <=? levelValue a) with true by (symmetry; apply Z.leb_le; lia).
  replace (levelValue a <=? 287) with true by (symmetry; apply Z.leb_le; lia).
  cbn [orb andb negb].
  rewrite !writeUInt16BE_ok by lia. cbn [bind]. eexists. reflexivity.
Qed.

Lemma encodeActions_ok (actions : list CrosspointLevelAction) :
  Forall inRangeLevelAction actions -> exists bs, encodeActions actions = Ok bs.
Proof.
  induction 1 as [|a actions Ha _ IH]; simpl.
  - now exists [].
  - destruct (encodeAction_ok a Ha) as [b ->]. destruct IH as [bs ->].
    cbn [bind]. eexists. reflexivity.
Qed.

Lemma encodeActions_length (actions : list CrosspointLevelAction) (bs : list Buffer.t) :
  encodeActions actions = Ok bs ->
  Buffer.length (Buffer.concat bs) = 6 * Z.of_nat (length actions).
Proof.
  revert bs. induction actions as [|a actions IH]; simpl; intros bs H.
  - injection H as <-. reflexivity.
  - destruct (encodeAction a) as [b|] eqn:Ea; [|discriminate H].
    destruct (encodeActions actions) as [bs'|] eqn:Eas; [|discriminate H].
    cbn [bind] in H. injection H as <-.
    apply encodeAction_inv in Ea as [_ ->].
    specialize (IH _ eq_refl). unfold Buffer.concat, Buffer.length in *.
    cbn [concat app length]. lia.
Qed.

(** The decoding loop, started right after a prefix [pre], reads back
    the encoded actions. *)
Lemma parseEntries_encodeActions (actions : list CrosspointLevelAction) :
  forall (bs : list Buffer.t) (pre : Buffer.t),
  encodeActions actions = Ok bs ->
  ReplyCrosspointLevelStatus.parseEntries (length actions)
    (pre ++ Buffer.concat bs) (Buffer.length pre)
  = Ok (Some (map decodedLevelAction actions)).
Proof.
  induction actions as [|a actions IH]; intros bs pre H; simpl in H.
  - injection H as <-. reflexivity.
  - destruct (encodeAction a) as [b|] eqn:Ea; [|discriminate H].
    destruct (encodeActions actions) as [bs'|] eqn:Eas; [|discriminate H].
    cbn [bind] in H. injection H as <-.
    pose proof (encodeActions_length _ _ Eas) as Hlen.
    apply encodeAction_inv in Ea as [(Hd & Hs & Hl) ->].
    cbn [length ReplyCrosspointLevelStatus.parseEntries].
    unfold Buffer.concat in *. cbn [concat].
    set (rest := concat bs') in *.
    replace (Buffer.length pre + 6 >? Buffer.length (pre ++ _)) with false.
    2:{ symmetry. rewrite length_app, length_app.
        change (Buffer.length [_; _; _; _; _; _]) with 6.
        pose proof (length_nonneg rest). lia. }
    rewrite <- (Z.add_0_r (Buffer.length pre)) at 1.
    rewrite readUInt16BE_app_r by lia.
    replace (Buffer.readUInt16BE (_ ++ rest) 0)
      with (Ok (destinationPort a - 1) : outcome Z).
    2:{ unfold Buffer.readUInt16BE, Buffer.byte_at. simpl.
        now rewrite u16_recompose by lia. }
    cbn [bind]. rewrite readUInt16BE_app_r by lia.
    replace (Buffer.readUInt16BE (_ ++ rest) 2)
      with (Ok (sourcePort a - 1) : outcome Z).
    2:{ unfold Buffer.readUInt16BE, Buffer.byte_at. simpl.
        now rewrite u16_recompose by lia. }
    cbn [bind]. rewrite readUInt16BE_app_r by lia.
    replace (Buffer.readUInt16BE (_ ++ rest) 4)
      with (Ok (levelValue a) : outcome Z).
    2:{ unfold Buffer.readUInt16BE, Buffer.byte_at. simpl.
        now rewrite u16_recompose by lia. }
    cbn [bind].
    specialize (IH bs' (pre ++ [Buffer.byte_of_Z ((destinationPort a - 1) / 256);
                               Buffer.byte_of_Z (destinationPort a - 1);
                               Buffer.byte_of_Z ((sourcePort a - 1) / 256);
                               Buffer.byte_of_Z (sourcePort a - 1);
                               Buffer.byte_of_Z (levelValue a / 256);
                               Buffer.byte_of_Z (levelValue a)]) eq_refl).
    rewrite length_app in IH. change (Buffer.length [_; _; _; _; _; _]) with 6 in IH.
    rewrite <- app_assoc in IH. fold rest in IH. rewrite IH.
    cbn [bind option_map map]. unfold decodedLevelAction.
    repeat f_equal; lia.
Qed.

(** Whenever [RequestCrosspointLevelActions.createPayload] builds a
    payload for a list of actions, [ReplyCrosspointLevelStatus.parse]
    applied to that payload returns the number of actions as count and,
    entry by entry, the same destination port, source port and level
    value (each with the dB value of that level). *)
Theorem crosspoint_level_roundtrip
    (actions : list CrosspointLevelAction) (payload : Buffer.t) (now : Z) :
  createPayload actions = Ok payload ->
  ReplyCrosspointLevelStatus.parse payload now
  = Ok (Some {| ReplyCrosspointLevelStatus.messageID := 0x0028;
                ReplyCrosspointLevelStatus.timestamp := now;
                ReplyCrosspointLevelStatus.count := Z.of_nat (length actions);
                ReplyCrosspointLevelStatus.levelData := map decodedLevelAction actions;
                ReplyCrosspointLevelStatus.rawPayload := payload |}).
Proof.
  unfold createPayload. intro H.
  destruct (Buffer.writeUInt16BE (Z.of_nat (length actions))) as [cb|] eqn:Ec;
    [|discriminate H].
  destruct (encodeActions actions) as [bs|] eqn:Eas; [|discriminate H].
  cbn [bind] in H. injection H as <-.
  pose proof (encodeActions_length _ _ Eas) as Hlen.
  pose proof (parseEntries_encodeActions _ _ cb Eas) as Hp.
  apply writeUInt16BE_inv in Ec as [Hn ->].
  unfold Buffer.concat in *. cbn [concat]. rewrite app_nil_r.
  set (rest := concat bs) in *.
  unfold ReplyCrosspointLevelStatus.parse.
  rewrite length_app.
  change (Buffer.length [_; _]) with 2.
  pose proof (length_nonneg rest) as Hr.
  replace (2 + Buffer.length rest <? 2) with false by (symmetry; apply Z.ltb_ge; lia).
  replace (Buffer.readUInt16BE (_ ++ rest) 0)
    with (Ok (Z.of_nat (length actions)) : outcome Z).
  2:{ unfold Buffer.readUInt16BE, Buffer.byte_at. simpl.
      now rewrite u16_recompose by lia. }
  cbn [bind].
  replace (2 + Buffer.length rest <? 2 + Z.of_nat (length actions) * 6) with false
    by (symmetry; apply Z.ltb_ge; lia).
  rewrite Nat2Z.id.
  change 2 with (Buffer.length [Buffer.byte_of_Z (Z.of_nat (length actions) / 256);
                                Buffer.byte_of_Z (Z.of_nat (length actions))]) at 1.
  rewrite Hp. reflexivity.
Qed.

(** The payload is built exactly for the lists the claim speaks of,
    provided their length fits the 16-bit count field. *)
Lemma createPayload_returns (actions : list CrosspointLevelAction) :
  Forall inRangeLevelAction actions ->
  Z.of_nat (length actions) <= 65535 ->
  exists payload, createPayload actions = Ok payload.
Proof.
  intros Hall Hn. unfold createPayload.
  rewrite writeUInt16BE_ok by lia. cbn [bind].
  destruct (encodeActions_ok _ Hall) as [bs ->]. cbn [bind].
  eexists. reflexivity.
Qed.

Lemma createPayload_returns_witness :
  exists payload,
    createPayload [ {| destinationPort := 1; sourcePort := 1024; levelValue := 204 |} ]
      = Ok payload.
Proof.
  apply createPayload_returns.
  - repeat constructor; simpl; lia.
  - simpl. lia.
Defined.

Lemma createPayload_in_range (actions : list CrosspointLevelAction) (payload : Buffer.t) :
  createPayload actions = Ok payload -> Forall inRangeLevelAction actions.
Proof.
  unfold createPayload. intro H.
  destruct (Buffer.writeUInt16BE (Z.of_nat (length actions))) as [cb|];
    [|discriminate H].
  destruct (encodeActions actions) as [bs|] eqn:Eas; [|discriminate H].
  clear H. revert bs Eas.
  induction actions as [|a actions IH]; intros bs H; simpl in H.
  - constructor.
  - destruct (encodeAction a) as [b|] eqn:Ea; [|discriminate H].
    destruct (encodeActions actions) as [bs'|] eqn:Eas; [|discriminate H].
    constructor.
    + now apply encodeAction_inv in Ea as [? _].
    + eapply IH. reflexivity.
Qed.

Lemma crosspoint_level_roundtrip_witness :
  exists payload,
    createPayload [ {| destinationPort := 1024; sourcePort := 1; levelValue := 287 |};
                    {| destinationPort := 3; sourcePort := 700; levelValue := 0 |} ]
      = Ok payload /\
    ReplyCrosspointLevelStatus.parse payload 0
      = Ok (Some {| ReplyCrosspointLevelStatus.messageID := 0x0028;
                    ReplyCrosspointLevelStatus.timestamp := 0;
                    ReplyCrosspointLevelStatus.count := 2;
                    ReplyCrosspointLevelStatus.levelData :=
                      map decodedLevelAction
                        [ {| destinationPort := 1024; sourcePort := 1; levelValue := 287 |};
                          {| destinationPort := 3; sourcePort := 700; levelValue := 0 |} ];
                    ReplyCrosspointLevelStatus.rawPayload := payload |}).
Proof.
  eexists. split; [reflexivity|].
  apply (crosspoint_level_roundtrip
           [ {| destinationPort := 1024; sourcePort := 1; levelValue := 287 |};
             {| destinationPort := 3; sourcePort := 700; levelValue := 0 |} ]).
  reflexivity.
Defined.

End LevelCodecFacts.

(* ================================================================== *)
(** ** Port validation at construction time *)

Section ValidationFacts.

Lemma validatePorts_spec (sourcePort destinationPort : Z) :
  RequestCrosspointActions.validatePorts sourcePort destinationPort = true <->
  1 <= sourcePort <= 1024 /\ 1 <= destinationPort <= 1024.
Proof.
  unfold RequestCrosspointActions.validatePorts.
  rewrite !andb_true_iff, !Z.gtb_ltb, !Z.ltb_lt, !Z.leb_le. lia.
Qed.

Lemma crosspoint_encodeAction_rejects (a : RequestCrosspointActions.CrosspointAction) :
  portOutOfRange (RequestCrosspointActions.sourcePort a) \/
  portOutOfRange (RequestCrosspointActions.destinationPort a) ->
  RequestCrosspointActions.encodeAction a = Threw ValidationError.
Proof.
  intro H. unfold RequestCrosspointActions.encodeAction.
  destruct (RequestCrosspointActions.validatePorts _ _) eqn:E; [|reflexivity].
  apply validatePorts_spec in E. unfold portOutOfRange in H. lia.
Qed.

Lemma crosspoint_encodeActions_rejects
    (actions : list RequestCrosspointActions.CrosspointAction) :
  Exists (fun a => portOutOfRange (RequestCrosspointActions.sourcePort a) \/
                   portOutOfRange (RequestCrosspointActions.destinationPort a))
         actions ->
  exists e, RequestCrosspointActions.encodeActions actions = Threw e.
Proof.
  induction 1 as [a rest Ha | a rest _ [e IH]]; simpl.
  - rewrite crosspoint_encodeAction_rejects by exact Ha. now eexists.
  - destruct (RequestCrosspointActions.encodeAction a); cbn [bind].
    + rewrite IH. now eexists.
    + now eexists.
Qed.

(** A crosspoint request with a source or destination port outside
    1..1024 makes the constructor throw, so [addToQueue] is
    never reached: submitting it reports the error and leaves the
    instance, and with it the send queue, as it was. *)
Theorem out_of_range_port_rejected
    (s : EclipseHCI.t) (actions : list RequestCrosspointActions.CrosspointAction)
    (urgent : bool) (now : Z) :
  Exists (fun a => portOutOfRange (RequestCrosspointActions.sourcePort a) \/
                   portOutOfRange (RequestCrosspointActions.destinationPort a))
         actions ->
  exists e, Submit.crosspointActions s actions urgent now = (s, Threw e).
Proof.
  intro H. unfold Submit.crosspointActions, RequestCrosspointActions.new,
    RequestCrosspointActions.createPayload.
  destruct (Buffer.writeUInt16BE (Z.of_nat (length actions))); cbn [bind].
  - destruct (crosspoint_encodeActions_rejects _ H) as [e ->]. cbn [bind].
    now eexists.
  - now eexists.
Qed.

Lemma out_of_range_port_rejected_witness :
  exists e,
    Submit.crosspointActions (EclipseHCI.init 100)
      [ {| RequestCrosspointActions.direction := RequestCrosspointActions.add;
           RequestCrosspointActions.destinationPort := 1025;
           RequestCrosspointActions.sourcePort := 1;
           RequestCrosspointActions.enableDisable := RequestCrosspointActions.enable;
           RequestCrosspointActions.priority := 1 |} ] false 0
    = (EclipseHCI.init 100, Threw e).
Proof.
  apply out_of_range_port_rejected.
  apply Exists_cons_hd. right. unfold portOutOfRange. simpl. lia.
Defined.

(** The same for the level actions. *)
Lemma level_action_out_of_range_port_rejected
    (s : EclipseHCI.t)
    (actions : list RequestCrosspointLevelActions.CrosspointLevelAction)
    (urgent : bool) (now : Z) :
  Exists (fun a => portOutOfRange (RequestCrosspointLevelActions.sourcePort a) \/
                   portOutOfRange (RequestCrosspointLevelActions.destinationPort a))
         actions ->
  exists e, Submit.crosspointLevelActions s actions urgent now = (s, Threw e).
Proof.
  intro H. unfold Submit.crosspointLevelActions, RequestCrosspointLevelActions.new.
  destruct (RequestCrosspointLevelActions.createPayload actions) as [p|e] eqn:E;
    cbn [bind]; [|now eexists].
  exfalso. apply createPayload_in_range in E.
  rewrite Forall_forall in E. apply Exists_exists in H as (a & Hin & Ha).
  specialize (E a Hin). unfold inRangeLevelAction, portOutOfRange in *. lia.
Qed.

(** A port field of 1024 passes [validatePorts] and the bounds check of
    the level actions: the constructor returns, and the request is put
    on the queue. *)
Lemma port_1024_is_accepted :
  let a := {| RequestCrosspointActions.direction := RequestCrosspointActions.add;
              RequestCrosspointActions.destinationPort := 1024;
              RequestCrosspointActions.sourcePort := 1024;
              RequestCrosspointActions.enableDisable := RequestCrosspointActions.enable;
              RequestCrosspointActions.priority := 1 |} in
  let b := {| RequestCrosspointLevelActions.destinationPort := 1024;
              RequestCrosspointLevelActions.sourcePort := 1024;
              RequestCrosspointLevelActions.levelValue := 204 |} in
  let s0 := EclipseHCI.init 100 in
  RequestCrosspointActions.validatePorts 1024 1024 = true /\
  ~ (exists e, Submit.crosspointActions s0 [a] false 0 = (s0, Threw e)) /\
  snd (Submit.crosspointActions s0 [a] false 0) = Ok tt /\
  length (EclipseHCI.messageQueue (fst (Submit.crosspointActions s0 [a] false 0))) = 1%nat /\
  snd (Submit.crosspointLevelActions s0 [b] false 0) = Ok tt /\
  length (EclipseHCI.messageQueue (fst (Submit.crosspointLevelActions s0 [b] false 0))) = 1%nat.
Proof.
  cbv zeta. split; [reflexivity|]. split.
  - intros [e H]. vm_compute in H. discriminate H.
  - repeat split; vm_compute; reflexivity.
Qed.

End ValidationFacts.

(* ================================================================== *)
(** ** The send queue: ordering *)

Section QueueOrder.

(** On a queue made of urgent requests followed by a part that does not
    start with an urgent one, the scan of [addToQueue] stops right after
    the urgent requests. *)
Lemma findInsertIndex_urgent_prefix (us ns : list HCIRequest.t) (i : nat) :
  Forall (fun r => HCIRequest.Urgent r = true) us ->
  match ns with [] => True | r :: _ => HCIRequest.Urgent r = false end ->
  EclipseHCI.findInsertIndex (us ++ ns) i i = (i + length us)%nat.
Proof.
  intros Hus Hns. revert i. induction Hus as [|u us Hu _ IH]; intro i; simpl.
  - destruct ns as [|r ns]; simpl; [lia|]. rewrite Hns. lia.
  - rewrite Hu, IH. lia.
Qed.

Lemma findIndex_urgent_prefix (us ns : list EclipseHCIv2.Request.t) (i : nat) :
  Forall (fun r => EclipseHCIv2.Request.Urgent r = true) us ->
  match ns with [] => True | r :: _ => EclipseHCIv2.Request.Urgent r = false end ->
  EclipseHCIv2.findIndex normalRequest2 (us ++ ns) i
  = match ns with [] => None | _ :: _ => Some (i + length us)%nat end.
Proof.
  intros Hus Hns. revert i. induction Hus as [|u us Hu _ IH]; intro i; simpl.
  - destruct ns as [|r ns]; simpl; [reflexivity|].
    unfold normalRequest2. rewrite Hns. simpl. f_equal. lia.
  - unfold normalRequest2 at 1. rewrite Hu. simpl. rewrite IH.
    destruct ns; [reflexivity|]. f_equal. lia.
Qed.

Lemma splice_insert_app {A : Type} (us ns : list A) (x : A) :
  EclipseHCI.splice_insert (us ++ ns) (length us) x = us ++ x :: ns.
Proof.
  unfold EclipseHCI.splice_insert.
  rewrite firstn_app, firstn_all, Nat.sub_diag, skipn_app, skipn_all, Nat.sub_diag.
  simpl. now rewrite app_nil_r.
Qed.

Lemma filter_urgent_all (rs : list HCIRequest.t) :
  Forall (fun r => HCIRequest.Urgent r = true) (filter HCIRequest.Urgent rs).
Proof.
  apply Forall_forall. intros r Hr. now apply filter_In in Hr.
Qed.

Lemma filter_normal_head (rs : list HCIRequest.t) :
  match filter normalRequest rs with
  | [] => True
  | r :: _ => HCIRequest.Urgent r = false
  end.
Proof.
  destruct (filter normalRequest rs) as [|r l] eqn:E; [exact I|].
  assert (Hin : In r (filter normalRequest rs)) by (rewrite E; now left).
  apply filter_In in Hin as [_ H]. unfold normalRequest in H.
  now apply negb_true_iff in H.
Qed.

Lemma filter_urgent_all2 (rs : list EclipseHCIv2.Request.t) :
  Forall (fun r => EclipseHCIv2.Request.Urgent r = true)
         (filter EclipseHCIv2.Request.Urgent rs).
Proof.
  apply Forall_forall. intros r Hr. now apply filter_In in Hr.
Qed.

Lemma filter_normal_head2 (rs : list EclipseHCIv2.Request.t) :
  match filter normalRequest2 rs with
  | [] => True
  | r :: _ => EclipseHCIv2.Request.Urgent r = false
  end.
Proof.
  destruct (filter normalRequest2 rs) as [|r l] eqn:E; [exact I|].
  assert (Hin : In r (filter normalRequest2 rs)) by (rewrite E; now left).
  apply filter_In in Hin as [_ H]. unfold normalRequest2 in H.
  now apply negb_true_iff in H.
Qed.

(** One call of [addToQueue] on a queue that holds the urgent requests
    of [done], in order, followed by its normal requests, in order. *)
Lemma addToQueue_sorted (s : EclipseHCI.t) (done : list HCIRequest.t) (r : HCIRequest.t) :
  EclipseHCI.messageQueue s
    = filter HCIRequest.Urgent done ++ filter normalRequest done ->
  EclipseHCI.messageQueue (EclipseHCI.addToQueue s r)
    = filter HCIRequest.Urgent (done ++ [r]) ++ filter normalRequest (done ++ [r]).
Proof.
  intro Hq. unfold EclipseHCI.addToQueue. rewrite !filter_app. simpl.
  assert (Hn : normalRequest r = negb (HCIRequest.Urgent r)) by reflexivity.
  rewrite Hn.
  destruct (HCIRequest.Urgent r); simpl; rewrite Hq.
  - rewrite (findInsertIndex_urgent_prefix _ _ 0 (filter_urgent_all done)
               (filter_normal_head done)).
    simpl. rewrite splice_insert_app, app_nil_r, <- app_assoc. reflexivity.
  - now rewrite app_nil_r, <- app_assoc.
Qed.

Lemma enqueue_sorted (s : EclipseHCIv2.t) (done : list EclipseHCIv2.Request.t)
    (r : EclipseHCIv2.Request.t) :
  EclipseHCIv2.queue s
    = filter EclipseHCIv2.Request.Urgent done ++ filter normalRequest2 done ->
  EclipseHCIv2.queue (EclipseHCIv2.enqueue s r)
    = filter EclipseHCIv2.Request.Urgent (done ++ [r])
      ++ filter normalRequest2 (done ++ [r]).
Proof.
  intro Hq. unfold EclipseHCIv2.enqueue. rewrite !filter_app. simpl.
  assert (Hn : normalRequest2 r = negb (EclipseHCIv2.Request.Urgent r)) by reflexivity.
  rewrite Hn.
  destruct (EclipseHCIv2.Request.Urgent r); simpl.
  - rewrite Hq.
    change (fun r0 => negb (EclipseHCIv2.Request.Urgent r0)) with normalRequest2.
    rewrite (findIndex_urgent_prefix _ _ 0 (filter_urgent_all2 done)
               (filter_normal_head2 done)).
    destruct (filter normalRequest2 done) as [|n ns] eqn:En; simpl.
    + now rewrite !app_nil_r.
    + rewrite splice_insert_app, app_nil_r, <- app_assoc. reflexivity.
  - now rewrite Hq, app_nil_r, <- app_assoc.
Qed.

Lemma addToQueue_all_sorted (rs done : list HCIRequest.t) (s : EclipseHCI.t) :
  EclipseHCI.messageQueue s
    = filter HCIRequest.Urgent done ++ filter normalRequest done ->
  EclipseHCI.messageQueue (fold_left EclipseHCI.addToQueue rs s)
    = filter HCIRequest.Urgent (done ++ rs) ++ filter normalRequest (done ++ rs).
Proof.
  revert done s. induction rs as [|r rs IH]; intros done s Hq; simpl.
  - now rewrite app_nil_r.
  - replace (done ++ r :: rs) with ((done ++ [r]) ++ rs) by now rewrite <- app_assoc.
    apply IH. now apply addToQueue_sorted.
Qed.

Lemma enqueue_all_sorted (rs done : list EclipseHCIv2.Request.t) (s : EclipseHCIv2.t) :
  EclipseHCIv2.queue s
    = filter EclipseHCIv2.Request.Urgent done ++ filter normalRequest2 done ->
  EclipseHCIv2.queue (fold_left EclipseHCIv2.enqueue rs s)
    = filter EclipseHCIv2.Request.Urgent (done ++ rs)
      ++ filter normalRequest2 (done ++ rs).
Proof.
  revert done s. induction rs as [|r rs IH]; intros done s Hq; simpl.
  - now rewrite app_nil_r.
  - replace (done ++ r :: rs) with ((done ++ [r]) ++ rs) by now rewrite <- app_assoc.
    apply IH. now apply enqueue_sorted.
Qed.

(** C5.  Starting from an empty queue, after the requests [rs] have been
    enqueued one after the other the queue holds the urgent requests of
    [rs] in their insertion order followed by the normal requests of
    [rs] in their insertion order; this holds for [addToQueue] and for
    [enqueue].  (For a normal A, an urgent B and a normal C this is the
    queue B, A, C.) *)
Theorem queue_urgent_then_normal_fifo
    (s : EclipseHCI.t) (rs : list HCIRequest.t)
    (s2 : EclipseHCIv2.t) (rs2 : list EclipseHCIv2.Request.t) :
  EclipseHCI.messageQueue s = [] ->
  EclipseHCIv2.queue s2 = [] ->
  EclipseHCI.messageQueue (fold_left EclipseHCI.addToQueue rs s)
    = filter HCIRequest.Urgent rs ++ filter normalRequest rs
  /\
  EclipseHCIv2.queue (fold_left EclipseHCIv2.enqueue rs2 s2)
    = filter EclipseHCIv2.Request.Urgent rs2 ++ filter normalRequest2 rs2.
Proof.
  intros Hs Hs2. split.
  - apply (addToQueue_all_sorted rs [] s). exact Hs.
  - apply (enqueue_all_sorted rs2 [] s2). exact Hs2.
Qed.

(** The scenario of the claim: normal A, urgent B, normal C. *)
Lemma queue_urgent_then_normal_fifo_witness :
  let A := HCIRequest.new 0x0013 [x01] false None 1 in
  let B := HCIRequest.new 0x0011 [x02] true None 2 in
  let C := HCIRequest.new 0x000D [x03] false None 3 in
  let A2 := {| EclipseHCIv2.Request.RequestID := 0; EclipseHCIv2.Request.Data := [x01];
               EclipseHCIv2.Request.Urgent := false;
               EclipseHCIv2.Request.ResponseID := None |} in
  let B2 := {| EclipseHCIv2.Request.RequestID := 0; EclipseHCIv2.Request.Data := [x02];
               EclipseHCIv2.Request.Urgent := true;
               EclipseHCIv2.Request.ResponseID := None |} in
  let C2 := {| EclipseHCIv2.Request.RequestID := 0; EclipseHCIv2.Request.Data := [x03];
               EclipseHCIv2.Request.Urgent := false;
               EclipseHCIv2.Request.ResponseID := None |} in
  EclipseHCI.messageQueue
    (fold_left EclipseHCI.addToQueue [A; B; C] (EclipseHCI.init 100)) = [B; A; C]
  /\
  EclipseHCIv2.queue
    (fold_left EclipseHCIv2.enqueue [A2; B2; C2] (EclipseHCIv2.init 80 true 5000))
    = [B2; A2; C2].
Proof.
  cbv zeta.
  exact (queue_urgent_then_normal_fifo (EclipseHCI.init 100) _
           (EclipseHCIv2.init 80 true 5000) _ eq_refl eq_refl).
Defined.

(** For any normal A, urgent B and normal C: the queue is B, A, C, and
    three timer ticks on a connected instance write them in that
    order. *)
Lemma normal_urgent_normal (s : EclipseHCI.t) (A B C : HCIRequest.t) :
  EclipseHCI.messageQueue s = [] ->
  HCIRequest.Urgent A = false -> HCIRequest.Urgent B = true ->
  HCIRequest.Urgent C = false ->
  EclipseHCI.messageQueue (fold_left EclipseHCI.addToQueue [A; B; C] s) = [B; A; C].
Proof.
  intros Hs HA HB HC.
  rewrite (addToQueue_all_sorted [A; B; C] [] s Hs). simpl.
  unfold normalRequest. now rewrite HA, HB, HC.
Qed.

Lemma dispatch_order (s : EclipseHCI.t) (A B C : HCIRequest.t) (sock : nat) :
  EclipseHCI.messageQueue s = [B; A; C] ->
  EclipseHCI.connected s = true -> EclipseHCI.socket s = Some sock ->
  EclipseHCI.isProcessingQueue s = false ->
  EclipseHCI.queueProcessor s = Some (EclipseHCI.rateLimitMs s) ->
  EclipseHCI.wire (EclipseHCI.tick (EclipseHCI.tick (EclipseHCI.tick s)))
  = EclipseHCI.wire s ++ [HCIRequest.Data B; HCIRequest.Data A; HCIRequest.Data C].
Proof.
  destruct s as [c so b q t rl p w]. simpl. intros -> -> -> -> ->.
  cbn. now rewrite <- !app_assoc.
Qed.

End QueueOrder.

(* ================================================================== *)
(** ** The send queue: dispatching *)

Section Dispatch.

(** What one call of [processQueue] can do: nothing, or take the head of
    the queue and pass its data to [socket.write] (or, with no socket,
    take it and write nothing). *)
Lemma processQueue_effect (s : EclipseHCI.t) :
  (EclipseHCI.processQueue s = s) \/
  (exists request rest,
      EclipseHCI.messageQueue s = request :: rest /\
      EclipseHCI.messageQueue (EclipseHCI.processQueue s) = rest /\
      (EclipseHCI.wire (EclipseHCI.processQueue s)
         = EclipseHCI.wire s ++ [HCIRequest.Data request] \/
       EclipseHCI.wire (EclipseHCI.processQueue s) = EclipseHCI.wire s)).
Proof.
  destruct s as [c so b q t rl p w]. unfold EclipseHCI.processQueue. simpl.
  destruct p; simpl; [now left|].
  destruct c; simpl; [|now left].
  destruct q as [|request rest]; simpl; [now left|].
  right. exists request, rest. split; [reflexivity|].
  unfold EclipseHCI.sendHCIRequest. simpl.
  destruct so; simpl; auto.
Qed.

Lemma processQueue_idle (s : EclipseHCI.t) :
  EclipseHCI.isProcessingQueue s = true \/ EclipseHCI.connected s = false \/
  EclipseHCI.socket s = None \/ EclipseHCI.messageQueue s = [] ->
  EclipseHCI.wire (EclipseHCI.processQueue s) = EclipseHCI.wire s.
Proof.
  destruct s as [c so b q t rl p w]. unfold EclipseHCI.processQueue. simpl.
  intros [-> | [-> | [-> | ->]]]; simpl; try reflexivity.
  - now destruct p.
  - destruct p; simpl; [reflexivity|]. destruct c; simpl; [|reflexivity].
    now destruct q.
  - destruct p; simpl; [reflexivity|]. now destruct c.
Qed.

Lemma drain_effect (s : EclipseHCIv2.t) :
  (EclipseHCIv2.drain s = s) \/
  (exists req rest,
      EclipseHCIv2.queue s = req :: rest /\
      EclipseHCIv2.queue (EclipseHCIv2.drain s) = rest /\
      ((exists frame, EclipseHCIv2.Request.getRequest req = Ok frame /\
                      EclipseHCIv2.wire (EclipseHCIv2.drain s)
                        = EclipseHCIv2.wire s ++ [frame]) \/
       EclipseHCIv2.wire (EclipseHCIv2.drain s) = EclipseHCIv2.wire s)).
Proof.
  destruct s as [rl rc rd so b q t p rt st tok w em].
  unfold EclipseHCIv2.drain. simpl.
  destruct p; [now left|].
  destruct so; [|now left].
  destruct q as [|req rest]; simpl; [now left|].
  right. exists req, rest. split; [reflexivity|].
  destruct (EclipseHCIv2.Request.getRequest req) as [frame|e] eqn:E; simpl.
  - split; [reflexivity|]. left. now exists frame.
  - split; [reflexivity|]. now right.
Qed.

Lemma drain_idle (s : EclipseHCIv2.t) :
  EclipseHCIv2.processing s = true \/ EclipseHCIv2.socket s = None \/
  EclipseHCIv2.queue s = [] ->
  EclipseHCIv2.drain s = s.
Proof.
  destruct s as [rl rc rd so b q t p rt st tok w em].
  unfold EclipseHCIv2.drain. simpl.
  intros [-> | [-> | ->]]; simpl; try reflexivity.
  - now destruct p.
  - destruct p; [reflexivity|]. now destruct so.
Qed.

Lemma tick_wire_length (s : EclipseHCI.t) :
  (length (EclipseHCI.wire (EclipseHCI.tick s)) <= S (length (EclipseHCI.wire s)))%nat.
Proof.
  unfold EclipseHCI.tick. destruct (EclipseHCI.queueProcessor s); [|lia].
  destruct (processQueue_effect s) as [-> | (r & rest & _ & _ & [-> | ->])];
    rewrite ?List.length_app; simpl; lia.
Qed.

Lemma tick2_wire_length (s : EclipseHCIv2.t) :
  (length (EclipseHCIv2.wire (EclipseHCIv2.tick s))
   <= S (length (EclipseHCIv2.wire s)))%nat.
Proof.
  unfold EclipseHCIv2.tick. destruct (EclipseHCIv2.timer s); [|lia].
  destruct (drain_effect s) as [-> | (r & rest & _ & _ & [(f & _ & ->) | ->])];
    rewrite ?List.length_app; simpl; lia.
Qed.

Lemma handleMessage_wire (s s' : EclipseHCI.t) (data : Buffer.t) (ms : list Buffer.t) :
  EclipseHCI.handleMessage s data = Some (Ok (s', ms)) ->
  EclipseHCI.wire s' = EclipseHCI.wire s /\
  EclipseHCI.messageQueue s' = EclipseHCI.messageQueue s.
Proof.
  unfold EclipseHCI.handleMessage.
  destruct (EclipseHCI.handleMessage_loop _ _) as [[[ms' rest]|e]|]; try discriminate.
  intro H. injection H as <- <-. split; reflexivity.
Qed.

(** Events other than a timer tick write nothing. *)
Lemma step_no_tick_wire (s : EclipseHCI.t) (e : Trace.event) :
  Trace.is_tick e = false ->
  EclipseHCI.wire (Trace.step s e) = EclipseHCI.wire s.
Proof.
  destruct e; simpl; intro H; try discriminate H.
  - unfold EclipseHCI.addToQueue. now destruct (HCIRequest.Urgent request).
  - reflexivity.
  - unfold EclipseHCI.on_data.
    destruct (EclipseHCI.handleMessage _ data) as [[[s' ms]|]|] eqn:E; try reflexivity.
    apply handleMessage_wire in E as [-> _].
    now destruct (EclipseHCI.connected s).
  - unfold EclipseHCI.on_close, EclipseHCI.stopQueueProcessor. simpl.
    now destruct (EclipseHCI.queueProcessor s).
  - unfold EclipseHCI.on_error, EclipseHCI.stopQueueProcessor. simpl.
    now destruct (EclipseHCI.queueProcessor s).
  - unfold EclipseHCI.disconnect, EclipseHCI.stopQueueProcessor. simpl.
    now destruct (EclipseHCI.queueProcessor s).
Qed.

Lemma step2_no_tick_wire (s : EclipseHCIv2.t) (e : Trace.event2) :
  Trace.is_tick2 e = false ->
  EclipseHCIv2.wire (Trace.step2 s e) = EclipseHCIv2.wire s.
Proof.
  destruct e; simpl; intro H; try discriminate H; try reflexivity.
  - unfold EclipseHCIv2.enqueue.
    destruct (EclipseHCIv2.Request.Urgent request); [|reflexivity].
    now destruct (EclipseHCIv2.findIndex _ _ _).
  - unfold EclipseHCIv2.handleClose. simpl.
    destruct (EclipseHCIv2.opts_reconnect s); [|reflexivity].
    now destruct (EclipseHCIv2.reconnectTimer s).
Qed.

Lemma run_wire_bound (es : list Trace.event) (s : EclipseHCI.t) :
  (length (EclipseHCI.wire (Trace.run s es))
   <= length (EclipseHCI.wire s) + length (filter Trace.is_tick es))%nat.
Proof.
  unfold Trace.run. revert s. induction es as [|e es IH]; intro s; simpl; [lia|].
  specialize (IH (Trace.step s e)).
  destruct (Trace.is_tick e) eqn:E.
  - destruct e; try discriminate E. simpl in *.
    pose proof (tick_wire_length s). lia.
  - rewrite step_no_tick_wire in IH by exact E. exact IH.
Qed.

Lemma run2_wire_bound (es : list Trace.event2) (s : EclipseHCIv2.t) :
  (length (EclipseHCIv2.wire (Trace.run2 s es))
   <= length (EclipseHCIv2.wire s) + length (filter Trace.is_tick2 es))%nat.
Proof.
  unfold Trace.run2. revert s. induction es as [|e es IH]; intro s; simpl; [lia|].
  specialize (IH (Trace.step2 s e)).
  destruct (Trace.is_tick2 e) eqn:E.
  - destruct e; try discriminate E. simpl in *.
    pose proof (tick2_wire_length s). lia.
  - rewrite step2_no_tick_wire in IH by exact E. exact IH.
Qed.

(** C8.  A dispatcher tick ([processQueue], resp. [drain], called from
    the interval timer) either leaves the instance as it is, or removes
    exactly the head of the queue and performs at most one
    [socket.write], whatever the length of the queue.  It writes nothing
    when the in-flight guard is set, the instance is not connected or
    has no socket, or the queue is empty.  All writes happen in ticks:
    over any sequence of events the number of writes is at most the
    number of ticks, so no interval between two ticks sees a second
    write. *)
Theorem at_most_one_write_per_tick :
  (forall s : EclipseHCI.t,
      (EclipseHCI.tick s = s \/
       exists request rest,
         EclipseHCI.messageQueue s = request :: rest /\
         EclipseHCI.messageQueue (EclipseHCI.tick s) = rest /\
         (EclipseHCI.wire (EclipseHCI.tick s)
            = EclipseHCI.wire s ++ [HCIRequest.Data request] \/
          EclipseHCI.wire (EclipseHCI.tick s) = EclipseHCI.wire s)) /\
      (EclipseHCI.isProcessingQueue s = true \/ EclipseHCI.connected s = false \/
       EclipseHCI.socket s = None \/ EclipseHCI.messageQueue s = [] ->
       EclipseHCI.wire (EclipseHCI.tick s) = EclipseHCI.wire s)) /\
  (forall s : EclipseHCIv2.t,
      (EclipseHCIv2.tick s = s \/
       exists req rest,
         EclipseHCIv2.queue s = req :: rest /\
         EclipseHCIv2.queue (EclipseHCIv2.tick s) = rest /\
         ((exists frame, EclipseHCIv2.Request.getRequest req = Ok frame /\
                         EclipseHCIv2.wire (EclipseHCIv2.tick s)
                           = EclipseHCIv2.wire s ++ [frame]) \/
          EclipseHCIv2.wire (EclipseHCIv2.tick s) = EclipseHCIv2.wire s)) /\
      (EclipseHCIv2.processing s = true \/ EclipseHCIv2.socket s = None \/
       EclipseHCIv2.queue s = [] ->
       EclipseHCIv2.tick s = s)) /\
  (forall (s : EclipseHCI.t) (es : list Trace.event),
      (length (EclipseHCI.wire (Trace.run s es))
       <= length (EclipseHCI.wire s) + length (filter Trace.is_tick es))%nat) /\
  (forall (s : EclipseHCIv2.t) (es : list Trace.event2),
      (length (EclipseHCIv2.wire (Trace.run2 s es))
       <= length (EclipseHCIv2.wire s) + length (filter Trace.is_tick2 es))%nat).
Proof.
  split; [|split; [|split]].
  - intro s. unfold EclipseHCI.tick. split.
    + destruct (EclipseHCI.queueProcessor s); [apply processQueue_effect | now left].
    + intro H. destruct (EclipseHCI.queueProcessor s); [|reflexivity].
      now apply processQueue_idle.
  - intro s. unfold EclipseHCIv2.tick. split.
    + destruct (EclipseHCIv2.timer s); [apply drain_effect | now left].
    + intro H. destruct (EclipseHCIv2.timer s); [|reflexivity].
      now apply drain_idle.
  - intros s es. apply run_wire_bound.
  - intros s es. apply run2_wire_bound.
Qed.

(** A queue of three on a connected instance: one tick writes one
    request and leaves two. *)
Lemma one_tick_example :
  let r1 := HCIRequest.new 1 [x01] false None 0 in
  let r2 := HCIRequest.new 2 [x02] false None 0 in
  let r3 := HCIRequest.new 3 [x03] false None 0 in
  let s := {| EclipseHCI.connected := true; EclipseHCI.socket := Some 7%nat;
              EclipseHCI.buffer := []; EclipseHCI.messageQueue := [r1; r2; r3];
              EclipseHCI.queueProcessor := Some 100; EclipseHCI.rateLimitMs := 100;
              EclipseHCI.isProcessingQueue := false; EclipseHCI.wire := [] |} in
  EclipseHCI.wire (EclipseHCI.tick s) = [[x01]] /\
  EclipseHCI.messageQueue (EclipseHCI.tick s) = [r2; r3].
Proof. split; reflexivity. Qed.

End Dispatch.

(* ================================================================== *)
(** ** Close and error handling *)

Section CloseFacts.

Lemma stopQueueProcessor_stops (s : EclipseHCI.t) :
  EclipseHCI.queueProcessor (EclipseHCI.stopQueueProcessor s) = None /\
  EclipseHCI.messageQueue (EclipseHCI.stopQueueProcessor s) = EclipseHCI.messageQueue s /\
  EclipseHCI.connected (EclipseHCI.stopQueueProcessor s) = EclipseHCI.connected s.
Proof.
  unfold EclipseHCI.stopQueueProcessor.
  destruct (EclipseHCI.queueProcessor s) eqn:E; simpl; auto.
Qed.

(** C10.  The ['close'] and ['error'] handlers ([handleClose] for the
    [handleData] class, where an error reaches the instance as
    ['error'] followed by ['close']) stop the dispatch timer, leave the
    instance disconnected and leave the queue exactly as it was.  The
    same holds for incoming data and for [disconnect]; the queue is
    emptied by [clearQueue]. *)
Theorem close_and_error_keep_queue :
  (forall s : EclipseHCI.t,
      EclipseHCI.messageQueue (EclipseHCI.on_close s) = EclipseHCI.messageQueue s /\
      EclipseHCI.queueProcessor (EclipseHCI.on_close s) = None /\
      EclipseHCI.connected (EclipseHCI.on_close s) = false /\
      EclipseHCI.messageQueue (EclipseHCI.on_error s) = EclipseHCI.messageQueue s /\
      EclipseHCI.queueProcessor (EclipseHCI.on_error s) = None /\
      EclipseHCI.connected (EclipseHCI.on_error s) = false) /\
  (forall (s : EclipseHCIv2.t) (hadError : bool),
      EclipseHCIv2.queue (EclipseHCIv2.handleClose s hadError) = EclipseHCIv2.queue s /\
      EclipseHCIv2.timer (EclipseHCIv2.handleClose s hadError) = None /\
      EclipseHCIv2.state (EclipseHCIv2.handleClose s hadError)
        = EclipseHCIv2.disconnected /\
      EclipseHCIv2.queue (EclipseHCIv2.transport_error s) = EclipseHCIv2.queue s /\
      EclipseHCIv2.timer (EclipseHCIv2.transport_error s) = None /\
      EclipseHCIv2.state (EclipseHCIv2.transport_error s) = EclipseHCIv2.disconnected) /\
  (forall (s : EclipseHCI.t) (e : Trace.event),
      match e with
      | Trace.Data _ | Trace.Close | Trace.Error | Trace.Disconnect =>
          EclipseHCI.messageQueue (Trace.step s e) = EclipseHCI.messageQueue s
      | Trace.ClearQueue => EclipseHCI.messageQueue (Trace.step s e) = []
      | Trace.AddToQueue _ | Trace.Tick => True
      end).
Proof.
  split; [|split].
  - intro s. unfold EclipseHCI.on_close, EclipseHCI.on_error.
    destruct (stopQueueProcessor_stops
                (EclipseHCI.with_socket (EclipseHCI.with_connected s false) None))
      as (H1 & H2 & H3).
    rewrite H1, H2, H3. simpl. repeat split; reflexivity.
  - intros s hadError. unfold EclipseHCIv2.transport_error, EclipseHCIv2.on_error,
      EclipseHCIv2.handleClose. simpl.
    destruct (EclipseHCIv2.opts_reconnect s); simpl.
    + destruct (EclipseHCIv2.reconnectTimer s); simpl; repeat split; reflexivity.
    + repeat split; reflexivity.
  - intros s e. destruct e; simpl; try exact I; try reflexivity.
    + unfold EclipseHCI.on_data.
      destruct (EclipseHCI.handleMessage _ data) as [[[s' ms]|]|] eqn:E; try reflexivity.
      apply handleMessage_wire in E as [_ ->].
      now destruct (EclipseHCI.connected s).
    + exact (proj1 (proj2 (stopQueueProcessor_stops
               (EclipseHCI.with_socket (EclipseHCI.with_connected s false) None)))).
    + exact (proj1 (proj2 (stopQueueProcessor_stops
               (EclipseHCI.with_socket (EclipseHCI.with_connected s false) None)))).
    + exact (proj1 (proj2 (stopQueueProcessor_stops s))).
Qed.

End CloseFacts.

(* ================================================================== *)
(** ** The reassembler of the [handleMessage] class *)

Section Reassembler.

Lemma starts_with_length (n b : Buffer.t) :
  Buffer.starts_with n b = true -> (length n <= length b)%nat.
Proof.
  intro H. destruct (starts_with_inv _ _ H) as [r ->]. rewrite List.length_app. lia.
Qed.

Lemma starts_with_app_long (n b c : Buffer.t) :
  (length n <= length b)%nat ->
  Buffer.starts_with n (b ++ c) = Buffer.starts_with n b.
Proof.
  revert b. induction n as [|x n IH]; intros [|y b] H; simpl in *;
    try reflexivity; try lia.
  rewrite IH by lia. reflexivity.
Qed.

(** Searching from offset [i], a hit is at an offset [k >= i], the
    needle is found there, and it fits in the buffer. *)
Lemma indexOf_at_hit (n b : Buffer.t) (i k : Z) :
  0 <= i -> Buffer.indexOf_at n b i = k -> k <> -1 ->
  i <= k /\ (Z.to_nat (k - i) + length n <= length b)%nat /\
  Buffer.starts_with n (skipn (Z.to_nat (k - i)) b) = true.
Proof.
  revert i. induction b as [|x b IH]; intros i Hi Hk Hne; simpl in Hk.
  - destruct (Buffer.starts_with n []) eqn:E; [|congruence]. subst k.
    rewrite Z.sub_diag. simpl. split; [lia|]. split; [|exact E].
    apply starts_with_length in E. simpl in *. lia.
  - destruct (Buffer.starts_with n (x :: b)) eqn:E.
    + subst k. rewrite Z.sub_diag. simpl skipn. split; [lia|]. split; [|exact E].
      apply starts_with_length in E. simpl in *. lia.
    + destruct (IH (i + 1) ltac:(lia) Hk Hne) as (H1 & H2 & H3).
      replace (Z.to_nat (k - i)) with (S (Z.to_nat (k - (i + 1)))) by lia.
      simpl. split; [lia|]. split; [lia|exact H3].
Qed.

(** Appended bytes do not move the first hit. *)
Lemma indexOf_at_app (n b c : Buffer.t) (i k : Z) :
  0 <= i -> Buffer.indexOf_at n b i = k -> k <> -1 ->
  Buffer.indexOf_at n (b ++ c) i = k.
Proof.
  revert i. induction b as [|x b IH]; intros i Hi Hk Hne; simpl in Hk.
  - destruct (Buffer.starts_with n []) eqn:E; [|congruence]. subst k.
    destruct n; [|discriminate E]. simpl. now destruct c.
  - simpl app. cbn [Buffer.indexOf_at].
    destruct (Buffer.starts_with n (x :: b)) eqn:E.
    + change (x :: b ++ c) with ((x :: b) ++ c).
      now rewrite (starts_with_mono _ _ c E).
    + destruct (indexOf_at_hit n b (i + 1) k ltac:(lia) Hk Hne) as (_ & Hlen & _).
      change (x :: b ++ c) with ((x :: b) ++ c).
      rewrite starts_with_app_long by (simpl; lia). rewrite E.
      now apply IH; [lia| |].
Qed.

Lemma indexOf_starts_with (n b : Buffer.t) :
  Buffer.starts_with n b = true -> Buffer.indexOf b n = 0.
Proof.
  unfold Buffer.indexOf. intro H. destruct b; simpl; now rewrite H.
Qed.

Lemma subarray_from_app (b c : Buffer.t) (k : Z) :
  0 <= k <= Buffer.length b ->
  Buffer.subarray_from (b ++ c) k = Buffer.subarray_from b k ++ c.
Proof.
  intro H. rewrite !subarray_from_skipn by lia.
  rewrite skipn_app.
  replace (Z.to_nat k - length b)%nat with 0%nat
    by (unfold Buffer.length in H; lia).
  reflexivity.
Qed.

Lemma subarray_0_app (b c : Buffer.t) (n : Z) :
  0 <= n <= Buffer.length b ->
  Buffer.subarray (b ++ c) 0 n = Buffer.subarray b 0 n.
Proof.
  intro H. rewrite !subarray_0_firstn by lia.
  rewrite firstn_app.
  replace (Z.to_nat n - length b)%nat with 0%nat
    by (unfold Buffer.length in H; lia).
  simpl. now rewrite app_nil_r.
Qed.

Lemma length_skipn_Z (b : Buffer.t) (k : Z) :
  0 <= k <= Buffer.length b ->
  Buffer.length (skipn (Z.to_nat k) b) = Buffer.length b - k.
Proof.
  intro H. unfold Buffer.length in *. rewrite length_skipn. lia.
Qed.

(** *** One pass of the loop *)

Lemma framed_unfold (b : Buffer.t) :
  EclipseHCI.handleMessage_framed b =
  if Buffer.length b <? 4 then Ok (EclipseHCI.Break b)
  else
    lengthField <- Buffer.readUInt16BE b 2 ;;
    if Buffer.length b <? lengthField then Ok (EclipseHCI.Break b)
    else if negb (Buffer.equals
                    (Buffer.subarray_from (Buffer.subarray b 0 lengthField)
                       (lengthField - 2)) endBytes)
         then Ok (EclipseHCI.Continue (Buffer.subarray_from b 2))
         else Ok (EclipseHCI.Process (Buffer.subarray b 0 lengthField)
                    (Buffer.subarray_from b lengthField)).
Proof. reflexivity. Qed.

(** The body never throws: the length field is read only when four
    bytes are buffered. *)
Lemma framed_ok (b : Buffer.t) : exists it, EclipseHCI.handleMessage_framed b = Ok it.
Proof.
  rewrite framed_unfold. destruct (Buffer.length b <? 4) eqn:E; [now eexists|].
  apply Z.ltb_ge in E.
  destruct (readUInt16BE_ok b 2) as (L & -> & _); [lia|lia|]. cbn [bind].
  destruct (Buffer.length b <? L); [now eexists|].
  destruct (negb _); now eexists.
Qed.

Lemma framed_break (b b' : Buffer.t) :
  EclipseHCI.handleMessage_framed b = Ok (EclipseHCI.Break b') -> b' = b.
Proof.
  rewrite framed_unfold. destruct (Buffer.length b <? 4); [congruence|].
  destruct (Buffer.readUInt16BE b 2) as [L|]; cbn [bind]; [|discriminate].
  destruct (Buffer.length b <? L); [congruence|].
  destruct (negb _); discriminate.
Qed.

Lemma framed_continue (b x : Buffer.t) :
  EclipseHCI.handleMessage_framed b = Ok (EclipseHCI.Continue x) ->
  4 <= Buffer.length b /\ x = skipn 2 b /\
  exists L, Buffer.readUInt16BE b 2 = Ok L /\ 0 <= L <= Buffer.length b /\
            Buffer.equals (Buffer.subarray_from (Buffer.subarray b 0 L) (L - 2))
              endBytes = false.
Proof.
  rewrite framed_unfold. destruct (Buffer.length b <? 4) eqn:E4; [discriminate|].
  apply Z.ltb_ge in E4.
  destruct (readUInt16BE_ok b 2) as (L & -> & HL); [lia|lia|]. cbn [bind].
  destruct (Buffer.length b <? L) eqn:EL; [discriminate|]. apply Z.ltb_ge in EL.
  destruct (Buffer.equals _ endBytes) eqn:Ee; cbn [negb]; [discriminate|].
  intro H. injection H as <-. split; [exact E4|]. split.
  - now rewrite subarray_from_skipn by lia.
  - exists L. repeat split; try lia. exact Ee.
Qed.

Lemma subarray_nil (s e : Z) : Buffer.subarray [] s e = [].
Proof. unfold Buffer.subarray. now rewrite skipn_nil, firstn_nil. Qed.

Lemma framed_process (b m x : Buffer.t) :
  EclipseHCI.handleMessage_framed b = Ok (EclipseHCI.Process m x) ->
  exists L, Buffer.readUInt16BE b 2 = Ok L /\ 1 <= L <= Buffer.length b /\
            m = firstn (Z.to_nat L) b /\ x = skipn (Z.to_nat L) b /\
            Buffer.subarray_from m (L - 2) = endBytes.
Proof.
  rewrite framed_unfold. destruct (Buffer.length b <? 4) eqn:E4; [discriminate|].
  apply Z.ltb_ge in E4.
  destruct (readUInt16BE_ok b 2) as (L & -> & HL); [lia|lia|]. cbn [bind].
  destruct (Buffer.length b <? L) eqn:EL; [discriminate|]. apply Z.ltb_ge in EL.
  destruct (Buffer.equals _ endBytes) eqn:Ee; cbn [negb]; [|discriminate].
  intro H. injection H as <- <-. exists L.
  apply equals_eq in Ee.
  assert (HL1 : 1 <= L).
  { destruct (Z.eq_dec L 0) as [->|]; [|lia].
    rewrite subarray_0_firstn in Ee by lia. simpl in Ee.
    unfold Buffer.subarray_from in Ee. rewrite subarray_nil in Ee. discriminate Ee. }
  split; [reflexivity|]. split; [lia|]. split; [now apply subarray_0_firstn; lia|].
  split; [now apply subarray_from_skipn; lia|exact Ee].
Qed.

Lemma framed_app_continue (b c x : Buffer.t) :
  EclipseHCI.handleMessage_framed b = Ok (EclipseHCI.Continue x) ->
  EclipseHCI.handleMessage_framed (b ++ c) = Ok (EclipseHCI.Continue (x ++ c)).
Proof.
  intro H. apply framed_continue in H as (H4 & -> & L & HL & Hr & He).
  rewrite framed_unfold. rewrite length_app. pose proof (length_nonneg c) as Hc.
  replace (Buffer.length b + Buffer.length c <? 4) with false
    by (symmetry; apply Z.ltb_ge; lia).
  rewrite readUInt16BE_app_l by lia. rewrite HL. cbn [bind].
  replace (Buffer.length b + Buffer.length c <? L) with false
    by (symmetry; apply Z.ltb_ge; lia).
  rewrite subarray_0_app by lia. rewrite He. cbn [negb].
  rewrite subarray_from_app by lia. now rewrite subarray_from_skipn by lia.
Qed.

Lemma framed_app_process (b c m x : Buffer.t) :
  EclipseHCI.handleMessage_framed b = Ok (EclipseHCI.Process m x) ->
  EclipseHCI.handleMessage_framed (b ++ c) = Ok (EclipseHCI.Process m (x ++ c)).
Proof.
  intro H. pose proof H as H'.
  apply framed_process in H as (L & HL & Hr & -> & -> & He).
  assert (H4 : 4 <= Buffer.length b).
  { rewrite framed_unfold in H'. destruct (Buffer.length b <? 4) eqn:E; [discriminate|].
    now apply Z.ltb_ge in E. }
  rewrite framed_unfold. rewrite length_app. pose proof (length_nonneg c) as Hc.
  replace (Buffer.length b + Buffer.length c <? 4) with false
    by (symmetry; apply Z.ltb_ge; lia).
  rewrite readUInt16BE_app_l by lia. rewrite HL. cbn [bind].
  replace (Buffer.length b + Buffer.length c <? L) with false
    by (symmetry; apply Z.ltb_ge; lia).
  rewrite subarray_0_app by lia. rewrite subarray_0_firstn by lia.
  rewrite He, equals_refl. cbn [negb].
  rewrite subarray_from_app by lia. now rewrite subarray_from_skipn by lia.
Qed.

(** The body in terms of the offset of the first start marker. *)
Lemma body_no_marker (b : Buffer.t) :
  Buffer.indexOf b startBytes = -1 ->
  EclipseHCI.handleMessage_body b = Ok (EclipseHCI.Break b).
Proof. intro H. unfold EclipseHCI.handleMessage_body. now rewrite H. Qed.

Lemma body_marker (b : Buffer.t) (k : Z) :
  Buffer.indexOf b startBytes = k -> k <> -1 ->
  0 <= k /\ k + 2 <= Buffer.length b /\
  Buffer.starts_with startBytes (skipn (Z.to_nat k) b) = true /\
  EclipseHCI.handleMessage_body b
    = EclipseHCI.handleMessage_framed (skipn (Z.to_nat k) b).
Proof.
  intros Hk Hne. unfold Buffer.indexOf in Hk.
  destruct (indexOf_at_hit _ _ 0 k ltac:(lia) Hk Hne) as (H0 & Hlen & Hsw).
  rewrite Z.sub_0_r in *. simpl length in Hlen.
  split; [lia|]. split; [unfold Buffer.length; lia|]. split; [exact Hsw|].
  unfold EclipseHCI.handleMessage_body. unfold Buffer.indexOf. rewrite Hk.
  replace (k =? -1) with false by (symmetry; apply Z.eqb_neq; exact Hne).
  destruct (k >? 0) eqn:E.
  - now rewrite subarray_from_skipn by lia.
  - assert (Hz : k = 0) by lia. rewrite Hz. reflexivity.
Qed.

Lemma body_ok (b : Buffer.t) : exists it, EclipseHCI.handleMessage_body b = Ok it.
Proof.
  destruct (Z.eq_dec (Buffer.indexOf b startBytes) (-1)) as [E|E].
  - rewrite body_no_marker by exact E. now eexists.
  - destruct (body_marker b _ eq_refl E) as (_ & _ & _ & ->). apply framed_ok.
Qed.

(** With bytes [c] appended, the body on a buffer with a marker does
    what it does on the buffer cut at the marker, followed by [c]. *)
Lemma body_app_marker (b c : Buffer.t) (k : Z) :
  Buffer.indexOf b startBytes = k -> k <> -1 ->
  EclipseHCI.handleMessage_body (b ++ c)
    = EclipseHCI.handleMessage_framed (skipn (Z.to_nat k) b ++ c).
Proof.
  intros Hk Hne.
  destruct (body_marker b k Hk Hne) as (H0 & Hlen & _ & _).
  assert (Hk' : Buffer.indexOf (b ++ c) startBytes = k).
  { unfold Buffer.indexOf in *. apply indexOf_at_app; [lia|exact Hk|exact Hne]. }
  destruct (body_marker (b ++ c) k Hk' Hne) as (_ & _ & _ & ->).
  rewrite skipn_app.
  replace (Z.to_nat k - length b)%nat with 0%nat
    by (unfold Buffer.length in Hlen; lia).
  reflexivity.
Qed.

Lemma body_app_break (b b' c : Buffer.t) :
  EclipseHCI.handleMessage_body b = Ok (EclipseHCI.Break b') ->
  EclipseHCI.handleMessage_body (b ++ c) = EclipseHCI.handleMessage_body (b' ++ c).
Proof.
  intro H.
  destruct (Z.eq_dec (Buffer.indexOf b startBytes) (-1)) as [E|E].
  - rewrite body_no_marker in H by exact E. now injection H as <-.
  - destruct (body_marker b _ eq_refl E) as (H0 & Hlen & Hsw & Hb).
    rewrite Hb in H. apply framed_break in H. subst b'.
    rewrite (body_app_marker b c _ eq_refl E).
    set (b1 := skipn _ b) in *.
    assert (H1 : Buffer.indexOf (b1 ++ c) startBytes = 0)
      by (apply indexOf_starts_with; now apply starts_with_mono).
    destruct (body_marker (b1 ++ c) 0 H1 ltac:(lia)) as (_ & _ & _ & ->).
    reflexivity.
Qed.

Lemma body_app_continue (b x c : Buffer.t) :
  EclipseHCI.handleMessage_body b = Ok (EclipseHCI.Continue x) ->
  EclipseHCI.handleMessage_body (b ++ c) = Ok (EclipseHCI.Continue (x ++ c)).
Proof.
  intro H.
  destruct (Z.eq_dec (Buffer.indexOf b startBytes) (-1)) as [E|E].
  - rewrite body_no_marker in H by exact E. discriminate H.
  - destruct (body_marker b _ eq_refl E) as (_ & _ & _ & Hb).
    rewrite Hb in H. rewrite (body_app_marker b c _ eq_refl E).
    now apply framed_app_continue.
Qed.

Lemma body_app_process (b m x c : Buffer.t) :
  EclipseHCI.handleMessage_body b = Ok (EclipseHCI.Process m x) ->
  EclipseHCI.handleMessage_body (b ++ c) = Ok (EclipseHCI.Process m (x ++ c)).
Proof.
  intro H.
  destruct (Z.eq_dec (Buffer.indexOf b startBytes) (-1)) as [E|E].
  - rewrite body_no_marker in H by exact E. discriminate H.
  - destruct (body_marker b _ eq_refl E) as (_ & _ & _ & Hb).
    rewrite Hb in H. rewrite (body_app_marker b c _ eq_refl E).
    now apply framed_app_process.
Qed.

(** A pass that stays in the loop shortens the buffer; a pass that
    leaves it keeps a non-empty buffer non-empty. *)
Lemma body_shortens (b : Buffer.t) :
  match EclipseHCI.handleMessage_body b with
  | Ok (EclipseHCI.Continue x) | Ok (EclipseHCI.Process _ x) =>
      (length x < length b)%nat
  | Ok (EclipseHCI.Break x) => (0 < length b -> 0 < length x)%nat
  | Threw _ => False
  end.
Proof.
  destruct (Z.eq_dec (Buffer.indexOf b startBytes) (-1)) as [E|E].
  - rewrite body_no_marker by exact E. auto.
  - destruct (body_marker b _ eq_refl E) as (H0 & Hlen & Hsw & ->).
    set (k := Buffer.indexOf b startBytes) in *.
    assert (Hl : length (skipn (Z.to_nat k) b) = (length b - Z.to_nat k)%nat)
      by apply length_skipn.
    unfold Buffer.length in Hlen.
    destruct (EclipseHCI.handleMessage_framed _) as [[x|x|m x]|e] eqn:Ef.
    + apply framed_break in Ef. subst x. rewrite Hl. lia.
    + apply framed_continue in Ef as (H4 & -> & _).
      rewrite length_skipn, Hl. unfold Buffer.length in H4. rewrite Hl in H4. lia.
    + apply framed_process in Ef as (L & _ & HL & _ & -> & _).
      rewrite length_skipn, Hl. unfold Buffer.length in HL. rewrite Hl in HL. lia.
    + destruct (framed_ok (skipn (Z.to_nat k) b)) as [it Hit]. congruence.
Qed.

(** *** The loop *)

Lemma length_pos_iff (b : Buffer.t) :
  (Buffer.length b >? 0) = true <-> (0 < length b)%nat.
Proof. unfold Buffer.length. rewrite Z.gtb_ltb, Z.ltb_lt. lia. Qed.

Lemma loop_S (f : nat) (b : Buffer.t) :
  EclipseHCI.handleMessage_loop (S f) b =
  if Buffer.length b >? 0 then
    match EclipseHCI.handleMessage_body b with
    | Threw e => Some (Threw e)
    | Ok (EclipseHCI.Break x) => Some (Ok ([], x))
    | Ok (EclipseHCI.Continue x) => EclipseHCI.handleMessage_loop f x
    | Ok (EclipseHCI.Process m x) => Feed.after [m] (EclipseHCI.handleMessage_loop f x)
    end
  else Some (Ok ([], b)).
Proof.
  simpl. destruct (Buffer.length b >? 0); [|reflexivity].
  destruct (EclipseHCI.handleMessage_body b) as [[x|x|m x]|e]; try reflexivity.
  unfold Feed.after.
  destruct (EclipseHCI.handleMessage_loop f x) as [[[ms r]|]|]; reflexivity.
Qed.

(** Beyond the length of the buffer the amount of fuel is irrelevant. *)
Lemma loop_fuel (f1 : nat) :
  forall (f2 : nat) (b : Buffer.t),
    (length b < f1)%nat -> (length b < f2)%nat ->
    EclipseHCI.handleMessage_loop f1 b = EclipseHCI.handleMessage_loop f2 b.
Proof.
  induction f1 as [|f1 IH]; intros f2 b H1 H2; [lia|].
  destruct f2 as [|f2]; [lia|]. rewrite !loop_S.
  destruct (Buffer.length b >? 0); [|reflexivity].
  pose proof (body_shortens b) as Hs.
  destruct (EclipseHCI.handleMessage_body b) as [[x|x|m x]|e]; try reflexivity.
  - apply IH; lia.
  - rewrite (IH f2 x) by lia. reflexivity.
Qed.

(** The loop, unfolded once. *)
Lemma loop_unfold (b : Buffer.t) :
  EclipseHCI.handleMessage_loop (EclipseHCI.enough_fuel b) b =
  if Buffer.length b >? 0 then
    match EclipseHCI.handleMessage_body b with
    | Threw e => Some (Threw e)
    | Ok (EclipseHCI.Break x) => Some (Ok ([], x))
    | Ok (EclipseHCI.Continue x) =>
        EclipseHCI.handleMessage_loop (EclipseHCI.enough_fuel x) x
    | Ok (EclipseHCI.Process m x) =>
        Feed.after [m] (EclipseHCI.handleMessage_loop (EclipseHCI.enough_fuel x) x)
    end
  else Some (Ok ([], b)).
Proof.
  unfold EclipseHCI.enough_fuel at 1. rewrite loop_S.
  destruct (Buffer.length b >? 0); [|reflexivity].
  pose proof (body_shortens b) as Hs.
  destruct (EclipseHCI.handleMessage_body b) as [[x|x|m x]|e]; try reflexivity.
  - apply loop_fuel; unfold EclipseHCI.enough_fuel; lia.
  - f_equal. apply loop_fuel; unfold EclipseHCI.enough_fuel; lia.
Qed.

(** The loop ends, without an exception, on every buffer. *)
Lemma loop_returns (n : nat) :
  forall b : Buffer.t, (length b <= n)%nat ->
    exists ms rest,
      EclipseHCI.handleMessage_loop (EclipseHCI.enough_fuel b) b = Some (Ok (ms, rest)).
Proof.
  induction n as [|n IH]; intros b Hb; rewrite loop_unfold.
  - destruct b; [|simpl in Hb; lia]. simpl. now eexists _, _.
  - destruct (Buffer.length b >? 0) eqn:El; [|now eexists _, _].
    pose proof (body_shortens b) as Hs.
    destruct (EclipseHCI.handleMessage_body b) as [[x|x|m x]|e]; [| | |contradiction].
    + now eexists _, _.
    + apply IH. lia.
    + destruct (IH x ltac:(lia)) as (ms & rest & ->). simpl. now eexists _, _.
Qed.

Lemma after_nil (o : option (outcome (list Buffer.t * Buffer.t))) :
  Feed.after [] o = o.
Proof. now destruct o as [[[ms r]|]|]. Qed.

Lemma after_after (ms1 ms2 : list Buffer.t)
    (o : option (outcome (list Buffer.t * Buffer.t))) :
  Feed.after ms1 (Feed.after ms2 o) = Feed.after (ms1 ++ ms2) o.
Proof. destruct o as [[[ms r]|]|]; simpl; try reflexivity. now rewrite app_assoc. Qed.

(** Running the loop on [b], then on what it left followed by [c],
    hands over the same messages and leaves the same buffer as running
    it on [b ++ c]. *)
Lemma loop_app (n : nat) :
  forall (b c rest : Buffer.t) (ms : list Buffer.t),
    (length b <= n)%nat ->
    EclipseHCI.handleMessage_loop (EclipseHCI.enough_fuel b) b = Some (Ok (ms, rest)) ->
    EclipseHCI.handleMessage_loop (EclipseHCI.enough_fuel (b ++ c)) (b ++ c)
    = Feed.after ms
        (EclipseHCI.handleMessage_loop (EclipseHCI.enough_fuel (rest ++ c)) (rest ++ c)).
Proof.
  induction n as [|n IH]; intros b c rest ms Hb Hrun.
  - destruct b; [|simpl in Hb; lia]. rewrite loop_unfold in Hrun. simpl in Hrun.
    injection Hrun as <- <-. now rewrite after_nil.
  - rewrite loop_unfold in Hrun.
    destruct (Buffer.length b >? 0) eqn:El.
    2:{ injection Hrun as <- <-. now rewrite after_nil. }
    apply length_pos_iff in El.
    pose proof (body_shortens b) as Hs.
    rewrite (loop_unfold (b ++ c)).
    replace (Buffer.length (b ++ c) >? 0) with true
      by (symmetry; apply length_pos_iff; rewrite List.length_app; lia).
    destruct (EclipseHCI.handleMessage_body b) as [[x|x|m x]|e] eqn:Eb;
      [| | |contradiction].
    + injection Hrun as <- <-. rewrite after_nil.
      rewrite (body_app_break _ _ c Eb).
      rewrite (loop_unfold (x ++ c)).
      replace (Buffer.length (x ++ c) >? 0) with true
        by (symmetry; apply length_pos_iff; rewrite List.length_app;
            specialize (Hs El); lia).
      reflexivity.
    + rewrite (body_app_continue _ _ c Eb).
      apply (IH x c rest ms); [lia|exact Hrun].
    + rewrite (body_app_process _ _ _ c Eb).
      destruct (loop_returns (length x) x (le_n _)) as (ms' & rest' & Hx).
      rewrite Hx in Hrun. simpl in Hrun. injection Hrun as <- <-.
      rewrite (IH x c rest' ms' ltac:(lia) Hx).
      now rewrite after_after.
Qed.

(** [handleMessage] always returns. *)
Lemma handleMessage_returns (s : EclipseHCI.t) (data : Buffer.t) :
  exists ms rest,
    EclipseHCI.handleMessage s data = Some (Ok (EclipseHCI.with_buffer s rest, ms)).
Proof.
  unfold EclipseHCI.handleMessage.
  destruct (loop_returns _ (Buffer.concat [EclipseHCI.buffer s; data]) (le_n _))
    as (ms & rest & ->).
  now exists ms, rest.
Qed.

(** *** Frames *)

Lemma valid_frame_length (f : Buffer.t) : valid_frame f -> 4 <= Buffer.length f.
Proof.
  intros (_ & Hr & _). unfold Buffer.readUInt16BE, Buffer.byte_at in Hr. simpl in Hr.
  unfold Buffer.length.
  destruct f as [|a [|b [|c [|d f]]]]; simpl in *; try discriminate. lia.
Qed.

Lemma subarray_from_tail2 (f : Buffer.t) :
  2 <= Buffer.length f ->
  Buffer.subarray_from f (Buffer.length f - 2) = Buffer.subarray_from f (-2).
Proof.
  intro H. unfold Buffer.subarray_from, Buffer.subarray, Buffer.clamp.
  change (-2 <? 0) with true. cbv iota.
  replace (Buffer.length f - 2 <? 0) with false by (symmetry; apply Z.ltb_ge; lia).
  replace (Z.min (Buffer.length f - 2) (Buffer.length f)) with (Buffer.length f - 2) by lia.
  replace (Z.max (Buffer.length f + -2) 0) with (Buffer.length f - 2) by lia.
  reflexivity.
Qed.

(** A well-formed frame at the front of the buffer is handed over, and
    exactly its bytes are removed. *)
Lemma body_valid_frame (frame tail : Buffer.t) :
  valid_frame frame ->
  EclipseHCI.handleMessage_body (frame ++ tail) = Ok (EclipseHCI.Process frame tail).
Proof.
  intro Hv. pose proof (valid_frame_length _ Hv) as H4.
  destruct Hv as (Hsw & Hr & He).
  assert (H0 : Buffer.indexOf (frame ++ tail) startBytes = 0)
    by (apply indexOf_starts_with; now apply starts_with_mono).
  destruct (body_marker _ 0 H0 ltac:(lia)) as (_ & _ & _ & ->).
  change (skipn (Z.to_nat 0) (frame ++ tail)) with (frame ++ tail).
  rewrite framed_unfold, length_app. pose proof (length_nonneg tail) as Ht.
  replace (Buffer.length frame + Buffer.length tail <? 4) with false
    by (symmetry; apply Z.ltb_ge; lia).
  rewrite readUInt16BE_app_l by lia. rewrite Hr. cbn [bind].
  replace (Buffer.length frame + Buffer.length tail <? Buffer.length frame) with false
    by (symmetry; apply Z.ltb_ge; lia).
  rewrite subarray_0_firstn by lia.
  replace (Z.to_nat (Buffer.length frame)) with (length frame)
    by (unfold Buffer.length; lia).
  rewrite firstn_app, firstn_all, Nat.sub_diag. simpl firstn. rewrite app_nil_r.
  rewrite subarray_from_tail2 by lia. rewrite He, equals_refl. cbn [negb].
  rewrite subarray_from_skipn by lia.
  replace (Z.to_nat (Buffer.length frame)) with (length frame)
    by (unfold Buffer.length; lia).
  rewrite skipn_app, skipn_all, Nat.sub_diag. reflexivity.
Qed.

Lemma loop_valid_frame (frame tail : Buffer.t) :
  valid_frame frame ->
  EclipseHCI.handleMessage_loop (EclipseHCI.enough_fuel (frame ++ tail)) (frame ++ tail)
  = Feed.after [frame]
      (EclipseHCI.handleMessage_loop (EclipseHCI.enough_fuel tail) tail).
Proof.
  intro Hv. rewrite loop_unfold, body_valid_frame by exact Hv.
  pose proof (valid_frame_length _ Hv) as H4. pose proof (length_nonneg tail).
  replace (Buffer.length (frame ++ tail) >? 0) with true; [reflexivity|].
  symmetry. rewrite length_app. lia.
Qed.

(** A candidate with a wrong end marker costs the two bytes of its
    start marker, nothing else. *)
Lemma body_bad_end_marker (rest : Buffer.t) (L : Z) :
  Buffer.readUInt16BE (startBytes ++ rest) 2 = Ok L ->
  L <= Buffer.length (startBytes ++ rest) ->
  Buffer.subarray_from (Buffer.subarray (startBytes ++ rest) 0 L) (L - 2) <> endBytes ->
  EclipseHCI.handleMessage_body (startBytes ++ rest) = Ok (EclipseHCI.Continue rest).
Proof.
  intros Hr HL Hne.
  assert (H0 : Buffer.indexOf (startBytes ++ rest) startBytes = 0)
    by (apply indexOf_starts_with, starts_with_app).
  destruct (body_marker _ 0 H0 ltac:(lia)) as (_ & _ & _ & ->).
  change (skipn (Z.to_nat 0) (startBytes ++ rest)) with (startBytes ++ rest).
  rewrite framed_unfold.
  assert (H4 : 4 <= Buffer.length (startBytes ++ rest)).
  { unfold Buffer.readUInt16BE, Buffer.byte_at in Hr. simpl in Hr.
    unfold Buffer.length. simpl.
    destruct rest as [|c [|d rest]]; simpl in *; try discriminate. lia. }
  replace (Buffer.length (startBytes ++ rest) <? 4) with false
    by (symmetry; apply Z.ltb_ge; lia).
  rewrite Hr. cbn [bind].
  replace (Buffer.length (startBytes ++ rest) <? L) with false
    by (symmetry; apply Z.ltb_ge; lia).
  destruct (Buffer.equals _ endBytes) eqn:Ee.
  - apply equals_eq in Ee. contradiction.
  - cbn [negb]. now rewrite subarray_from_skipn by lia.
Qed.

(** *** Chunked delivery *)

Lemma with_buffer_with_buffer (s : EclipseHCI.t) (b1 b2 : Buffer.t) :
  EclipseHCI.with_buffer (EclipseHCI.with_buffer s b1) b2 = EclipseHCI.with_buffer s b2.
Proof. reflexivity. Qed.

Lemma with_buffer_same (s : EclipseHCI.t) :
  EclipseHCI.with_buffer s (EclipseHCI.buffer s) = s.
Proof. now destruct s. Qed.

(** [handleMessage] in terms of the loop. *)
Lemma handleMessage_loop_eq (s : EclipseHCI.t) (data : Buffer.t) :
  EclipseHCI.handleMessage s data =
  match EclipseHCI.handleMessage_loop
          (EclipseHCI.enough_fuel (EclipseHCI.buffer s ++ data))
          (EclipseHCI.buffer s ++ data) with
  | Some (Ok (ms, rest)) => Some (Ok (EclipseHCI.with_buffer s rest, ms))
  | Some (Threw e) => Some (Threw e)
  | None => None
  end.
Proof.
  unfold EclipseHCI.handleMessage, Buffer.concat. simpl concat.
  now rewrite app_nil_r.
Qed.

Lemma handleMessages_cons (chunks : list Buffer.t) :
  forall (s : EclipseHCI.t) (chunk : Buffer.t),
    Feed.handleMessages s (chunk :: chunks)
    = EclipseHCI.handleMessage s (chunk ++ concat chunks).
Proof.
  induction chunks as [|c2 chunks IH]; intros s chunk.
  - simpl. rewrite app_nil_r.
    destruct (EclipseHCI.handleMessage s chunk) as [[[s' ms]|]|]; try reflexivity.
    now rewrite app_nil_r.
  - change (Feed.handleMessages s (chunk :: c2 :: chunks))
      with (match EclipseHCI.handleMessage s chunk with
            | Some (Ok (s', ms)) =>
                match Feed.handleMessages s' (c2 :: chunks) with
                | Some (Ok (s'', ms')) => Some (Ok (s'', ms ++ ms'))
                | other => other
                end
            | other => other
            end).
    destruct (handleMessage_returns s chunk) as (ms & rest & Hc). rewrite Hc.
    rewrite IH. rewrite !handleMessage_loop_eq in *.
    destruct (EclipseHCI.handleMessage_loop _ (EclipseHCI.buffer s ++ chunk))
      as [[[ms0 rest0]|]|] eqn:E0; try discriminate Hc.
    injection Hc as Hs <-. subst rest0.
    cbn [concat].
    change (EclipseHCI.buffer (EclipseHCI.with_buffer s rest)) with rest.
    replace (EclipseHCI.buffer s ++ chunk ++ c2 ++ concat chunks)
      with ((EclipseHCI.buffer s ++ chunk) ++ (c2 ++ concat chunks))
      by (now rewrite <- app_assoc).
    rewrite (loop_app _ _ (c2 ++ concat chunks) _ _ (le_n _) E0).
    destruct (EclipseHCI.handleMessage_loop _ (rest ++ c2 ++ concat chunks))
      as [[[ms' rest']|]|]; reflexivity.
Qed.

(** Feeding the chunks one call after the other hands over the same
    messages, in the same order, and leaves the same instance as
    feeding their concatenation in one call. *)
Lemma handleMessage_chunks (chunks : list Buffer.t) (s : EclipseHCI.t) :
  EclipseHCI.buffer s = [] ->
  Feed.handleMessages s chunks = EclipseHCI.handleMessage s (concat chunks).
Proof.
  intro Hs. destruct chunks as [|chunk chunks].
  - simpl. rewrite handleMessage_loop_eq, Hs. simpl.
    rewrite <- Hs. now rewrite with_buffer_same.
  - apply handleMessages_cons.
Qed.

(** *** What the loop hands over *)

(** Only well-formed frames are handed to [processMessage]. *)
Lemma body_process_valid (b m x : Buffer.t) :
  EclipseHCI.handleMessage_body b = Ok (EclipseHCI.Process m x) -> valid_frame m.
Proof.
  intro H.
  destruct (Z.eq_dec (Buffer.indexOf b startBytes) (-1)) as [E|E].
  { rewrite body_no_marker in H by exact E. discriminate H. }
  destruct (body_marker b _ eq_refl E) as (_ & _ & Hsw & Hb).
  rewrite Hb in H. set (b1 := skipn _ b) in *. clearbody b1. clear Hb E b.
  apply framed_process in H as (L & Hr & HL & -> & _ & He).
  destruct (starts_with_inv _ _ Hsw) as [r ->].
  assert (H4 : 4 <= L).
  { destruct r as [|c [|d r]];
      try (unfold Buffer.readUInt16BE, Buffer.byte_at in Hr; simpl in Hr; discriminate Hr).
    destruct (Z.eq_dec L 1) as [->|]; [cbv in He; discriminate He|].
    destruct (Z.eq_dec L 2) as [->|]; [cbv in He; discriminate He|].
    destruct (Z.eq_dec L 3) as [->|]; [cbv in He; discriminate He|].
    lia. }
  set (b1 := startBytes ++ r) in *.
  assert (Hlen : Buffer.length (firstn (Z.to_nat L) b1) = L).
  { unfold Buffer.length in *. rewrite length_firstn. lia. }
  split; [|split].
  - replace (Z.to_nat L) with (2 + (Z.to_nat L - 2))%nat by lia. reflexivity.
  - rewrite Hlen. rewrite <- Hr.
    rewrite <- (firstn_skipn (Z.to_nat L) b1) at 2.
    symmetry. apply readUInt16BE_app_l. lia.
  - rewrite <- subarray_from_tail2 by lia. now rewrite Hlen.
Qed.

(** [processMessage] returns normally on every buffer that has a length
    field, hence on every frame the loop hands over. *)
Lemma processMessage_returns (m : Buffer.t) :
  4 <= Buffer.length m -> exists p, EclipseHCI.processMessage m = Ok p.
Proof.
  intro H4. unfold EclipseHCI.processMessage.
  change (Buffer.length startBytes) with 2. change (Buffer.length endBytes) with 2.
  destruct (readUInt16BE_ok m 2) as (L & -> & _); [lia|lia|]. cbn [bind].
  destruct (negb (L =? Buffer.length m)); [now eexists|].
  destruct (Buffer.length m <? 2 + 2 + 2 + 1) eqn:E7; [now eexists|].
  apply Z.ltb_ge in E7.
  destruct (readUInt16BE_ok m (2 + 2)) as (id & -> & _); [lia|lia|]. cbn [bind].
  unfold Buffer.readUInt8.
  destruct (byte_at_some m (2 + 2 + 2)) as [fb ->]; [lia|]. cbn [bind].
  destruct (Buffer.length m >=? 2 + 2 + 2 + 1 + 4) eqn:E11.
  - destruct (Buffer.equals _ EclipseHCI.expectedV2Signature).
    + destruct (Buffer.length m >=? 2 + 2 + 2 + 1 + 4 + 1) eqn:E12.
      * destruct (byte_at_some m (2 + 2 + 2 + 1 + 4)) as [pv ->]; [lia|]. cbn [bind].
        destruct (_ <=? _); now eexists.
      * cbn [bind]. destruct (_ <=? _); now eexists.
    + cbn [bind]. destruct (_ <=? _); now eexists.
  - cbn [bind]. destruct (_ <=? _); now eexists.
Qed.

Lemma handed_over_is_processed (b m x : Buffer.t) :
  EclipseHCI.handleMessage_body b = Ok (EclipseHCI.Process m x) ->
  exists p, EclipseHCI.processMessage m = Ok p.
Proof.
  intro H. apply processMessage_returns, valid_frame_length.
  now apply body_process_valid in H.
Qed.

Lemma loop_hands_over_valid (n : nat) :
  forall (b rest : Buffer.t) (ms : list Buffer.t),
    (length b <= n)%nat ->
    EclipseHCI.handleMessage_loop (EclipseHCI.enough_fuel b) b = Some (Ok (ms, rest)) ->
    Forall valid_frame ms.
Proof.
  induction n as [|n IH]; intros b rest ms Hb; rewrite loop_unfold.
  - destruct b; [|simpl in Hb; lia]. simpl. intro H. injection H as <- <-. constructor.
  - destruct (Buffer.length b >? 0); [|intro H; injection H as <- <-; constructor].
    pose proof (body_shortens b) as Hs.
    destruct (EclipseHCI.handleMessage_body b) as [[x|x|m x]|e] eqn:Eb;
      [| | |contradiction].
    + intro H. injection H as <- <-. constructor.
    + apply IH. lia.
    + destruct (EclipseHCI.handleMessage_loop _ x) as [[[ms' rest']|]|] eqn:Ex;
        try discriminate.
      simpl. intro H. injection H as <- <-. constructor.
      * now apply body_process_valid in Eb.
      * apply (IH x rest' ms'); [lia|exact Ex].
Qed.

(** [handleMessage] always returns, without an exception; every message
    it hands to [processMessage] is a well-formed frame, never a part of
    one, and [processMessage] returns normally on it. *)
Theorem handleMessage_hands_over_frames (s : EclipseHCI.t) (data : Buffer.t) :
  exists ms rest,
    EclipseHCI.handleMessage s data = Some (Ok (EclipseHCI.with_buffer s rest, ms)) /\
    Forall valid_frame ms /\
    Forall (fun m => exists p, EclipseHCI.processMessage m = Ok p) ms.
Proof.
  rewrite handleMessage_loop_eq.
  destruct (loop_returns _ (EclipseHCI.buffer s ++ data) (le_n _)) as (ms & rest & E).
  rewrite E. exists ms, rest. split; [reflexivity|].
  pose proof (loop_hands_over_valid _ _ _ _ (le_n _) E) as Hv.
  split; [exact Hv|].
  rewrite Forall_forall in *. intros m Hm.
  apply processMessage_returns, valid_frame_length, Hv, Hm.
Qed.

(** *** The claims about [handleMessage] *)

(** In [handleMessage], a candidate that starts at offset 0, is
    completely buffered and does not end in 0x2E 0x8D costs exactly the
    two bytes of its start marker, and a well-formed frame that follows
    these two bytes is handed to [processMessage] in the same call. *)
Lemma handleMessage_bad_end_marker
    (s : EclipseHCI.t) (data rest : Buffer.t) (L : Z) :
  Buffer.concat [EclipseHCI.buffer s; data] = startBytes ++ rest ->
  Buffer.readUInt16BE (startBytes ++ rest) 2 = Ok L ->
  L <= Buffer.length (startBytes ++ rest) ->
  Buffer.subarray_from (Buffer.subarray (startBytes ++ rest) 0 L) (L - 2) <> endBytes ->
  EclipseHCI.handleMessage_body (startBytes ++ rest) = Ok (EclipseHCI.Continue rest) /\
  forall frame tail : Buffer.t,
    rest = frame ++ tail -> valid_frame frame ->
    exists ms rest',
      EclipseHCI.handleMessage s data
      = Some (Ok (EclipseHCI.with_buffer s rest', frame :: ms)).
Proof.
  intros Hbuf Hr HL Hne.
  pose proof (body_bad_end_marker rest L Hr HL Hne) as Hbody.
  split; [exact Hbody|].
  intros frame tail -> Hv.
  unfold EclipseHCI.handleMessage. rewrite Hbuf.
  rewrite loop_unfold, Hbody.
  replace (Buffer.length (startBytes ++ frame ++ tail) >? 0) with true
    by (symmetry; rewrite length_app; pose proof (length_nonneg (frame ++ tail));
        change (Buffer.length startBytes) with 2; lia).
  rewrite loop_valid_frame by exact Hv.
  destruct (loop_returns _ tail (le_n _)) as (ms & rest' & ->).
  simpl. now exists ms, rest'.
Qed.

Lemma handleMessage_bad_end_marker_witness :
  EclipseHCI.handleMessage_body Scenario.strayMarkerThenFrame
    = Ok (EclipseHCI.Continue (Scenario.frame8 ++ repeat x00 (Z.to_nat 23045))) /\
  forall frame tail : Buffer.t,
    Scenario.frame8 ++ repeat x00 (Z.to_nat 23045) = frame ++ tail ->
    valid_frame frame ->
    exists ms rest',
      EclipseHCI.handleMessage (EclipseHCI.init 100) Scenario.strayMarkerThenFrame
      = Some (Ok (EclipseHCI.with_buffer (EclipseHCI.init 100) rest', frame :: ms)).
Proof.
  refine (handleMessage_bad_end_marker (EclipseHCI.init 100)
            Scenario.strayMarkerThenFrame
            (Scenario.frame8 ++ repeat x00 (Z.to_nat 23045)) 23055
            eq_refl _ _ _).
  - vm_compute. reflexivity.
  - vm_compute. discriminate.
  - vm_compute. discriminate.
Defined.

(** C1.  The [handleData] reassembler does not behave as claimed: it
    removes the whole candidate before it looks at the end marker.  On a
    six-byte candidate with a wrong end marker followed by one more byte
    it leaves that one byte ([handleMessage] leaves the five bytes after
    the start marker); on a stray start marker directly followed by a
    well-formed frame and enough bytes to complete the candidate it
    hands over nothing and empties the buffer ([handleMessage] hands
    over the frame). *)
Theorem handleData_removes_whole_candidate :
  let s0 := EclipseHCIv2.init 80 true 5000 in
  let t0 := EclipseHCI.init 100 in
  EclipseHCIv2.handleData 10 s0 Scenario.badEndThenByte
    = EclipseHCIv2.Returned (EclipseHCIv2.with_buffer s0 [x01]) [] /\
  EclipseHCI.handleMessage t0 Scenario.badEndThenByte
    = Some (Ok (EclipseHCI.with_buffer t0 [x00; x06; x00; x00; x01], [])) /\
  valid_frame Scenario.frame8 /\
  Buffer.readUInt16BE Scenario.strayMarkerThenFrame 2 = Ok 23055 /\
  Buffer.length Scenario.strayMarkerThenFrame = 23055 /\
  EclipseHCIv2.handleData 10 s0 Scenario.strayMarkerThenFrame
    = EclipseHCIv2.Returned (EclipseHCIv2.with_buffer s0 []) [] /\
  EclipseHCI.handleMessage t0 Scenario.strayMarkerThenFrame
    = Some (Ok (EclipseHCI.with_buffer t0 (repeat x00 (Z.to_nat 23045)),
                [Scenario.frame8])).
Proof.
  cbv zeta. repeat split; vm_compute; reflexivity.
Qed.

(** C4 for [handleMessage]: whatever the byte sequence and however it
    is cut into chunks, feeding the chunks one call after the other from
    an empty buffer hands over the same messages as feeding the whole
    sequence in one call. *)
Lemma handleMessage_split_invariant (s : EclipseHCI.t) (chunks : list Buffer.t) :
  EclipseHCI.buffer s = [] ->
  exists s' ms,
    EclipseHCI.handleMessage s (concat chunks) = Some (Ok (s', ms)) /\
    Feed.handleMessages s chunks = Some (Ok (s', ms)).
Proof.
  intro Hs. rewrite (handleMessage_chunks chunks s Hs).
  destruct (handleMessage_returns s (concat chunks)) as (ms & rest & ->).
  now eexists _, _.
Qed.

Lemma handleMessage_split_invariant_witness :
  exists s' ms,
    EclipseHCI.handleMessage (EclipseHCI.init 100)
      (concat [Scenario.noiseChunk; Scenario.frameChunk]) = Some (Ok (s', ms)) /\
    Feed.handleMessages (EclipseHCI.init 100)
      [Scenario.noiseChunk; Scenario.frameChunk] = Some (Ok (s', ms)).
Proof.
  exact (handleMessage_split_invariant (EclipseHCI.init 100)
           [Scenario.noiseChunk; Scenario.frameChunk] eq_refl).
Defined.

(** C4.  The [handleData] reassembler depends on where the stream is
    cut: five bytes of noise followed by a well-formed frame are handed
    over when they arrive in one chunk, and lost when the first chunk
    ends between the two bytes of the start marker, because a buffer
    without a complete marker is discarded whole.  [handleMessage] hands
    the frame over either way. *)
Theorem handleData_loses_split_marker :
  let s0 := EclipseHCIv2.init 80 true 5000 in
  let t0 := EclipseHCI.init 100 in
  Scenario.noiseChunk ++ Scenario.frameChunk
    = [x00; x00; x00; x00; x00] ++ Scenario.frame8 /\
  option_map snd
    (Feed.handleDatas 10 s0 [Scenario.noiseChunk ++ Scenario.frameChunk])
    = Some [Scenario.frame8] /\
  Feed.handleDatas 10 s0 [Scenario.noiseChunk; Scenario.frameChunk]
    = Some (s0, []) /\
  Feed.handleMessages t0 [Scenario.noiseChunk ++ Scenario.frameChunk]
    = Some (Ok (t0, [Scenario.frame8])) /\
  Feed.handleMessages t0 [Scenario.noiseChunk; Scenario.frameChunk]
    = Some (Ok (t0, [Scenario.frame8])).
Proof.
  cbv zeta. repeat split; vm_compute; reflexivity.
Qed.

(** C7, as the claim has it, fails.  The length field of the printed
    bytes is 0x000B, so the candidate is the first eleven bytes, which
    end in 0xCE 0xDE: nothing is handed over, the start marker is
    dropped, and twelve bytes stay in the buffer. *)
Lemma printed_scenario_delivers_nothing :
  EclipseHCI.handleMessage (EclipseHCI.init 100) Scenario.printed
    = Some (Ok (EclipseHCI.with_buffer (EclipseHCI.init 100)
                  [x00; x0b; x00; x0d; x08; xab; xba; xce; xde; x01; x2e; x8d],
                [])) /\
  ~ (exists s' m,
        EclipseHCI.handleMessage (EclipseHCI.init 100) Scenario.printed
          = Some (Ok (s', [m])) /\
        EclipseHCI.buffer s' = []).
Proof.
  split; [vm_compute; reflexivity|].
  intros (s' & m & H & _). vm_compute in H. discriminate H.
Qed.

(** C7, as the code has it.  With the length field holding the true
    count, 0x000E, the fourteen bytes are the frame [getRequest] builds
    for message 0x000D with an empty payload; fed to an instance with an
    empty buffer they are handed to [processMessage] as one message and
    the buffer is empty afterwards.  [processMessage] decodes message id
    0x000D, the G flag, HCIv2 and protocol version 1, finds no payload
    bytes and returns without calling [handleMessageByID].  With the
    length field 0x000B nothing is handed over and twelve bytes stay
    buffered. *)
Theorem counted_scenario_is_one_message (rateLimitMs : Z) :
  HCIRequest.getRequest (HCIRequest.new 0x000D [] false None 0) 0
    = Ok Scenario.counted /\
  EclipseHCI.handleMessage (EclipseHCI.init rateLimitMs) Scenario.counted
    = Some (Ok (EclipseHCI.init rateLimitMs, [Scenario.counted])) /\
  EclipseHCI.processMessage Scenario.counted
    = Ok (EclipseHCI.NoPayload
            {| EclipseHCI.messageID := 0x000D;
               EclipseHCI.flags :=
                 {| EclipseHCI.E := false; EclipseHCI.M := false;
                    EclipseHCI.U := false; EclipseHCI.G := true;
                    EclipseHCI.S := false; EclipseHCI.N := false;
                    EclipseHCI.Reserved1 := false; EclipseHCI.Reserved2 := false |};
               EclipseHCI.hciVersion := EclipseHCI.HCIv2;
               EclipseHCI.protocolVersion := Some 1 |}) /\
  EclipseHCI.handleMessage (EclipseHCI.init rateLimitMs) Scenario.printed
    = Some (Ok (EclipseHCI.with_buffer (EclipseHCI.init rateLimitMs)
                  [x00; x0b; x00; x0d; x08; xab; xba; xce; xde; x01; x2e; x8d],
                [])).
Proof.
  repeat split; vm_compute; reflexivity.
Qed.

End Reassembler.

(* ================================================================== *)
(** ** Sending a request, then receiving its frame *)

Section SendReceive.

Lemma subarray_app_mid (a b c : Buffer.t) :
  Buffer.subarray (a ++ b ++ c) (Buffer.length a) (Buffer.length a + Buffer.length b) = b.
Proof.
  unfold Buffer.subarray, Buffer.clamp. rewrite !length_app.
  pose proof (length_nonneg a). pose proof (length_nonneg b).
  pose proof (length_nonneg c).
  replace (Buffer.length a <? 0) with false by (symmetry; apply Z.ltb_ge; lia).
  replace (Buffer.length a + Buffer.length b <? 0) with false
    by (symmetry; apply Z.ltb_ge; lia).
  rewrite !Z.min_l by lia.
  replace (Z.to_nat (Buffer.length a)) with (length a) by (unfold Buffer.length; lia).
  replace (Z.to_nat (Buffer.length a + Buffer.length b - Buffer.length a))
    with (length b) by (unfold Buffer.length; lia).
  rewrite skipn_app, skipn_all, Nat.sub_diag. simpl.
  rewrite firstn_app, firstn_all, Nat.sub_diag. simpl. apply app_nil_r.
Qed.

(** The bytes of a frame returned by [getRequest], with the ranges the
    [write*] calls have checked. *)
Lemma getRequest_shape (r : HCIRequest.t) (flags : Z) (frame : Buffer.t) :
  HCIRequest.getRequest r flags = Ok frame ->
  exists mid total,
    mid = (if HCIRequest.Version r =? 2
           then HCIRequest.preamble ++ [Buffer.byte_of_Z (HCIRequest.ProtocolVersion r)]
           else []) /\
    total = 7 + Buffer.length mid + Buffer.length (HCIRequest.Data r) + 2 /\
    0 <= total <= 65535 /\
    0 <= HCIRequest.RequestID r <= 65535 /\
    0 <= Z.lor (ToInt32 flags) 8 <= 255 /\
    frame = [x5a; x0f; Buffer.byte_of_Z (total / 256); Buffer.byte_of_Z total;
             Buffer.byte_of_Z (HCIRequest.RequestID r / 256);
             Buffer.byte_of_Z (HCIRequest.RequestID r);
             Buffer.byte_of_Z (Z.lor (ToInt32 flags) 8)]
            ++ mid ++ HCIRequest.Data r ++ endBytes.
Proof.
  unfold HCIRequest.getRequest.
  change (Buffer.length startBytes) with 2.
  change (Buffer.length endBytes) with 2.
  change (Buffer.length HCIRequest.preamble) with 4.
  change (Buffer.length [Buffer.byte_of_Z (HCIRequest.ProtocolVersion r)]) with 1.
  set (n := Buffer.length (HCIRequest.Data r)).
  intro H.
  destruct (HCIRequest.Version r =? 2).
  - remember (2 + 2 + 2 + 1 + 4 + 1 + n + 2) as total eqn:Ht.
    destruct (Buffer.writeUInt16BE total) as [len|] eqn:E; [|discriminate H].
    destruct (Buffer.writeUInt16BE (HCIRequest.RequestID r)) as [id|] eqn:E0;
      [|discriminate H].
    destruct (Buffer.writeUInt8 (Z.lor (ToInt32 flags) 8)) as [fl|] eqn:E1;
      [|discriminate H].
    apply writeUInt16BE_inv in E as [Hlen ->].
    apply writeUInt16BE_inv in E0 as [Hid ->].
    apply writeUInt8_inv in E1 as [Hfl ->].
    cbn [bind] in H. injection H as <-.
    exists (HCIRequest.preamble ++ [Buffer.byte_of_Z (HCIRequest.ProtocolVersion r)]), total.
    split; [reflexivity|]. split.
    { rewrite length_app. change (Buffer.length HCIRequest.preamble) with 4.
      change (Buffer.length [Buffer.byte_of_Z (HCIRequest.ProtocolVersion r)]) with 1.
      fold n. lia. }
    repeat (split; [assumption|]).
    unfold startBytes. simpl. rewrite <- ?app_assoc. reflexivity.
  - remember (2 + 2 + 2 + 1 + n + 2) as total eqn:Ht.
    destruct (Buffer.writeUInt16BE total) as [len|] eqn:E; [|discriminate H].
    destruct (Buffer.writeUInt16BE (HCIRequest.RequestID r)) as [id|] eqn:E0;
      [|discriminate H].
    destruct (Buffer.writeUInt8 (Z.lor (ToInt32 flags) 8)) as [fl|] eqn:E1;
      [|discriminate H].
    apply writeUInt16BE_inv in E as [Hlen ->].
    apply writeUInt16BE_inv in E0 as [Hid ->].
    apply writeUInt8_inv in E1 as [Hfl ->].
    cbn [bind] in H. injection H as <-.
    exists [], total.
    split; [reflexivity|]. split.
    { change (Buffer.length []) with 0. fold n. lia. }
    repeat (split; [assumption|]).
    reflexivity.
Qed.


Lemma getRequest_valid_frame (r : HCIRequest.t) (flags : Z) (frame : Buffer.t) :
  HCIRequest.getRequest r flags = Ok frame -> valid_frame frame.
Proof.
  intro H.
  destruct (getRequest_shape _ _ _ H) as (mid & total & _ & Htot & Hr & Hid & Hfl & Hf).
  destruct (frame_layout
              (Buffer.byte_of_Z (total / 256)) (Buffer.byte_of_Z total)
              (Buffer.byte_of_Z (HCIRequest.RequestID r / 256))
              (Buffer.byte_of_Z (HCIRequest.RequestID r))
              (Buffer.byte_of_Z (Z.lor (ToInt32 flags) 8))
              mid (HCIRequest.Data r)) with (frame := frame) as (H1 & H2 & H3 & _).
  - rewrite u16_recompose by exact Hr. exact Htot.
  - rewrite u8_byte_of_Z, Z.mod_small by lia. apply land_lor_8.
  - exact Hf.
  - repeat split; assumption.
Qed.

Lemma loop_valid_frames (frames : list Buffer.t) :
  Forall valid_frame frames ->
  EclipseHCI.handleMessage_loop (EclipseHCI.enough_fuel (concat frames)) (concat frames)
  = Some (Ok (frames, [])).
Proof.
  induction 1 as [|f fs Hf _ IH].
  - reflexivity.
  - cbn [concat]. rewrite (loop_valid_frame f (concat fs) Hf), IH. reflexivity.
Qed.

Lemma valid_frames_are_received
    (s : EclipseHCI.t) (frames chunks : list Buffer.t) :
  Forall valid_frame frames ->
  EclipseHCI.buffer s = [] ->
  concat chunks = concat frames ->
  Feed.handleMessages s chunks = Some (Ok (s, frames)).
Proof.
  intros Hf Hb Hc.
  rewrite (handleMessage_chunks chunks s Hb), Hc, handleMessage_loop_eq, Hb.
  simpl app. rewrite (loop_valid_frames frames Hf).
  f_equal. f_equal. f_equal. rewrite <- Hb. apply with_buffer_same.
Qed.

(** Frames built by [getRequest], sent back to back and cut into chunks
    at arbitrary places, come out of [handleMessage] as exactly these
    frames, in order, one call of [processMessage] each; nothing is left
    in the buffer. *)
Theorem sent_frames_are_received
    (s : EclipseHCI.t) (frames chunks : list Buffer.t) :
  Forall (fun frame => exists r flags, HCIRequest.getRequest r flags = Ok frame) frames ->
  EclipseHCI.buffer s = [] ->
  concat chunks = concat frames ->
  Feed.handleMessages s chunks = Some (Ok (s, frames)).
Proof.
  intros Hf Hb Hc. apply valid_frames_are_received; try assumption.
  apply Forall_forall. intros f Hin.
  apply (proj1 (Forall_forall _ _) Hf) in Hin as (r & flags & Hr).
  exact (getRequest_valid_frame _ _ _ Hr).
Qed.

Lemma sent_frames_are_received_witness :
  Feed.handleMessages (EclipseHCI.init 100)
    [ [x5a; x0f; x00];
      [x10; x00; x0d; x08; xab; xba; xce; xde; x01; x00; x01; x2e; x8d; x5a];
      [x0f; x00; x0f; x00; x29; x08; xab; xba; xce; xde; x01; x03; x2e; x8d] ]
  = Some (Ok (EclipseHCI.init 100,
              [ [x5a; x0f; x00; x10; x00; x0d; x08; xab; xba; xce; xde; x01;
                 x00; x01; x2e; x8d];
                [x5a; x0f; x00; x0f; x00; x29; x08; xab; xba; xce; xde; x01;
                 x03; x2e; x8d] ])).
Proof.
  apply sent_frames_are_received; [|reflexivity|reflexivity].
  apply Forall_cons.
  - exists (HCIRequest.new 0x000D [x00; x01] false None 0), 0. reflexivity.
  - apply Forall_cons; [|apply Forall_nil].
    exists (HCIRequest.new 0x0029 [x03] true None 0), 0. reflexivity.
Defined.

Lemma processMessage_unfold (message : Buffer.t) :
  EclipseHCI.processMessage message =
  (lengthField <- Buffer.readUInt16BE message 2 ;;
   if negb (lengthField =? Buffer.length message) then Ok EclipseHCI.LengthFieldMismatch
   else if Buffer.length message <? 7 then Ok EclipseHCI.MessageTooShort
   else
     messageID <- Buffer.readUInt16BE message 4 ;;
     flagsByte <- Buffer.readUInt8 message 6 ;;
     version <-
       (if Buffer.length message >=? 11 then
          if Buffer.equals (Buffer.subarray message 7 11) EclipseHCI.expectedV2Signature
          then
            if Buffer.length message >=? 12 then
              protocolVersion <- Buffer.readUInt8 message 11 ;;
              Ok (EclipseHCI.HCIv2, Some protocolVersion, 12)
            else Ok (EclipseHCI.HCIv2, None, 11)
          else Ok (EclipseHCI.HCIv1, None, 7)
        else Ok (EclipseHCI.HCIv1, None, 7)) ;;
     let '(hciVersion, protocolVersion, payloadStart) := version in
     let h := {| EclipseHCI.messageID := messageID;
                 EclipseHCI.flags := EclipseHCI.decodeFlags flagsByte;
                 EclipseHCI.hciVersion := hciVersion;
                 EclipseHCI.protocolVersion := protocolVersion |} in
     if Buffer.length message - 2 <=? payloadStart then Ok (EclipseHCI.NoPayload h)
     else Ok (EclipseHCI.HandleMessageByID h
                (Buffer.subarray message payloadStart (Buffer.length message - 2)))).
Proof. reflexivity. Qed.

(** The header of a frame that starts with seven given bytes. *)
Lemma header_reads (l1 l0 i1 i0 f : byte) (rest : Buffer.t) :
  let frame := [x5a; x0f; l1; l0; i1; i0; f] ++ rest in
  Buffer.readUInt16BE frame 2 = Ok (Buffer.u8 l1 * 256 + Buffer.u8 l0) /\
  Buffer.readUInt16BE frame 4 = Ok (Buffer.u8 i1 * 256 + Buffer.u8 i0) /\
  Buffer.readUInt8 frame 6 = Ok (Buffer.u8 f) /\
  Buffer.length frame = 7 + Buffer.length rest.
Proof.
  cbv zeta. repeat split.
  unfold Buffer.length. simpl length. lia.
Qed.


Lemma lor8_G (x : Z) : EclipseHCI.G (EclipseHCI.decodeFlags (Z.lor x 8)) = true.
Proof.
  unfold EclipseHCI.decodeFlags. cbn [EclipseHCI.G]. now rewrite land_lor_8.
Qed.

(** A version-2 frame built by [getRequest] is decoded by
    [processMessage] into the request's id, the flags byte with G set,
    [HCIv2], the protocol version byte, and the request's payload, which
    is what is passed on to the message handler; with an empty payload
    the handler is not called. *)
Theorem received_request_is_decoded (r : HCIRequest.t) (flags : Z) (frame : Buffer.t) :
  HCIRequest.getRequest r flags = Ok frame ->
  HCIRequest.Version r = 2 ->
  let h := {| EclipseHCI.messageID := HCIRequest.RequestID r;
              EclipseHCI.flags := EclipseHCI.decodeFlags (Z.lor (ToInt32 flags) 8);
              EclipseHCI.hciVersion := EclipseHCI.HCIv2;
              EclipseHCI.protocolVersion := Some (HCIRequest.ProtocolVersion r mod 256) |} in
  EclipseHCI.G (EclipseHCI.flags h) = true /\
  EclipseHCI.processMessage frame
  = Ok (match HCIRequest.Data r with
        | [] => EclipseHCI.NoPayload h
        | _ :: _ => EclipseHCI.HandleMessageByID h (HCIRequest.Data r)
        end).
Proof.
  intros H Hv h. split; [apply lor8_G|].
  destruct (getRequest_shape _ _ _ H) as (mid & total & Hmid & Htot & Hr & Hid & Hfl & Hf).
  rewrite Hv in Hmid. change (2 =? 2) with true in Hmid. cbv iota in Hmid.
  set (data := HCIRequest.Data r) in *.
  set (p := Buffer.byte_of_Z (HCIRequest.ProtocolVersion r)) in *.
  assert (Hlm : Buffer.length mid = 5) by (rewrite Hmid; reflexivity).
  pose proof (length_nonneg data) as Hn.
  rewrite Hlm in Htot.
  destruct (header_reads (Buffer.byte_of_Z (total / 256)) (Buffer.byte_of_Z total)
              (Buffer.byte_of_Z (HCIRequest.RequestID r / 256))
              (Buffer.byte_of_Z (HCIRequest.RequestID r))
              (Buffer.byte_of_Z (Z.lor (ToInt32 flags) 8))
              (mid ++ data ++ endBytes)) as (F1 & F3 & F4 & F2).
  rewrite <- Hf in F1, F3, F4, F2.
  rewrite u16_recompose in F1 by exact Hr.
  rewrite u16_recompose in F3 by exact Hid.
  rewrite u8_byte_of_Z, Z.mod_small in F4 by lia.
  rewrite !length_app, Hlm in F2. change (Buffer.length endBytes) with 2 in F2.
  assert (Hlen : Buffer.length frame = total) by lia.
  assert (F5 : Buffer.subarray frame 7 11 = EclipseHCI.expectedV2Signature).
  { rewrite Hf, Hmid.
    exact (subarray_app_mid
             [x5a; x0f; Buffer.byte_of_Z (total / 256); Buffer.byte_of_Z total;
              Buffer.byte_of_Z (HCIRequest.RequestID r / 256);
              Buffer.byte_of_Z (HCIRequest.RequestID r);
              Buffer.byte_of_Z (Z.lor (ToInt32 flags) 8)]
             HCIRequest.preamble ([p] ++ data ++ endBytes)). }
  assert (F6 : Buffer.readUInt8 frame 11 = Ok (HCIRequest.ProtocolVersion r mod 256)).
  { rewrite Hf, Hmid. unfold Buffer.readUInt8, Buffer.byte_at. simpl.
    unfold p. now rewrite u8_byte_of_Z. }
  assert (F7 : Buffer.subarray frame 12 (total - 2) = data).
  { rewrite Hf, Hmid.
    replace (total - 2) with (12 + Buffer.length data) by lia.
    exact (subarray_app_mid
             [x5a; x0f; Buffer.byte_of_Z (total / 256); Buffer.byte_of_Z total;
              Buffer.byte_of_Z (HCIRequest.RequestID r / 256);
              Buffer.byte_of_Z (HCIRequest.RequestID r);
              Buffer.byte_of_Z (Z.lor (ToInt32 flags) 8);
              xab; xba; xce; xde; p]
             data endBytes). }
  rewrite processMessage_unfold, F1. cbn [bind].
  rewrite Hlen, Z.eqb_refl. cbn [negb].
  replace (total <? 7) with false by (symmetry; apply Z.ltb_ge; lia).
  rewrite F3, F4. cbn [bind].
  replace (total >=? 11) with true by (symmetry; apply Z.geb_le; lia).
  rewrite F5, equals_refl.
  replace (total >=? 12) with true by (symmetry; apply Z.geb_le; lia).
  rewrite F6. cbn [bind]. fold h.
  destruct data as [|d0 data'] eqn:Ed.
  - change (Buffer.length []) with 0 in Htot.
    replace (total - 2 <=? 12) with true by (symmetry; apply Z.leb_le; lia).
    reflexivity.
  - assert (1 <= Buffer.length (d0 :: data')).
    { unfold Buffer.length. simpl length. lia. }
    replace (total - 2 <=? 12) with false by (symmetry; apply Z.leb_gt; lia).
    rewrite F7. reflexivity.
Qed.

Lemma received_request_is_decoded_witness :
  EclipseHCI.processMessage
    [x5a; x0f; x00; x10; x00; x0d; x08; xab; xba; xce; xde; x01; x00; x01; x2e; x8d]
  = Ok (EclipseHCI.HandleMessageByID
          {| EclipseHCI.messageID := 0x000D;
             EclipseHCI.flags := EclipseHCI.decodeFlags 8;
             EclipseHCI.hciVersion := EclipseHCI.HCIv2;
             EclipseHCI.protocolVersion := Some 1 |}
          [x00; x01]).
Proof.
  exact (proj2 (received_request_is_decoded
                  (HCIRequest.new 0x000D [x00; x01] false None 0) 0 _ eq_refl eq_refl)).
Defined.


Lemma byte_eqb_sym (x y : byte) : Byte.eqb x y = Byte.eqb y x.
Proof.
  destruct (Byte.eqb x y) eqn:E.
  - apply Byte.byte_dec_bl in E. subst. symmetry. now apply Byte.byte_dec_lb.
  - destruct (Byte.eqb y x) eqn:E'; [|reflexivity].
    apply Byte.byte_dec_bl in E'. subst.
    rewrite (Byte.byte_dec_lb eq_refl) in E. discriminate.
Qed.

(** The four bytes [processMessage] compares with the version-2
    signature, in a frame without preamble: they are the signature only
    if the payload starts with it. *)
Lemma v1_version_bytes (hdr data : Buffer.t) :
  Buffer.length hdr = 7 ->
  2 <= Buffer.length data ->
  Buffer.starts_with EclipseHCI.expectedV2Signature data = false ->
  Buffer.equals (Buffer.subarray (hdr ++ data ++ endBytes) 7 11)
    EclipseHCI.expectedV2Signature = false.
Proof.
  intros Hh Hd Hs.
  assert (Hsub : Buffer.subarray (hdr ++ data ++ endBytes) 7 11
                 = firstn 4 (data ++ endBytes)).
  { unfold Buffer.subarray, Buffer.clamp. rewrite !length_app, Hh.
    change (Buffer.length endBytes) with 2.
    change (7 <? 0) with false. change (11 <? 0) with false. cbv iota.
    rewrite !Z.min_l by lia.
    replace (Z.to_nat 7) with (length hdr) by (unfold Buffer.length in Hh; lia).
    rewrite skipn_app, skipn_all, Nat.sub_diag. reflexivity. }
  rewrite Hsub.
  destruct data as [|d0 [|d1 [|d2 [|d3 rest]]]];
    try (unfold Buffer.length in Hd; simpl in Hd; lia).
  - simpl. destruct (Byte.eqb d0 xab), (Byte.eqb d1 xba); reflexivity.
  - simpl. destruct (Byte.eqb d0 xab), (Byte.eqb d1 xba), (Byte.eqb d2 xce); reflexivity.
  - simpl in *.
    rewrite (byte_eqb_sym xab), (byte_eqb_sym xba), (byte_eqb_sym xce),
      (byte_eqb_sym xde) in Hs.
    destruct (Byte.eqb d0 xab), (Byte.eqb d1 xba), (Byte.eqb d2 xce),
      (Byte.eqb d3 xde); try reflexivity; discriminate Hs.
Qed.

(** A frame built by [getRequest] for a request whose [Version] is not 2
    carries no preamble.  [processMessage] decodes it as [HCIv1] with the
    request's payload, unless the payload itself starts with the bytes
    AB BA CE DE: then the frame is taken for a version-2 frame, the fifth
    payload byte is reported as the protocol version and only the bytes
    after it are passed on. *)
Theorem v1_frame_is_decoded (r : HCIRequest.t) (flags : Z) (frame : Buffer.t) :
  HCIRequest.getRequest r flags = Ok frame ->
  HCIRequest.Version r <> 2 ->
  let h1 := {| EclipseHCI.messageID := HCIRequest.RequestID r;
               EclipseHCI.flags := EclipseHCI.decodeFlags (Z.lor (ToInt32 flags) 8);
               EclipseHCI.hciVersion := EclipseHCI.HCIv1;
               EclipseHCI.protocolVersion := None |} in
  (HCIRequest.Data r <> [] ->
   Buffer.starts_with EclipseHCI.expectedV2Signature (HCIRequest.Data r) = false ->
   EclipseHCI.processMessage frame
   = Ok (EclipseHCI.HandleMessageByID h1 (HCIRequest.Data r))) /\
  (forall (p : byte) (rest : Buffer.t),
      HCIRequest.Data r = EclipseHCI.expectedV2Signature ++ p :: rest ->
      rest <> [] ->
      EclipseHCI.processMessage frame
      = Ok (EclipseHCI.HandleMessageByID
              {| EclipseHCI.messageID := HCIRequest.RequestID r;
                 EclipseHCI.flags := EclipseHCI.decodeFlags (Z.lor (ToInt32 flags) 8);
                 EclipseHCI.hciVersion := EclipseHCI.HCIv2;
                 EclipseHCI.protocolVersion := Some (Buffer.u8 p) |}
              rest)).
Proof.
  intros H Hv h1.
  destruct (getRequest_shape _ _ _ H) as (mid & total & Hmid & Htot & Hr & Hid & Hfl & Hf).
  apply Z.eqb_neq in Hv. rewrite Hv in Hmid. subst mid.
  change (Buffer.length []) with 0 in Htot. cbn [app] in Hf.
  set (data := HCIRequest.Data r) in *.
  pose proof (length_nonneg data) as Hn.
  set (hdr := [x5a; x0f; Buffer.byte_of_Z (total / 256); Buffer.byte_of_Z total;
               Buffer.byte_of_Z (HCIRequest.RequestID r / 256);
               Buffer.byte_of_Z (HCIRequest.RequestID r);
               Buffer.byte_of_Z (Z.lor (ToInt32 flags) 8)]).
  assert (Hf' : frame = hdr ++ data ++ endBytes) by exact Hf.
  destruct (header_reads (Buffer.byte_of_Z (total / 256)) (Buffer.byte_of_Z total)
              (Buffer.byte_of_Z (HCIRequest.RequestID r / 256))
              (Buffer.byte_of_Z (HCIRequest.RequestID r))
              (Buffer.byte_of_Z (Z.lor (ToInt32 flags) 8))
              (data ++ endBytes)) as (F1 & F3 & F4 & F2).
  cbn [app] in F1, F3, F4, F2.
  rewrite <- Hf in F1, F3, F4, F2.
  rewrite u16_recompose in F1 by exact Hr.
  rewrite u16_recompose in F3 by exact Hid.
  rewrite u8_byte_of_Z, Z.mod_small in F4 by lia.
  rewrite !length_app in F2. change (Buffer.length endBytes) with 2 in F2.
  assert (Hlen : Buffer.length frame = total) by lia.
  assert (Common :
    EclipseHCI.processMessage frame =
    (version <-
       (if total >=? 11 then
          if Buffer.equals (Buffer.subarray frame 7 11) EclipseHCI.expectedV2Signature
          then
            if total >=? 12 then
              protocolVersion <- Buffer.readUInt8 frame 11 ;;
              Ok (EclipseHCI.HCIv2, Some protocolVersion, 12)
            else Ok (EclipseHCI.HCIv2, None, 11)
          else Ok (EclipseHCI.HCIv1, None, 7)
        else Ok (EclipseHCI.HCIv1, None, 7)) ;;
     let '(hciVersion, protocolVersion, payloadStart) := version in
     let h := {| EclipseHCI.messageID := HCIRequest.RequestID r;
                 EclipseHCI.flags := EclipseHCI.decodeFlags (Z.lor (ToInt32 flags) 8);
                 EclipseHCI.hciVersion := hciVersion;
                 EclipseHCI.protocolVersion := protocolVersion |} in
     if total - 2 <=? payloadStart then Ok (EclipseHCI.NoPayload h)
     else Ok (EclipseHCI.HandleMessageByID h
                (Buffer.subarray frame payloadStart (total - 2))))).
  { rewrite processMessage_unfold, F1. cbn [bind].
    rewrite Hlen, Z.eqb_refl. cbn [negb].
    replace (total <? 7) with false by (symmetry; apply Z.ltb_ge; lia).
    rewrite F3, F4. reflexivity. }
  rewrite Common. clear Common. split.
  - intros Hne Hs.
    assert (Hpos : 1 <= Buffer.length data).
    { destruct data; [congruence|]. unfold Buffer.length. simpl length. lia. }
    assert (F7 : Buffer.subarray frame 7 (total - 2) = data).
    { rewrite Hf'. replace (total - 2) with (Buffer.length hdr + Buffer.length data)
        by (change (Buffer.length hdr) with 7; lia).
      exact (subarray_app_mid hdr data endBytes). }
    assert (Hver :
      (if total >=? 11 then
         if Buffer.equals (Buffer.subarray frame 7 11) EclipseHCI.expectedV2Signature
         then
           if total >=? 12 then
             protocolVersion <- Buffer.readUInt8 frame 11 ;;
             Ok (EclipseHCI.HCIv2, Some protocolVersion, 12)
           else Ok (EclipseHCI.HCIv2, None, 11)
         else Ok (EclipseHCI.HCIv1, None, 7)
       else Ok (EclipseHCI.HCIv1, None, 7)) = Ok (EclipseHCI.HCIv1, None, 7)).
    { destruct (total >=? 11) eqn:E11; [|reflexivity].
      apply Z.geb_le in E11.
      rewrite Hf', (v1_version_bytes hdr data eq_refl) by (try lia; exact Hs).
      reflexivity. }
    rewrite Hver. cbn [bind].
    replace (total - 2 <=? 7) with false by (symmetry; apply Z.leb_gt; lia).
    rewrite F7. reflexivity.
  - intros p rest Hd Hrest.
    assert (Hlr : 1 <= Buffer.length rest).
    { destruct rest; [congruence|]. unfold Buffer.length. simpl length. lia. }
    assert (Hld : Buffer.length data = 5 + Buffer.length rest).
    { rewrite Hd. unfold Buffer.length. simpl length. lia. }
    assert (F5 : Buffer.subarray frame 7 11 = EclipseHCI.expectedV2Signature).
    { rewrite Hf', Hd, <- app_assoc.
      exact (subarray_app_mid hdr EclipseHCI.expectedV2Signature
               ((p :: rest) ++ endBytes)). }
    assert (F6 : Buffer.readUInt8 frame 11 = Ok (Buffer.u8 p)).
    { rewrite Hf', Hd. reflexivity. }
    assert (F7 : Buffer.subarray frame 12 (total - 2) = rest).
    { rewrite Hf', Hd.
      replace (total - 2) with (12 + Buffer.length rest) by lia.
      exact (subarray_app_mid (hdr ++ EclipseHCI.expectedV2Signature ++ [p])
               rest endBytes). }
    replace (total >=? 11) with true by (symmetry; apply Z.geb_le; lia).
    rewrite F5, equals_refl.
    replace (total >=? 12) with true by (symmetry; apply Z.geb_le; lia).
    rewrite F6. cbn [bind].
    replace (total - 2 <=? 12) with false by (symmetry; apply Z.leb_gt; lia).
    rewrite F7. reflexivity.
Qed.

Lemma v1_frame_is_decoded_witness :
  let r := HCIRequest.set_Version
             (HCIRequest.new 0x0001 [xab; xba; xce; xde; x07; x41; x42] false None 0) 1 in
  HCIRequest.getRequest r 0
    = Ok [x5a; x0f; x00; x10; x00; x01; x08; xab; xba; xce; xde; x07; x41; x42; x2e; x8d] /\
  EclipseHCI.processMessage
    [x5a; x0f; x00; x10; x00; x01; x08; xab; xba; xce; xde; x07; x41; x42; x2e; x8d]
  = Ok (EclipseHCI.HandleMessageByID
          {| EclipseHCI.messageID := 0x0001;
             EclipseHCI.flags := EclipseHCI.decodeFlags 8;
             EclipseHCI.hciVersion := EclipseHCI.HCIv2;
             EclipseHCI.protocolVersion := Some 7 |}
          [x41; x42]).
Proof.
  cbv zeta. split; [reflexivity|].
  refine (proj2 (v1_frame_is_decoded
                   (HCIRequest.set_Version
                      (HCIRequest.new 0x0001 [xab; xba; xce; xde; x07; x41; x42]
                         false None 0) 1)
                   0 _ eq_refl _) x07 [x41; x42] eq_refl _).
  - simpl. lia.
  - discriminate.
Defined.

End SendReceive.

(* ================================================================== *)
(** ** The send queue: an invariant of every run *)

Section QueueInvariant.

Lemma filter_filter_same {A : Type} (p : A -> bool) (l : list A) :
  filter p (filter p l) = filter p l.
Proof.
  induction l as [|x l IH]; simpl; [reflexivity|].
  destruct (p x) eqn:E; simpl; [rewrite E, IH|]; auto.
Qed.

Lemma filter_filter_neg {A : Type} (p q : A -> bool) (l : list A) :
  (forall x, q x = negb (p x)) ->
  filter p (filter q l) = [] /\ filter q (filter p l) = [].
Proof.
  intro Hq. induction l as [|x l [IH1 IH2]]; simpl; [auto|].
  rewrite Hq. destruct (p x) eqn:E; simpl.
  - rewrite Hq, E. simpl. auto.
  - rewrite E. auto.
Qed.

(** A list split into the elements that satisfy [p], in order, followed
    by the others, in order, is its own split. *)
Lemma partition_is_partitioned {A : Type} (p q : A -> bool) (l : list A) :
  (forall x, q x = negb (p x)) ->
  let l' := filter p l ++ filter q l in
  l' = filter p l' ++ filter q l'.
Proof.
  intros Hq l'. unfold l'. rewrite !filter_app, !filter_filter_same.
  destruct (filter_filter_neg p q l Hq) as [-> ->]. now rewrite app_nil_r.
Qed.

Lemma partitioned_tail {A : Type} (p q : A -> bool) (x : A) (l : list A) :
  (forall x, q x = negb (p x)) ->
  x :: l = filter p (x :: l) ++ filter q (x :: l) ->
  l = filter p l ++ filter q l.
Proof.
  intros Hq. simpl. rewrite Hq. destruct (p x) eqn:E; simpl; intro H.
  - now injection H.
  - destruct (filter p l) as [|u us] eqn:Eu.
    + simpl in *. now injection H.
    + exfalso. simpl in H. injection H as Hx _.
      assert (Hin : In u (filter p l)) by (rewrite Eu; now left).
      apply filter_In in Hin as [_ Hu]. congruence.
Qed.

Lemma addToQueue_keeps_partition (s : EclipseHCI.t) (r : HCIRequest.t) :
  let q := EclipseHCI.messageQueue s in
  let q' := EclipseHCI.messageQueue (EclipseHCI.addToQueue s r) in
  q = filter HCIRequest.Urgent q ++ filter normalRequest q ->
  q' = filter HCIRequest.Urgent q' ++ filter normalRequest q'.
Proof.
  intros q q' Hq. unfold q'.
  rewrite (addToQueue_sorted s q r Hq).
  apply (partition_is_partitioned HCIRequest.Urgent normalRequest). reflexivity.
Qed.

Lemma enqueue_keeps_partition (s : EclipseHCIv2.t) (r : EclipseHCIv2.Request.t) :
  let q := EclipseHCIv2.queue s in
  let q' := EclipseHCIv2.queue (EclipseHCIv2.enqueue s r) in
  q = filter EclipseHCIv2.Request.Urgent q ++ filter normalRequest2 q ->
  q' = filter EclipseHCIv2.Request.Urgent q' ++ filter normalRequest2 q'.
Proof.
  intros q q' Hq. unfold q'.
  rewrite (enqueue_sorted s q r Hq).
  apply (partition_is_partitioned EclipseHCIv2.Request.Urgent normalRequest2). reflexivity.
Qed.

Lemma step_keeps_partition (s : EclipseHCI.t) (e : Trace.event) :
  let q := EclipseHCI.messageQueue s in
  let q' := EclipseHCI.messageQueue (Trace.step s e) in
  q = filter HCIRequest.Urgent q ++ filter normalRequest q ->
  q' = filter HCIRequest.Urgent q' ++ filter normalRequest q'.
Proof.
  cbv zeta. intro Hq. destruct e; cbn [Trace.step].
  - unfold EclipseHCI.tick. destruct (EclipseHCI.queueProcessor s); [|exact Hq].
    destruct (processQueue_effect s) as [-> | (r & rest & Hs & -> & _)]; [exact Hq|].
    rewrite Hs in Hq.
    exact (partitioned_tail HCIRequest.Urgent normalRequest r rest
             (fun _ => eq_refl) Hq).
  - now apply addToQueue_keeps_partition.
  - reflexivity.
  - unfold EclipseHCI.on_data.
    destruct (EclipseHCI.handleMessage _ data) as [[[s' ms]|]|] eqn:E; try exact Hq.
    apply handleMessage_wire in E as [_ ->].
    now destruct (EclipseHCI.connected s).
  - unfold EclipseHCI.on_close.
    rewrite (proj1 (proj2 (stopQueueProcessor_stops
               (EclipseHCI.with_socket (EclipseHCI.with_connected s false) None)))).
    exact Hq.
  - unfold EclipseHCI.on_error.
    rewrite (proj1 (proj2 (stopQueueProcessor_stops
               (EclipseHCI.with_socket (EclipseHCI.with_connected s false) None)))).
    exact Hq.
  - unfold EclipseHCI.disconnect. cbn [EclipseHCI.with_connected EclipseHCI.with_socket
      EclipseHCI.messageQueue].
    rewrite (proj1 (proj2 (stopQueueProcessor_stops s))). exact Hq.
Qed.

End QueueInvariant.

(* ================================================================== *)
(** ** The reassembler of the [handleData] class *)

Section HandleData.
Import EclipseHCIv2.

Lemma with_buffer_same2 (s : EclipseHCIv2.t) :
  EclipseHCIv2.with_buffer s (EclipseHCIv2.buffer s) = s.
Proof. now destruct s. Qed.

Lemma handleData_loop_S (fuel : nat) (s : EclipseHCIv2.t) (packets : list Buffer.t) :
  handleData_loop (S fuel) s packets =
  if Buffer.length (buffer s) >=? 6 then
    if negb (Buffer.equals (Buffer.subarray (buffer s) 0 2) startBytes) then
      let idx := Buffer.indexOf (buffer s) startBytes in
      handleData_loop fuel
        (with_buffer s (if idx =? -1 then Buffer.alloc0
                        else Buffer.subarray_from (buffer s) idx)) packets
    else
      match Buffer.readUInt16BE (buffer s) 2 with
      | Threw e => Raised s packets e
      | Ok len =>
          if Buffer.length (buffer s) <? len then Returned s packets
          else
            let packet := Buffer.subarray (buffer s) 0 len in
            let s' := with_buffer s (Buffer.subarray_from (buffer s) len) in
            if negb (Buffer.equals (Buffer.subarray_from packet (-2)) endBytes) then
              handleData_loop fuel s' packets
            else
              match handlePacket s' packet with
              | Threw e => Raised s' (packets ++ [packet]) e
              | Ok s'' => handleData_loop fuel s'' (packets ++ [packet])
              end
      end
  else Returned s packets.
Proof. reflexivity. Qed.

(** A pass of the loop over a candidate whose length field is zero
    changes nothing. *)
Lemma handleData_loop_zero_length (tail : Buffer.t) (fuel : nat) :
  2 <= Buffer.length tail ->
  forall (s : EclipseHCIv2.t) (packets : list Buffer.t),
    buffer s = startBytes ++ [x00; x00] ++ tail ->
    handleData_loop fuel s packets = OutOfFuel.
Proof.
  intros Ht. induction fuel as [|fuel IH]; intros s packets Hb.
  - simpl. rewrite Hb.
    replace (Buffer.length (startBytes ++ [x00; x00] ++ tail) >=? 6) with true;
      [reflexivity|].
    symmetry. apply Z.geb_le. rewrite !length_app.
    change (Buffer.length startBytes) with 2. change (Buffer.length [x00; x00]) with 2. lia.
  - rewrite handleData_loop_S, Hb.
    replace (Buffer.length (startBytes ++ [x00; x00] ++ tail) >=? 6) with true.
    2:{ symmetry. apply Z.geb_le. rewrite !length_app.
        change (Buffer.length startBytes) with 2.
        change (Buffer.length [x00; x00]) with 2. lia. }
    assert (H2 : Buffer.subarray (startBytes ++ [x00; x00] ++ tail) 0 2 = startBytes).
    { rewrite subarray_0_firstn by lia. reflexivity. }
    rewrite H2, equals_refl. cbn [negb].
    assert (HL : Buffer.readUInt16BE (startBytes ++ [x00; x00] ++ tail) 2 = Ok 0)
      by reflexivity.
    rewrite HL.
    pose proof (length_nonneg (startBytes ++ [x00; x00] ++ tail)) as Hn.
    replace (Buffer.length (startBytes ++ [x00; x00] ++ tail) <? 0) with false
      by (symmetry; apply Z.ltb_ge; lia).
    cbv zeta.
    rewrite (subarray_0_firstn _ 0) by lia. simpl firstn.
    assert (HE : Buffer.equals (Buffer.subarray_from [] (-2)) endBytes = false)
      by reflexivity.
    rewrite HE. cbn [negb].
    rewrite (subarray_from_skipn _ 0) by lia. simpl skipn.
    apply IH. reflexivity.
Qed.

(** A candidate whose length field is zero stops [handleData] for good:
    once the buffer starts with 5A 0F 00 00 and holds at least six bytes,
    the loop is still running after any number of passes. *)
Theorem handleData_zero_length_never_returns
    (s : EclipseHCIv2.t) (data tail : Buffer.t) (fuel : nat) :
  Buffer.concat [buffer s; data] = startBytes ++ [x00; x00] ++ tail ->
  2 <= Buffer.length tail ->
  handleData fuel s data = OutOfFuel.
Proof.
  intros Hb Ht. unfold handleData.
  apply (handleData_loop_zero_length tail fuel Ht). exact Hb.
Qed.

Lemma handleData_zero_length_never_returns_witness :
  handleData 4000 (EclipseHCIv2.init 80 true 5000) [x5a; x0f; x00; x00; x2e; x8d]
  = OutOfFuel.
Proof.
  apply (handleData_zero_length_never_returns _ _ [x2e; x8d]); [reflexivity|].
  unfold Buffer.length. simpl. lia.
Defined.


Lemma with_buffer_with_buffer2 (s : EclipseHCIv2.t) (b1 b2 : Buffer.t) :
  with_buffer (with_buffer s b1) b2 = with_buffer s b2.
Proof. reflexivity. Qed.

Lemma byte_at_none (b : Buffer.t) (off : Z) :
  Buffer.length b <= off -> Buffer.byte_at b off = None.
Proof.
  intro H. unfold Buffer.byte_at. destruct (off <? 0); [reflexivity|].
  apply nth_error_None. unfold Buffer.length in H. lia.
Qed.

Lemma readUInt16BE_throws (b : Buffer.t) (off : Z) :
  Buffer.length b < off + 2 -> Buffer.readUInt16BE b off = Threw RangeError.
Proof.
  intro H. unfold Buffer.readUInt16BE.
  rewrite (byte_at_none b (off + 1)) by lia.
  now destruct (Buffer.byte_at b off).
Qed.

Lemma readUInt32BE_throws (b : Buffer.t) (off : Z) :
  Buffer.length b < off + 4 -> Buffer.readUInt32BE b off = Threw RangeError.
Proof.
  intro H. unfold Buffer.readUInt32BE.
  rewrite (byte_at_none b (off + 3)) by lia.
  destruct (Buffer.byte_at b off), (Buffer.byte_at b (off + 1)),
    (Buffer.byte_at b (off + 2)); reflexivity.
Qed.

Lemma readUInt32BE_ok (b : Buffer.t) (off : Z) :
  0 <= off -> off + 4 <= Buffer.length b ->
  exists v, Buffer.readUInt32BE b off = Ok v.
Proof.
  intros H0 H1. unfold Buffer.readUInt32BE.
  destruct (byte_at_some b off) as [b0 ->]; [lia|].
  destruct (byte_at_some b (off + 1)) as [b1 ->]; [lia|].
  destruct (byte_at_some b (off + 2)) as [b2 ->]; [lia|].
  destruct (byte_at_some b (off + 3)) as [b3 ->]; [lia|].
  eexists. reflexivity.
Qed.

(** When [handlePacket] throws: the bytes between the length field and
    the end marker are fewer than the two of the request id, or the id is
    0x8001 and fewer than four token bytes follow it. *)
Lemma handlePacket_throws_iff (s : EclipseHCIv2.t) (packet : Buffer.t) :
  let payload := Buffer.subarray packet 4 (-2) in
  (exists e, handlePacket s packet = Threw e) <->
  (Buffer.length payload < 2 \/
   (Buffer.readUInt16BE payload 0 = Ok 0x8001 /\ Buffer.length payload < 6)).
Proof.
  intro payload. unfold handlePacket. fold payload.
  destruct (Z.lt_ge_cases (Buffer.length payload) 2) as [Hs|Hl].
  - rewrite readUInt16BE_throws by lia. simpl. split; [auto|].
    intros _. now exists RangeError.
  - destruct (readUInt16BE_ok payload 0) as (reqId & -> & _); [lia|lia|].
    cbn [bind]. destruct (reqId =? 0x8001) eqn:E.
    + apply Z.eqb_eq in E. subst reqId.
      destruct (Z.lt_ge_cases (Buffer.length payload) 6) as [H6|H6].
      * rewrite readUInt32BE_throws by lia. simpl. split; [auto|].
        intros _. now exists RangeError.
      * destruct (readUInt32BE_ok payload 2) as (tok & ->); [lia|lia|].
        simpl. split; [intros [e He]; discriminate He|].
        intros [H|[_ H]]; lia.
    + apply Z.eqb_neq in E. split; [intros [e He]; discriminate He|].
      intros [H|[H _]]; [lia|]. injection H as H. contradiction.
Qed.

Lemma buildPacket_shape (id : Z) (payload packet : Buffer.t) :
  HCI.buildPacket id payload = Ok packet ->
  Buffer.length payload <= 65529 /\
  packet = startBytes ++ u16be (6 + Buffer.length payload) ++ payload ++ endBytes.
Proof.
  unfold HCI.buildPacket. intro H.
  destruct (Buffer.writeUInt16BE (4 + Buffer.length payload + 2)) as [len|] eqn:E;
    [|discriminate H].
  apply writeUInt16BE_inv in E as [Hr ->]. cbn [bind] in H. injection H as <-.
  split; [lia|]. unfold u16be.
  now replace (6 + Buffer.length payload) with (4 + Buffer.length payload + 2) by lia.
Qed.

Lemma buildPacket_ok (id : Z) (payload : Buffer.t) :
  Buffer.length payload <= 65529 ->
  HCI.buildPacket id payload
  = Ok (startBytes ++ u16be (6 + Buffer.length payload) ++ payload ++ endBytes).
Proof.
  intro H. unfold HCI.buildPacket. pose proof (length_nonneg payload).
  rewrite writeUInt16BE_ok by lia. cbn [bind]. unfold u16be.
  now replace (6 + Buffer.length payload) with (4 + Buffer.length payload + 2) by lia.
Qed.

Lemma packet_payload (L : Z) (payload : Buffer.t) :
  Buffer.subarray (startBytes ++ u16be L ++ payload ++ endBytes) 4 (-2) = payload.
Proof.
  unfold Buffer.subarray, Buffer.clamp. rewrite !length_app.
  change (Buffer.length startBytes) with 2. change (Buffer.length (u16be L)) with 2.
  change (Buffer.length endBytes) with 2.
  pose proof (length_nonneg payload) as Hn.
  change (4 <? 0) with false. change (-2 <? 0) with true. cbv iota.
  rewrite Z.min_l, Z.max_l by lia.
  replace (Z.to_nat (2 + (2 + (Buffer.length payload + 2)) + -2 - 4))
    with (length payload) by (unfold Buffer.length; lia).
  change (Z.to_nat 4) with 4%nat. simpl skipn.
  rewrite firstn_app, firstn_all, Nat.sub_diag. simpl. apply app_nil_r.
Qed.

Lemma packet_length_field (L : Z) (rest : Buffer.t) :
  0 <= L <= 65535 ->
  Buffer.readUInt16BE (startBytes ++ u16be L ++ rest) 2 = Ok L.
Proof.
  intro H. unfold u16be, Buffer.readUInt16BE, Buffer.byte_at. simpl.
  now rewrite u16_recompose by lia.
Qed.

(** One pass of the loop over a well-formed packet at the head of the
    buffer. *)
Lemma handleData_loop_packet
    (fuel : nat) (s : EclipseHCIv2.t) (packets : list Buffer.t)
    (payload tail : Buffer.t) :
  Buffer.length payload <= 65529 ->
  let packet := startBytes ++ u16be (6 + Buffer.length payload) ++ payload ++ endBytes in
  buffer s = packet ++ tail ->
  handleData_loop (S fuel) s packets =
  match handlePacket (with_buffer s tail) packet with
  | Threw e => Raised (with_buffer s tail) (packets ++ [packet]) e
  | Ok s'' => handleData_loop fuel s'' (packets ++ [packet])
  end.
Proof.
  intros Hp packet Hb. pose proof (length_nonneg payload) as Hn.
  pose proof (length_nonneg tail) as Ht.
  assert (Hlp : Buffer.length packet = 6 + Buffer.length payload).
  { unfold packet. rewrite !length_app. change (Buffer.length startBytes) with 2.
    change (Buffer.length (u16be (6 + Buffer.length payload))) with 2.
    change (Buffer.length endBytes) with 2. lia. }
  rewrite handleData_loop_S, Hb.
  replace (Buffer.length (packet ++ tail) >=? 6) with true
    by (symmetry; apply Z.geb_le; rewrite length_app; lia).
  assert (H2 : Buffer.subarray (packet ++ tail) 0 2 = startBytes).
  { rewrite subarray_0_firstn by lia. reflexivity. }
  rewrite H2, equals_refl. cbn [negb].
  assert (HL : Buffer.readUInt16BE (packet ++ tail) 2 = Ok (6 + Buffer.length payload)).
  { unfold packet. rewrite <- !app_assoc. apply packet_length_field. lia. }
  rewrite HL.
  replace (Buffer.length (packet ++ tail) <? 6 + Buffer.length payload) with false
    by (symmetry; apply Z.ltb_ge; rewrite length_app; lia).
  cbv zeta.
  assert (H0 : Buffer.subarray (packet ++ tail) 0 (6 + Buffer.length payload) = packet).
  { rewrite subarray_0_firstn by lia.
    replace (Z.to_nat (6 + Buffer.length payload)) with (length packet)
      by (unfold Buffer.length in *; lia).
    rewrite firstn_app, firstn_all, Nat.sub_diag, firstn_O. apply app_nil_r. }
  assert (H1 : Buffer.subarray_from (packet ++ tail) (6 + Buffer.length payload) = tail).
  { rewrite subarray_from_skipn by lia.
    replace (Z.to_nat (6 + Buffer.length payload)) with (length packet)
      by (unfold Buffer.length in *; lia).
    rewrite skipn_app, skipn_all, Nat.sub_diag. reflexivity. }
  rewrite H0, H1.
  assert (HE : Buffer.subarray_from packet (-2) = endBytes).
  { unfold packet. rewrite !app_assoc. apply ends_with_endBytes. }
  rewrite HE, equals_refl. cbn [negb]. reflexivity.
Qed.

Lemma handleData_loop_done (fuel : nat) (s : EclipseHCIv2.t) (packets : list Buffer.t) :
  Buffer.length (buffer s) < 6 ->
  handleData_loop fuel s packets = Returned s packets.
Proof.
  intro H.
  assert (E : (Buffer.length (buffer s) >=? 6) = false).
  { rewrite Z.geb_leb. apply Z.leb_gt. lia. }
  destruct fuel; simpl; now rewrite E.
Qed.

Lemma handlePacket_buffer (s s' : EclipseHCIv2.t) (packet : Buffer.t) :
  handlePacket s packet = Ok s' -> buffer s' = buffer s.
Proof.
  unfold handlePacket.
  destruct (Buffer.readUInt16BE _ 0) as [reqId|]; [|discriminate].
  cbn [bind]. destruct (reqId =? 0x8001).
  - destruct (Buffer.readUInt32BE _ 2) as [tok|]; [|discriminate].
    cbn [bind]. intro H. injection H as <-. reflexivity.
  - intro H. injection H as <-. reflexivity.
Qed.

Lemma handleData_one_packet
    (s : EclipseHCIv2.t) (id : Z) (payload packet : Buffer.t) (fuel : nat) :
  buffer s = [] ->
  HCI.buildPacket id payload = Ok packet ->
  handleData (S fuel) s packet
  = match handlePacket s packet with
    | Ok s' => Returned s' [packet]
    | Threw e => Raised s [packet] e
    end.
Proof.
  intros Hb Hp. apply buildPacket_shape in Hp as [Hl ->].
  unfold handleData. rewrite Hb. cbn [Buffer.concat concat app].
  rewrite app_nil_r.
  rewrite (handleData_loop_packet fuel _ [] payload [] Hl)
    by (cbn [buffer with_buffer]; now rewrite app_nil_r).
  rewrite with_buffer_with_buffer2.
  assert (Hs : with_buffer s [] = s) by (rewrite <- Hb; apply with_buffer_same2).
  rewrite Hs. cbn [app].
  destruct (handlePacket s _) as [s'|e] eqn:E; [|reflexivity].
  apply handleData_loop_done. rewrite (handlePacket_buffer _ _ _ E), Hb.
  change (Buffer.length []) with 0. lia.
Qed.

(** What [handleData] does with one well-formed packet that arrives on
    an empty buffer: the packet is taken out of the buffer and passed to
    [handlePacket]; the call returns when [handlePacket] returns, and is
    left by a RangeError when the packet holds fewer than two bytes
    between length field and end marker, or holds the id 0x8001 followed
    by fewer than four bytes. *)
Theorem well_formed_packet_outcome
    (s : EclipseHCIv2.t) (id : Z) (payload packet : Buffer.t) (fuel : nat) :
  buffer s = [] ->
  HCI.buildPacket id payload = Ok packet ->
  handleData (S fuel) s packet
  = match handlePacket s packet with
    | Ok s' => Returned s' [packet]
    | Threw e => Raised s [packet] e
    end /\
  ((exists e, handlePacket s packet = Threw e) <->
   (Buffer.length payload < 2 \/
    (Buffer.readUInt16BE payload 0 = Ok 0x8001 /\ Buffer.length payload < 6))).
Proof.
  intros Hb Hp. split; [exact (handleData_one_packet s id payload packet fuel Hb Hp)|].
  apply buildPacket_shape in Hp as [Hl ->].
  pose proof (handlePacket_throws_iff s
                  (startBytes ++ u16be (6 + Buffer.length payload) ++ payload ++ endBytes))
    as H.
  cbv zeta in H. rewrite packet_payload in H. exact H.
Qed.

Lemma well_formed_packet_outcome_witness :
  handleData 1 (EclipseHCIv2.init 80 true 5000) [x5a; x0f; x00; x07; x01; x2e; x8d]
  = Raised (EclipseHCIv2.init 80 true 5000) [[x5a; x0f; x00; x07; x01; x2e; x8d]]
      RangeError.
Proof.
  exact (proj1 (well_formed_packet_outcome (EclipseHCIv2.init 80 true 5000) 0 [x01]
                  _ 0 eq_refl eq_refl)).
Defined.


Lemma writeUInt32BE_inv (v : Z) (w : Buffer.t) :
  Buffer.writeUInt32BE v = Ok w -> 0 <= v <= 4294967295 /\ w = u32be v.
Proof.
  unfold Buffer.writeUInt32BE.
  destruct ((0 <=? v) && (v <=? 4294967295)) eqn:E; [|discriminate].
  apply andb_prop in E as [E1 E2]. apply Z.leb_le in E1, E2.
  intro H. injection H as <-. split; [lia|reflexivity].
Qed.

Lemma writeUInt32BE_ok (v : Z) :
  0 <= v <= 4294967295 -> Buffer.writeUInt32BE v = Ok (u32be v).
Proof.
  intro H. unfold Buffer.writeUInt32BE.
  replace (0 <=? v) with true by (symmetry; apply Z.leb_le; lia).
  replace (v <=? 4294967295) with true by (symmetry; apply Z.leb_le; lia).
  reflexivity.
Qed.

Lemma u32_recompose (v : Z) :
  0 <= v <= 4294967295 ->
  ((Buffer.u8 (Buffer.byte_of_Z (v / 16777216)) * 256
    + Buffer.u8 (Buffer.byte_of_Z (v / 65536))) * 256
   + Buffer.u8 (Buffer.byte_of_Z (v / 256))) * 256
  + Buffer.u8 (Buffer.byte_of_Z v) = v.
Proof.
  intro H. rewrite !u8_byte_of_Z.
  rewrite (Z.mod_small (v / 16777216))
    by (split; [apply Z.div_pos; lia | apply Z.div_lt_upper_bound; lia]).
  pose proof (Z.div_mod v 256 ltac:(lia)).
  pose proof (Z.div_mod (v / 256) 256 ltac:(lia)).
  pose proof (Z.div_mod (v / 65536) 256 ltac:(lia)).
  replace (v / 65536) with (v / 256 / 256) in *
    by (rewrite Z.div_div by lia; reflexivity).
  replace (v / 16777216) with (v / 256 / 256 / 256)
    by (rewrite !Z.div_div by lia; reflexivity).
  lia.
Qed.

Lemma v2Payload_shape (id token : Z) (data payload : Buffer.t) :
  HCI.v2Payload id data token = Ok payload ->
  0 <= id <= 65535 /\ 0 <= token <= 4294967295 /\
  payload = u16be id ++ u32be token ++ data.
Proof.
  unfold HCI.v2Payload. intro H.
  destruct (Buffer.writeUInt16BE id) as [i|] eqn:E; [|discriminate H].
  destruct (Buffer.writeUInt32BE token) as [t|] eqn:E0; [|discriminate H].
  apply writeUInt16BE_inv in E as [Hi ->]. apply writeUInt32BE_inv in E0 as [Ht ->].
  cbn [bind] in H. injection H as <-. auto.
Qed.

(** A packet built by [HCI.buildPacket] around a payload built by
    [HCI.v2Payload], received in one piece on an empty buffer, is
    recognised by [handleData]: for the id 0x8001 the instance stores the
    token and becomes [authenticated] (events ['authenticated'] and
    ['statechange']); for any other id it emits ['response'] with the
    packet and ['response:<id>'] with the payload. *)
Theorem built_packet_is_received
    (s : EclipseHCIv2.t) (id token : Z) (data payload packet : Buffer.t) (fuel : nat) :
  buffer s = [] ->
  HCI.v2Payload id data token = Ok payload ->
  HCI.buildPacket id payload = Ok packet ->
  handleData (S fuel) s packet
  = Returned
      (if id =? 0x8001
       then emit (emit (with_state (with_sessionToken s token) authenticated)
                    (ev_authenticated token))
              (ev_statechange authenticated)
       else emit (emit s (ev_response packet)) (ev_response_id id payload))
      [packet].
Proof.
  intros Hb Hv Hp.
  assert (Hhp : handlePacket s packet
                = Ok (if id =? 0x8001
                      then emit (emit (with_state (with_sessionToken s token) authenticated)
                                   (ev_authenticated token))
                             (ev_statechange authenticated)
                      else emit (emit s (ev_response packet)) (ev_response_id id payload))).
  { pose proof Hp as Hp'. apply buildPacket_shape in Hp' as [_ Hpk].
    unfold handlePacket. cbv zeta.
    replace (Buffer.subarray packet 4 (-2)) with payload
      by (rewrite Hpk; symmetry; apply packet_payload).
    apply v2Payload_shape in Hv as (Hi & Ht & Hpl).
    assert (R1 : Buffer.readUInt16BE payload 0 = Ok id).
    { rewrite Hpl. unfold u16be, Buffer.readUInt16BE, Buffer.byte_at. simpl.
      now rewrite u16_recompose by lia. }
    assert (R2 : Buffer.readUInt32BE payload 2 = Ok token).
    { rewrite Hpl. unfold u16be, u32be, Buffer.readUInt32BE, Buffer.byte_at. simpl.
      now rewrite u32_recompose by lia. }
    rewrite R1. cbn [bind]. destruct (id =? 0x8001).
    - rewrite R2. reflexivity.
    - reflexivity. }
  rewrite (handleData_one_packet s id payload packet fuel Hb Hp), Hhp.
  reflexivity.
Qed.


Lemma built_packet_is_received_witness :
  handleData 1 (EclipseHCIv2.init 80 true 5000)
    [x5a; x0f; x00; x0c; x80; x01; xde; xad; xbe; xef; x2e; x8d]
  = Returned
      (emit (emit (with_state (with_sessionToken (EclipseHCIv2.init 80 true 5000)
                                 0xDEADBEEF) authenticated)
               (ev_authenticated 0xDEADBEEF))
         (ev_statechange authenticated))
      [[x5a; x0f; x00; x0c; x80; x01; xde; xad; xbe; xef; x2e; x8d]].
Proof.
  exact (built_packet_is_received (EclipseHCIv2.init 80 true 5000) 0x8001 0xDEADBEEF
           [] _ _ 0 eq_refl eq_refl eq_refl).
Defined.

End HandleData.

(* ================================================================== *)
(** ** The dispatcher of the [handleData] class *)

Section Drain.
Import EclipseHCIv2.

Lemma enqueue_empty (s : EclipseHCIv2.t) (req : Request.t) :
  queue s = [] -> queue (enqueue s req) = [req].
Proof.
  intro H. unfold enqueue. rewrite H. now destruct (Request.Urgent req).
Qed.

Lemma enqueue_fields (s : EclipseHCIv2.t) (req : Request.t) :
  socket (enqueue s req) = socket s /\ timer (enqueue s req) = timer s /\
  processing (enqueue s req) = processing s /\ wire (enqueue s req) = wire s.
Proof.
  unfold enqueue. destruct (Request.Urgent req); [|now repeat split].
  destruct (findIndex _ _ _); now repeat split.
Qed.

(** A command sent with [sendCommand] reaches the socket wrapped twice:
    [sendCommand] frames the payload with [HCI.buildPacket] and queues
    the packet as the data of a request with id 0, and [drain] writes
    that request's [getRequest()], which frames its data again.  The
    bytes written are: start marker, outer length, start marker, inner
    length, command id, session token, data, end marker, end marker. *)
Theorem sendCommand_is_framed_twice
    (s : EclipseHCIv2.t) (id : Z) (data : Buffer.t) (urgent : bool)
    (sock : nat) (period : Z) :
  socket s = Some sock -> timer s = Some period -> processing s = false ->
  queue s = [] ->
  0 <= id <= 65535 -> 0 <= sessionToken s <= 4294967295 ->
  Buffer.length data <= 65517 ->
  exists s1,
    sendCommand s id data urgent = Ok s1 /\
    queue (tick s1) = [] /\
    wire (tick s1)
    = wire s ++
      [startBytes ++ u16be (18 + Buffer.length data) ++
         (startBytes ++ u16be (12 + Buffer.length data) ++
            (u16be id ++ u32be (sessionToken s) ++ data) ++ endBytes) ++
         endBytes].
Proof.
  intros Hso Ht Hp Hq Hid Htok Hlen. pose proof (length_nonneg data) as Hn.
  set (payload := u16be id ++ u32be (sessionToken s) ++ data).
  assert (Hlp : Buffer.length payload = 6 + Buffer.length data).
  { unfold payload. rewrite !length_app.
    change (Buffer.length (u16be id)) with 2.
    change (Buffer.length (u32be (sessionToken s))) with 4. lia. }
  set (packet := startBytes ++ u16be (12 + Buffer.length data) ++ payload ++ endBytes).
  assert (Hlk : Buffer.length packet = 12 + Buffer.length data).
  { unfold packet. rewrite !length_app, Hlp.
    change (Buffer.length startBytes) with 2. change (Buffer.length endBytes) with 2.
    change (Buffer.length (u16be (12 + Buffer.length data))) with 2. lia. }
  set (req := {| Request.RequestID := 0; Request.Data := packet;
                 Request.Urgent := urgent; Request.ResponseID := None |}).
  exists (enqueue s req).
  assert (Hsc : sendCommand s id data urgent = Ok (enqueue s req)).
  { unfold sendCommand, HCI.v2Payload.
    rewrite writeUInt16BE_ok, writeUInt32BE_ok by lia. cbn [bind].
    fold (u16be id). fold payload.
    rewrite buildPacket_ok by lia. cbn [bind]. rewrite Hlp.
    replace (6 + (6 + Buffer.length data)) with (12 + Buffer.length data) by lia.
    reflexivity. }
  split; [exact Hsc|].
  destruct (enqueue_fields s req) as (Es & Et & Ep & Ew).
  pose proof (enqueue_empty s req Hq) as Eq.
  unfold tick. rewrite Et, Ht. unfold drain. rewrite Ep, Hp, Es, Hso.
  cbn [queue with_processing]. rewrite Eq. cbn [length Z.of_nat Z.eqb].
  change (Z.pos (Pos.of_succ_nat 0) =? 0) with false. cbv iota.
  unfold Request.getRequest. cbn [Request.Data Request.RequestID req].
  rewrite buildPacket_ok by lia. rewrite Hlk.
  replace (6 + (12 + Buffer.length data)) with (18 + Buffer.length data) by lia.
  cbn. rewrite Ew. split; reflexivity.
Qed.

Lemma sendCommand_is_framed_twice_witness :
  let s := with_sessionToken
             (startQueue (with_socket (EclipseHCIv2.init 80 true 5000) (Some 3%nat)))
             0x01020304 in
  exists s1,
    sendCommand s 0x0011 [xaa] false = Ok s1 /\
    queue (tick s1) = [] /\
    wire (tick s1)
    = [[x5a; x0f; x00; x13;
        x5a; x0f; x00; x0d; x00; x11; x01; x02; x03; x04; xaa; x2e; x8d;
        x2e; x8d]].
Proof.
  cbv zeta.
  assert (H := sendCommand_is_framed_twice
                 (with_sessionToken
                    (startQueue (with_socket (EclipseHCIv2.init 80 true 5000) (Some 3%nat)))
                    0x01020304)
                 0x0011 [xaa] false 3%nat 80 eq_refl eq_refl eq_refl eq_refl).
  assert (H1 : 0 <= 0x0011 <= 65535) by lia.
  assert (H2 : 0 <= 0x01020304 <= 4294967295) by lia.
  assert (H3 : Buffer.length [xaa] <= 65517) by (unfold Buffer.length; simpl; lia).
  exact (H H1 H2 H3).
Defined.


Lemma buildPacket_throws (id : Z) (payload : Buffer.t) :
  65529 < Buffer.length payload ->
  HCI.buildPacket id payload = Threw RangeError.
Proof.
  intro H. unfold HCI.buildPacket, Buffer.writeUInt16BE.
  replace (4 + Buffer.length payload + 2 <=? 65535) with false
    by (symmetry; apply Z.leb_gt; lia).
  now rewrite andb_false_r.
Qed.

Lemma handlePacket_keeps (s s' : EclipseHCIv2.t) (packet : Buffer.t) :
  handlePacket s packet = Ok s' ->
  processing s' = processing s /\ wire s' = wire s.
Proof.
  unfold handlePacket.
  destruct (Buffer.readUInt16BE _ 0) as [reqId|]; [|discriminate].
  cbn [bind]. destruct (reqId =? 0x8001).
  - destruct (Buffer.readUInt32BE _ 2) as [tok|]; [|discriminate].
    cbn [bind]. intro H. injection H as <-. now split.
  - intro H. injection H as <-. now split.
Qed.

Lemma handleData_loop_keeps (fuel : nat) :
  forall (s : EclipseHCIv2.t) (packets : list Buffer.t),
    match handleData_loop fuel s packets with
    | Returned s' _ | Raised s' _ _ =>
        processing s' = processing s /\ wire s' = wire s
    | OutOfFuel => True
    end.
Proof.
  induction fuel as [|fuel IH]; intros s packets.
  - simpl. destruct (Buffer.length (buffer s) >=? 6); [exact I|now split].
  - rewrite handleData_loop_S.
    destruct (Buffer.length (buffer s) >=? 6); [|now split].
    destruct (negb (Buffer.equals (Buffer.subarray (buffer s) 0 2) startBytes)).
    + cbv zeta. exact (IH (with_buffer s _) packets).
    + destruct (Buffer.readUInt16BE (buffer s) 2) as [len|e]; [|now split].
      destruct (Buffer.length (buffer s) <? len); [now split|].
      cbv zeta.
      destruct (negb (Buffer.equals (Buffer.subarray_from _ (-2)) endBytes)).
      * exact (IH (with_buffer s _) packets).
      * destruct (handlePacket _ _) as [s''|e] eqn:E; [|now split].
        apply handlePacket_keeps in E as [E1 E2].
        specialize (IH s'' (packets ++ [Buffer.subarray (buffer s) 0 len])).
        destruct (handleData_loop fuel s'' _); try exact I;
          rewrite (proj1 IH), (proj2 IH), E1, E2; now split.
Qed.

(** With the in-flight guard set, no event changes the guard or writes
    anything. *)
Lemma step_while_processing (s : EclipseHCIv2.t) (e : EclipseHCIv2Session.event) :
  processing s = true ->
  processing (EclipseHCIv2Session.step s e) = true /\
  wire (EclipseHCIv2Session.step s e) = wire s.
Proof.
  intro Hp. destruct e; cbn [EclipseHCIv2Session.step].
  - unfold tick. destruct (timer s); [|now split].
    rewrite (drain_idle s) by now left. now split.
  - unfold sendCommand.
    destruct (HCI.v2Payload id data (sessionToken s)) as [payload|]; [|now split].
    cbn [bind]. destruct (HCI.buildPacket id payload) as [packet|]; [|now split].
    cbn [bind]. unfold sendRaw.
    destruct (enqueue_fields s {| Request.RequestID := 0; Request.Data := packet;
                                  Request.Urgent := urgent;
                                  Request.ResponseID := None |})
      as (_ & _ & -> & ->). now split.
  - unfold handleData.
    pose proof (handleData_loop_keeps fuel
                  (with_buffer s (Buffer.concat [buffer s; data])) []) as H.
    cbn [processing wire with_buffer] in H. rewrite Hp in H.
    destruct (handleData_loop fuel _ []); [exact H|exact H|now split].
  - unfold EclipseHCIv2Session.on_connect, EclipseHCIv2Session.sendLoginV2.
    destruct (Buffer.writeUInt16BE 1) as [tag|]; [|now split].
    cbn [bind]. destruct (Buffer.writeUInt8 (Buffer.length user)) as [ul|]; [|now split].
    cbn [bind]. destruct (Buffer.writeUInt8 (Buffer.length pass)) as [pl|]; [|now split].
    cbn [bind]. destruct (Buffer.writeUInt16BE 2) as [ver|]; [|now split].
    cbn [bind]. destruct (HCI.buildPacket 1 _) as [packet|]; [|now split].
    cbn [bind]. unfold sendRaw.
    match goal with |- context [enqueue ?s0 ?r] =>
      destruct (enqueue_fields s0 r) as (_ & _ & -> & ->) end.
    now split.
  - unfold handleClose. cbn.
    destruct (opts_reconnect s); [|now split].
    destruct (reconnectTimer s); now split.
  - now split.
  - unfold EclipseHCIv2Session.reconnect_fires, EclipseHCIv2Session.connect. cbn.
    destruct (state s); now split.
  - now split.
Qed.

Lemma run_while_processing (es : list EclipseHCIv2Session.event) :
  forall s : EclipseHCIv2.t,
    processing s = true ->
    processing (EclipseHCIv2Session.run s es) = true /\
    wire (EclipseHCIv2Session.run s es) = wire s.
Proof.
  unfold EclipseHCIv2Session.run.
  induction es as [|e es IH]; intros s Hp; simpl; [now split|].
  destruct (step_while_processing s e Hp) as [H1 H2].
  destruct (IH _ H1) as [H3 H4]. split; [exact H3|]. now rewrite H4.
Qed.

(** A request whose data is too long to be framed (more than 65529
    bytes, so that the length field would exceed 16 bits) blocks the
    dispatcher for good: the tick that takes it from the queue writes
    nothing and leaves the in-flight guard set, and after that no
    sequence of events (ticks, commands, incoming data, reconnects,
    close, error) ever writes to the socket again. *)
Theorem oversize_request_blocks_dispatcher
    (s : EclipseHCIv2.t) (req : Request.t) (rest : list Request.t)
    (sock : nat) (period : Z) (es : list EclipseHCIv2Session.event) :
  socket s = Some sock -> timer s = Some period -> processing s = false ->
  queue s = req :: rest ->
  65529 < Buffer.length (Request.Data req) ->
  queue (tick s) = rest /\
  wire (tick s) = wire s /\
  processing (EclipseHCIv2Session.run (tick s) es) = true /\
  wire (EclipseHCIv2Session.run (tick s) es) = wire s.
Proof.
  intros Hso Ht Hp Hq Hlen.
  assert (Htick : tick s = with_queue (with_processing s true) rest).
  { unfold tick. rewrite Ht. unfold drain. rewrite Hp, Hso, Hq.
    cbn [length Z.of_nat]. change (Z.pos (Pos.of_succ_nat (length rest)) =? 0) with false.
    cbv iota. cbn [queue with_processing]. rewrite Hq.
    unfold Request.getRequest. now rewrite buildPacket_throws. }
  rewrite Htick. split; [reflexivity|]. split; [reflexivity|].
  exact (run_while_processing es (with_queue (with_processing s true) rest) eq_refl).
Qed.

Lemma oversize_request_blocks_dispatcher_witness :
  let big := {| Request.RequestID := 0; Request.Data := repeat x00 (Z.to_nat 65530);
                Request.Urgent := false; Request.ResponseID := None |} in
  let small := {| Request.RequestID := 0; Request.Data := [x01];
                  Request.Urgent := false; Request.ResponseID := None |} in
  let s := with_queue
             (startQueue (with_socket (EclipseHCIv2.init 80 true 5000) (Some 3%nat)))
             [big; small] in
  let es := [EclipseHCIv2Session.Tick;
             EclipseHCIv2Session.SendCommand 0x0011 [xaa] true;
             EclipseHCIv2Session.Tick; EclipseHCIv2Session.Tick] in
  queue (tick s) = [small] /\
  wire (tick s) = [] /\
  processing (EclipseHCIv2Session.run (tick s) es) = true /\
  wire (EclipseHCIv2Session.run (tick s) es) = [].
Proof.
  cbv zeta.
  assert (H : 65529 < Buffer.length (repeat x00 (Z.to_nat 65530))).
  { unfold Buffer.length. rewrite repeat_length. lia. }
  exact (oversize_request_blocks_dispatcher
           (with_queue
              (startQueue (with_socket (EclipseHCIv2.init 80 true 5000) (Some 3%nat)))
              [ {| Request.RequestID := 0; Request.Data := repeat x00 (Z.to_nat 65530);
                   Request.Urgent := false; Request.ResponseID := None |};
                {| Request.RequestID := 0; Request.Data := [x01];
                   Request.Urgent := false; Request.ResponseID := None |} ])
           _ _ 3%nat 80
           [EclipseHCIv2Session.Tick;
            EclipseHCIv2Session.SendCommand 0x0011 [xaa] true;
            EclipseHCIv2Session.Tick; EclipseHCIv2Session.Tick]
           eq_refl eq_refl eq_refl eq_refl H).
Defined.

End Drain.

(* ================================================================== *)
(** ** The queue stays partitioned *)

Section QueuePartition.
Import EclipseHCIv2.

Lemma handlePacket_keeps_queue (s s' : EclipseHCIv2.t) (packet : Buffer.t) :
  handlePacket s packet = Ok s' -> queue s' = queue s.
Proof.
  unfold handlePacket.
  destruct (Buffer.readUInt16BE _ 0) as [reqId|]; [|discriminate].
  cbn [bind]. destruct (reqId =? 0x8001).
  - destruct (Buffer.readUInt32BE _ 2) as [tok|]; [|discriminate].
    cbn [bind]. intro H. now injection H as <-.
  - intro H. now injection H as <-.
Qed.

Lemma handleData_loop_keeps_queue (fuel : nat) :
  forall (s : EclipseHCIv2.t) (packets : list Buffer.t),
    match handleData_loop fuel s packets with
    | Returned s' _ | Raised s' _ _ => queue s' = queue s
    | OutOfFuel => True
    end.
Proof.
  induction fuel as [|fuel IH]; intros s packets.
  - simpl. destruct (Buffer.length (buffer s) >=? 6); [exact I|reflexivity].
  - rewrite handleData_loop_S.
    destruct (Buffer.length (buffer s) >=? 6); [|reflexivity].
    destruct (negb (Buffer.equals (Buffer.subarray (buffer s) 0 2) startBytes)).
    + cbv zeta. exact (IH (with_buffer s _) packets).
    + destruct (Buffer.readUInt16BE (buffer s) 2) as [len|e]; [|reflexivity].
      destruct (Buffer.length (buffer s) <? len); [reflexivity|].
      cbv zeta.
      destruct (negb (Buffer.equals (Buffer.subarray_from _ (-2)) endBytes)).
      * exact (IH (with_buffer s _) packets).
      * destruct (handlePacket _ _) as [s''|e] eqn:E; [|reflexivity].
        apply handlePacket_keeps_queue in E.
        specialize (IH s'' (packets ++ [Buffer.subarray (buffer s) 0 len])).
        destruct (handleData_loop fuel s'' _); try exact I;
          rewrite IH, E; reflexivity.
Qed.

Lemma session_step_keeps_partition (s : EclipseHCIv2.t) (e : EclipseHCIv2Session.event) :
  let q := queue s in
  let q' := queue (EclipseHCIv2Session.step s e) in
  q = filter Request.Urgent q ++ filter normalRequest2 q ->
  q' = filter Request.Urgent q' ++ filter normalRequest2 q'.
Proof.
  cbv zeta. intro Hq. destruct e; cbn [EclipseHCIv2Session.step].
  - unfold tick. destruct (timer s); [|exact Hq].
    destruct (drain_effect s) as [-> | (r & rest & Hs & -> & _)]; [exact Hq|].
    rewrite Hs in Hq.
    exact (partitioned_tail Request.Urgent normalRequest2 r rest (fun _ => eq_refl) Hq).
  - unfold sendCommand.
    destruct (HCI.v2Payload id data (sessionToken s)) as [payload|]; [|exact Hq].
    cbn [bind]. destruct (HCI.buildPacket id payload) as [packet|]; [|exact Hq].
    cbn [bind]. unfold sendRaw. now apply enqueue_keeps_partition.
  - unfold handleData.
    pose proof (handleData_loop_keeps_queue fuel
                  (with_buffer s (Buffer.concat [buffer s; data])) []) as H.
    cbn [queue with_buffer] in H.
    destruct (handleData_loop fuel _ []); [rewrite H; exact Hq|rewrite H; exact Hq|exact Hq].
  - unfold EclipseHCIv2Session.on_connect. cbv zeta.
    match goal with |- context [EclipseHCIv2Session.sendLoginV2 ?s0 _ _] =>
      set (s1 := s0) end.
    assert (H1 : queue s1 = queue s) by reflexivity.
    unfold EclipseHCIv2Session.sendLoginV2.
    destruct (Buffer.writeUInt16BE 1) as [tag|]; [|cbn [bind]; rewrite H1; exact Hq].
    cbn [bind].
    destruct (Buffer.writeUInt8 (Buffer.length user)) as [ul|];
      [|cbn [bind]; rewrite H1; exact Hq].
    cbn [bind].
    destruct (Buffer.writeUInt8 (Buffer.length pass)) as [pl|];
      [|cbn [bind]; rewrite H1; exact Hq].
    cbn [bind].
    destruct (Buffer.writeUInt16BE 2) as [ver|]; [|cbn [bind]; rewrite H1; exact Hq].
    cbn [bind]. cbv zeta.
    destruct (HCI.buildPacket 1 _) as [packet|]; [|cbn [bind]; rewrite H1; exact Hq].
    cbn [bind]. unfold sendRaw.
    apply enqueue_keeps_partition. rewrite H1. exact Hq.
  - unfold handleClose. simpl.
    destruct (opts_reconnect s); [|exact Hq].
    now destruct (reconnectTimer s).
  - exact Hq.
  - unfold EclipseHCIv2Session.reconnect_fires, EclipseHCIv2Session.connect.
    cbn [state with_reconnectTimer].
    destruct (state s); exact Hq.
  - exact Hq.
Qed.

(** Whatever happens to an instance after its construction, its queue
    always consists of its urgent requests followed by its normal
    requests: no urgent request ever waits behind a normal one.  This
    holds for the [handleMessage] class (requests enqueued, timer ticks,
    incoming data, close, error, disconnect, [clearQueue]) and for the
    [handleData] class (commands sent, timer ticks, incoming data,
    connect with its login, close, error, reconnect, disconnect). *)
Theorem queue_is_always_urgent_first :
  (forall (rateLimitMs : Z) (es : list Trace.event),
      let q := EclipseHCI.messageQueue (Trace.run (EclipseHCI.init rateLimitMs) es) in
      q = filter HCIRequest.Urgent q ++ filter normalRequest q) /\
  (forall (rateLimitMs : Z) (reconnect : bool) (reconnectDelayMs : Z)
          (es : list EclipseHCIv2Session.event),
      let q := queue (EclipseHCIv2Session.run
                        (EclipseHCIv2.init rateLimitMs reconnect reconnectDelayMs) es) in
      q = filter Request.Urgent q ++ filter normalRequest2 q).
Proof.
  split.
  - intros rl es. cbv zeta. unfold Trace.run.
    assert (H0 : EclipseHCI.messageQueue (EclipseHCI.init rl)
                 = filter HCIRequest.Urgent (EclipseHCI.messageQueue (EclipseHCI.init rl))
                   ++ filter normalRequest (EclipseHCI.messageQueue (EclipseHCI.init rl)))
      by reflexivity.
    revert H0. generalize (EclipseHCI.init rl) as s.
    induction es as [|e es IH]; intros s Hs; simpl; [exact Hs|].
    apply IH. now apply step_keeps_partition.
  - intros rl rc rd es. cbv zeta. unfold EclipseHCIv2Session.run.
    assert (H0 : queue (EclipseHCIv2.init rl rc rd)
                 = filter Request.Urgent (queue (EclipseHCIv2.init rl rc rd))
                   ++ filter normalRequest2 (queue (EclipseHCIv2.init rl rc rd)))
      by reflexivity.
    revert H0. generalize (EclipseHCIv2.init rl rc rd) as s.
    induction es as [|e es IH]; intros s Hs; simpl; [exact Hs|].
    apply IH. now apply session_step_keeps_partition.
Qed.

End QueuePartition.

(* ================================================================== *)
(** ** From the queue of one instance to the handler of another *)

Section Loopback.

(** An instance whose dispatcher can write: connected, with a socket,
    a running timer and no dispatch in flight. *)
Lemma framed_tick_sends (s : EclipseHCI.t) (r : HCIRequest.t) (rest : list HCIRequest.t)
    (frame : Buffer.t) :
  EclipseHCI.connected s = true -> EclipseHCI.socket s <> None ->
  EclipseHCI.queueProcessor s <> None -> EclipseHCI.isProcessingQueue s = false ->
  EclipseHCI.messageQueue s = r :: rest ->
  HCIRequest.getRequest r 0 = Ok frame ->
  EclipseHCIFramed.tick s
  = EclipseHCI.with_wire (EclipseHCI.with_messageQueue s rest)
      (EclipseHCI.wire s ++ [frame]).
Proof.
  destruct s as [c so b q t rl p w]. simpl. intros -> Hso Ht -> -> Hf.
  destruct so as [sock|]; [|congruence]. destruct t as [period|]; [|congruence].
  unfold EclipseHCIFramed.tick, EclipseHCIFramed.processQueue,
    EclipseHCIFramed.sendHCIRequest. simpl. now rewrite Hf.
Qed.

Lemma framed_ticks_send_all (q : list HCIRequest.t) :
  forall (s : EclipseHCI.t) (frames : list Buffer.t),
    EclipseHCI.connected s = true -> EclipseHCI.socket s <> None ->
    EclipseHCI.queueProcessor s <> None -> EclipseHCI.isProcessingQueue s = false ->
    EclipseHCI.messageQueue s = q ->
    Forall2 (fun r frame => HCIRequest.getRequest r 0 = Ok frame) q frames ->
    EclipseHCIFramed.ticks (length q) s
    = EclipseHCI.with_wire (EclipseHCI.with_messageQueue s [])
        (EclipseHCI.wire s ++ frames).
Proof.
  induction q as [|r q IH]; intros s frames Hc Hso Ht Hp Hq HF.
  - inversion HF. subst. simpl. rewrite app_nil_r.
    destruct s. simpl in *. now subst.
  - inversion HF as [|r' f q' fs Hf HF']. subst. simpl.
    rewrite (framed_tick_sends s r q f Hc Hso Ht Hp Hq Hf).
    rewrite (IH _ fs); try assumption; try reflexivity.
    simpl. now rewrite <- app_assoc.
Qed.

Lemma addToQueue_all_fields (rs : list HCIRequest.t) :
  forall s : EclipseHCI.t,
    let s1 := fold_left EclipseHCI.addToQueue rs s in
    EclipseHCI.connected s1 = EclipseHCI.connected s /\
    EclipseHCI.socket s1 = EclipseHCI.socket s /\
    EclipseHCI.queueProcessor s1 = EclipseHCI.queueProcessor s /\
    EclipseHCI.isProcessingQueue s1 = EclipseHCI.isProcessingQueue s /\
    EclipseHCI.wire s1 = EclipseHCI.wire s.
Proof.
  induction rs as [|r rs IH]; intro s; simpl; [now repeat split|].
  destruct (IH (EclipseHCI.addToQueue s r)) as (-> & -> & -> & -> & ->).
  unfold EclipseHCI.addToQueue. now destruct (HCIRequest.Urgent r).
Qed.

Lemma partition_length (rs : list HCIRequest.t) :
  length (filter HCIRequest.Urgent rs ++ filter normalRequest rs) = length rs.
Proof.
  rewrite List.length_app. induction rs as [|r rs IH]; simpl; [reflexivity|].
  unfold normalRequest at 1. destruct (HCIRequest.Urgent r); simpl; lia.
Qed.

Lemma frames_exist (q : list HCIRequest.t) :
  Forall (fun r => exists frame, HCIRequest.getRequest r 0 = Ok frame) q ->
  exists frames, Forall2 (fun r frame => HCIRequest.getRequest r 0 = Ok frame) q frames.
Proof.
  induction 1 as [|r q [f Hf] _ [fs IH]].
  - exists []. constructor.
  - exists (f :: fs). now constructor.
Qed.

(** Requests handed to [addToQueue] of a connected instance whose queue
    is empty are written by the following timer ticks, one frame per
    tick, urgent requests first and otherwise in the order of the calls;
    an instance that receives these bytes, cut into chunks at arbitrary
    places, hands exactly these frames, in this order, to
    [processMessage]. *)
Theorem queued_requests_arrive_in_priority_order
    (s t : EclipseHCI.t) (rs : list HCIRequest.t) (chunks : list Buffer.t) :
  EclipseHCI.connected s = true -> EclipseHCI.socket s <> None ->
  EclipseHCI.queueProcessor s <> None -> EclipseHCI.isProcessingQueue s = false ->
  EclipseHCI.messageQueue s = [] -> EclipseHCI.wire s = [] ->
  Forall (fun r => exists frame, HCIRequest.getRequest r 0 = Ok frame) rs ->
  let s' := EclipseHCIFramed.ticks (length rs) (fold_left EclipseHCI.addToQueue rs s) in
  EclipseHCI.buffer t = [] ->
  concat chunks = concat (EclipseHCI.wire s') ->
  EclipseHCI.messageQueue s' = [] /\
  Forall2 (fun r frame => HCIRequest.getRequest r 0 = Ok frame)
    (filter HCIRequest.Urgent rs ++ filter normalRequest rs) (EclipseHCI.wire s') /\
  Feed.handleMessages t chunks = Some (Ok (t, EclipseHCI.wire s')).
Proof.
  intros Hc Hso Ht Hp Hq Hw Hrs s' Hb Hch.
  set (q := filter HCIRequest.Urgent rs ++ filter normalRequest rs).
  set (s1 := fold_left EclipseHCI.addToQueue rs s) in *.
  assert (Hq1 : EclipseHCI.messageQueue s1 = q)
    by exact (addToQueue_all_sorted rs [] s Hq).
  destruct (addToQueue_all_fields rs s) as (F1 & F2 & F3 & F4 & F5).
  fold s1 in F1, F2, F3, F4, F5.
  assert (Hlen : length q = length rs) by apply partition_length.
  assert (Hqf : Forall (fun r => exists frame, HCIRequest.getRequest r 0 = Ok frame) q).
  { apply Forall_app. split; apply Forall_forall; intros r Hin;
      apply filter_In in Hin as [Hin _];
      exact (proj1 (Forall_forall _ _) Hrs r Hin). }
  destruct (frames_exist q Hqf) as [frames HF].
  assert (Hs' : s' = EclipseHCI.with_wire (EclipseHCI.with_messageQueue s1 [])
                       (EclipseHCI.wire s1 ++ frames)).
  { unfold s'. rewrite <- Hlen. apply framed_ticks_send_all; try assumption; congruence. }
  assert (Hwire : EclipseHCI.wire s' = frames).
  { rewrite Hs'. cbn [EclipseHCI.wire EclipseHCI.with_wire]. now rewrite F5, Hw. }
  rewrite Hwire in *. split; [now rewrite Hs'|]. split; [exact HF|].
  apply valid_frames_are_received; try assumption.
  clear - HF. induction HF as [|r f q fs Hf _ IH]; constructor; [|exact IH].
  exact (getRequest_valid_frame _ _ _ Hf).
Qed.

Lemma queued_requests_arrive_in_priority_order_witness :
  let s := EclipseHCI.startQueueProcessor
             (EclipseHCI.with_socket
                (EclipseHCI.with_connected (EclipseHCI.init 100) true) (Some 1%nat)) in
  let A := HCIRequest.new 0x000D [x00; x01] false None 1 in
  let B := HCIRequest.new 0x0029 [x03] true None 2 in
  let s' := EclipseHCIFramed.ticks 2 (fold_left EclipseHCI.addToQueue [A; B] s) in
  let chunks :=
    [ [x5a; x0f; x00; x0f; x00; x29; x08; xab; xba; xce; xde; x01; x03; x2e];
      [x8d; x5a; x0f; x00; x10; x00; x0d; x08; xab; xba; xce; xde; x01; x00; x01; x2e; x8d] ] in
  EclipseHCI.messageQueue s' = [] /\
  Forall2 (fun r frame => HCIRequest.getRequest r 0 = Ok frame)
    [B; A] (EclipseHCI.wire s') /\
  Feed.handleMessages (EclipseHCI.init 100) chunks
  = Some (Ok (EclipseHCI.init 100, EclipseHCI.wire s')).
Proof.
  cbv zeta.
  assert (Hrs : Forall (fun r => exists frame, HCIRequest.getRequest r 0 = Ok frame)
                  [HCIRequest.new 0x000D [x00; x01] false None 1;
                   HCIRequest.new 0x0029 [x03] true None 2]).
  { repeat constructor; eexists; reflexivity. }
  exact (queued_requests_arrive_in_priority_order
           (EclipseHCI.startQueueProcessor
              (EclipseHCI.with_socket
                 (EclipseHCI.with_connected (EclipseHCI.init 100) true) (Some 1%nat)))
           (EclipseHCI.init 100)
           [HCIRequest.new 0x000D [x00; x01] false None 1;
            HCIRequest.new 0x0029 [x03] true None 2]
           [ [x5a; x0f; x00; x0f; x00; x29; x08; xab; xba; xce; xde; x01; x03; x2e];
             [x8d; x5a; x0f; x00; x10; x00; x0d; x08; xab; xba; xce; xde; x01; x00; x01;
              x2e; x8d] ]
           eq_refl ltac:(discriminate) ltac:(discriminate) eq_refl eq_refl eq_refl
           Hrs eq_refl eq_refl).
Defined.

End Loopback.

(* ================================================================== *)
(** ** [RequestCrosspointLevelActions]: the methods *)

Section LevelActionsMethods.
Import RequestCrosspointLevelActions CrosspointLevelActionsRequest.

Lemma createPayload_length (actions : list CrosspointLevelAction) (payload : Buffer.t) :
  createPayload actions = Ok payload ->
  Buffer.length payload = 2 + Z.of_nat (length actions) * 6.
Proof.
  unfold createPayload. intro H.
  destruct (Buffer.writeUInt16BE (Z.of_nat (length actions))) as [c|] eqn:E;
    [|discriminate H].
  cbn [bind] in H. destruct (encodeActions actions) as [bs|] eqn:E0; [|discriminate H].
  cbn [bind] in H. injection H as <-.
  apply writeUInt16BE_inv in E as [_ ->].
  rewrite app_nil_r, length_app, (encodeActions_length _ _ E0).
  change (Buffer.length [_; _]) with 2. lia.
Qed.

Lemma createPayload_rejects (actions : list CrosspointLevelAction) :
  Exists (fun a => ~ inRangeLevelAction a) actions ->
  exists e, createPayload actions = Threw e.
Proof.
  intro H. destruct (createPayload actions) as [p|e] eqn:E; [|now exists e].
  apply createPayload_in_range in E. apply Exists_exists in H as (a & Hin & Ha).
  exfalso. apply Ha. exact (proj1 (Forall_forall _ _) E a Hin).
Qed.

Lemma set_Data_same (r : HCIRequest.t) : HCIRequest.set_Data r (HCIRequest.Data r) = r.
Proof. now destruct r. Qed.

Lemma new_consistent (actions : list CrosspointLevelAction) (urgent : bool)
    (responseID : option Z) (now : Z) (o : t) :
  new actions urgent responseID now = Ok o ->
  Actions o = actions /\ createPayload (Actions o) = Ok (HCIRequest.Data (request o)).
Proof.
  unfold new, RequestCrosspointLevelActions.new. intro H.
  destruct (createPayload actions) as [p|] eqn:E; [|discriminate H].
  cbn [bind] in H. injection H as <-. now split.
Qed.

Lemma updatePayload_returned (o o' : t) (u : unit) :
  updatePayload o = (o', Ok u) ->
  Actions o' = Actions o /\ createPayload (Actions o') = Ok (HCIRequest.Data (request o')).
Proof.
  unfold updatePayload. destruct (createPayload (Actions o)) as [p|] eqn:E;
    intro H; [|discriminate H].
  injection H as <- _. now split.
Qed.

Lemma invoke_consistent (o o' : t) (c : call) :
  createPayload (Actions o) = Ok (HCIRequest.Data (request o)) ->
  invoke o c = (o', true) ->
  createPayload (Actions o') = Ok (HCIRequest.Data (request o')).
Proof.
  intros Ho. destruct c; cbn [invoke].
  - unfold addAction. destruct (updatePayload _) as [o1 [u|e]] eqn:E;
      intro H; [|discriminate H].
    injection H as <-. exact (proj2 (updatePayload_returned _ _ _ E)).
  - unfold removeAction.
    destruct ((index >=? 0) && (index <? Z.of_nat (length (Actions o)))).
    + cbv zeta. destruct (updatePayload _) as [o1 [u|e]] eqn:E;
        intro H; [|discriminate H].
      injection H as <-. exact (proj2 (updatePayload_returned _ _ _ E)).
    + intro H. injection H as <-. exact Ho.
  - unfold clearActions. destruct (updatePayload _) as [o1 [u|e]] eqn:E;
      intro H; [|discriminate H].
    injection H as <-. exact (proj2 (updatePayload_returned _ _ _ E)).
Qed.

Lemma invokeAll_consistent (cs : list call) :
  forall o o' : t,
    createPayload (Actions o) = Ok (HCIRequest.Data (request o)) ->
    invokeAll o cs = (o', true) ->
    createPayload (Actions o') = Ok (HCIRequest.Data (request o')).
Proof.
  induction cs as [|c cs IH]; intros o o' Ho; cbn [invokeAll].
  - intro H. now injection H as <-.
  - destruct (invoke o c) as [o1 ok] eqn:E1.
    destruct (invokeAll o1 cs) as [o2 ok'] eqn:E2.
    intro H. injection H as <- Hok. apply andb_prop in Hok as [-> ->].
    exact (IH o1 o2 (invoke_consistent o o1 c Ho E1) E2).
Qed.

(** As long as no call throws, the payload follows the list of actions:
    after the constructor and any calls of [addAction], [removeAction]
    and [clearActions] that all returned, [Data] is the encoding of
    [Actions], every action has ports in 1..1024 and a level in 0..287,
    and [getPayloadSize()] is the length of [Data]. *)
Theorem level_actions_data_follows_actions
    (actions : list CrosspointLevelAction) (urgent : bool) (responseID : option Z)
    (now : Z) (cs : list call) (o o' : t) :
  new actions urgent responseID now = Ok o ->
  invokeAll o cs = (o', true) ->
  createPayload (Actions o') = Ok (HCIRequest.Data (request o')) /\
  Forall inRangeLevelAction (Actions o') /\
  Buffer.length (HCIRequest.Data (request o')) = getPayloadSize o'.
Proof.
  intros Hn Hc. apply new_consistent in Hn as [_ Hn].
  pose proof (invokeAll_consistent cs o o' Hn Hc) as H.
  split; [exact H|]. split.
  - exact (createPayload_in_range _ _ H).
  - exact (createPayload_length _ _ H).
Qed.

Lemma level_actions_data_follows_actions_witness :
  exists o o',
    new [{| destinationPort := 1; sourcePort := 2; levelValue := 204 |}] false None 0
      = Ok o /\
    invokeAll o [AddAction {| destinationPort := 3; sourcePort := 4; levelValue := 0 |};
                 RemoveAction 0; RemoveAction 7] = (o', true) /\
    Actions o' = [{| destinationPort := 3; sourcePort := 4; levelValue := 0 |}] /\
    HCIRequest.Data (request o') = [x00; x01; x00; x02; x00; x03; x00; x00] /\
    Buffer.length (HCIRequest.Data (request o')) = getPayloadSize o'.
Proof.
  eexists. eexists. split; [reflexivity|]. split; [reflexivity|].
  split; [reflexivity|]. split; [reflexivity|].
  exact (proj2 (proj2 (level_actions_data_follows_actions
                         [{| destinationPort := 1; sourcePort := 2; levelValue := 204 |}]
                         false None 0
                         [AddAction {| destinationPort := 3; sourcePort := 4;
                                       levelValue := 0 |};
                          RemoveAction 0; RemoveAction 7] _ _ eq_refl eq_refl))).
Defined.

(** [addAction] pushes the action before the payload is rebuilt.  When
    the action is out of range the call throws, but the action stays in
    [Actions] while [Data] keeps the old payload; from then on every
    further [addAction] throws as well, whatever the action, until the
    offending action is removed again with [removeAction]. *)
Theorem rejected_action_stays_in_Actions
    (o : t) (action : CrosspointLevelAction) :
  createPayload (Actions o) = Ok (HCIRequest.Data (request o)) ->
  ~ inRangeLevelAction action ->
  let o1 := {| request := request o; Actions := Actions o ++ [action] |} in
  (exists e, addAction o action = (o1, Threw e)) /\
  (forall next : CrosspointLevelAction,
      exists e o2, addAction o1 next = (o2, Threw e) /\
                   HCIRequest.Data (request o2) = HCIRequest.Data (request o)) /\
  removeAction o1 (Z.of_nat (length (Actions o))) = (o, Ok true).
Proof.
  intros Ho Ha o1. split; [|split].
  - unfold addAction, updatePayload. fold o1.
    destruct (createPayload_rejects (Actions o1)) as [e He].
    { unfold o1. cbn [Actions]. apply Exists_app. right. now constructor. }
    rewrite He. now exists e.
  - intro next. unfold addAction, updatePayload, o1. cbn [Actions request].
    destruct (createPayload_rejects ((Actions o ++ [action]) ++ [next])) as [e He].
    { apply Exists_app. left. apply Exists_app. right. now constructor. }
    rewrite He. exists e. eexists. split; reflexivity.
  - unfold removeAction. unfold o1 at 1 2. cbn [Actions].
    rewrite List.length_app. cbn [length].
    replace (Z.of_nat (length (Actions o)) >=? 0) with true
      by (symmetry; apply Z.geb_le; lia).
    replace (Z.of_nat (length (Actions o)) <? Z.of_nat (length (Actions o) + 1))
      with true by (symmetry; apply Z.ltb_lt; lia).
    cbn [andb]. cbv zeta. rewrite Nat2Z.id. unfold o1. cbn [Actions request].
    rewrite firstn_app, firstn_all, Nat.sub_diag, firstn_O, app_nil_r.
    rewrite skipn_all2 by (rewrite List.length_app; simpl; lia).
    rewrite app_nil_r. unfold updatePayload. cbn [Actions request]. rewrite Ho.
    rewrite set_Data_same. now destruct o.
Qed.

Lemma rejected_action_stays_in_Actions_witness :
  let bad := {| destinationPort := 1025; sourcePort := 1; levelValue := 0 |} in
  let good := {| destinationPort := 1; sourcePort := 2; levelValue := 204 |} in
  exists o,
    new [good] false None 0 = Ok o /\
    (exists e, addAction o bad
               = ({| request := request o; Actions := [good; bad] |}, Threw e)) /\
    (exists e o2,
        addAction {| request := request o; Actions := [good; bad] |} good
        = (o2, Threw e) /\
        HCIRequest.Data (request o2) = [x00; x01; x00; x00; x00; x01; x00; xcc]).
Proof.
  cbv zeta. eexists. split; [reflexivity|].
  match goal with |- (exists e, addAction ?o ?a = _) /\ _ =>
    assert (Hbad : ~ inRangeLevelAction a) by (unfold inRangeLevelAction; simpl; lia);
    pose proof (rejected_action_stays_in_Actions o a eq_refl Hbad) as H
  end.
  cbv zeta in H. destruct H as (H1 & H2 & _). split; [exact H1|].
  exact (H2 {| destinationPort := 1; sourcePort := 2; levelValue := 204 |}).
Defined.

End LevelActionsMethods.

(* ================================================================== *)
(** ** [RequestCrosspointActions]: the bits of an action *)

Section CrosspointActionBits.
Import RequestCrosspointActions.

Lemma land_3 (x : Z) : 0 <= x -> Z.land x 3 = x mod 4.
Proof. intro H. change 3 with (Z.ones 2). now rewrite Z.land_ones by lia. Qed.

Lemma land_255 (x : Z) : 0 <= x -> Z.land x 255 = x mod 256.
Proof. intro H. change 255 with (Z.ones 8). now rewrite Z.land_ones by lia. Qed.

Lemma land_7 (x : Z) : 0 <= x -> Z.land x 7 = x mod 8.
Proof. intro H. change 7 with (Z.ones 3). now rewrite Z.land_ones by lia. Qed.

Lemma testbit_small (a n i : Z) : 0 <= a < 2 ^ n -> n <= i -> Z.testbit a i = false.
Proof.
  intros Ha Hi. destruct (Z.eq_dec a 0) as [->|Hnz]; [apply Z.bits_0|].
  apply Z.bits_above_log2; [lia|].
  assert (Z.log2 a < n); [|lia].
  apply Z.log2_lt_pow2; lia.
Qed.

Lemma lor_shiftl_disjoint (a b n : Z) :
  0 <= n -> 0 <= a < 2 ^ n ->
  Z.lor a (Z.shiftl b n) = a + b * 2 ^ n.
Proof.
  intros Hn Ha.
  assert (Hl : Z.land a (Z.shiftl b n) = 0).
  { apply Z.bits_inj'. intros i Hi. rewrite Z.land_spec, Z.bits_0.
    destruct (Z.lt_ge_cases i n) as [Hlt|Hge].
    - rewrite Z.shiftl_spec_low by lia. apply andb_false_r.
    - now rewrite (testbit_small a n i) by lia. }
  rewrite <- Z.lxor_lor by exact Hl.
  rewrite <- Z.add_nocarry_lxor by exact Hl.
  now rewrite Z.shiftl_mul_pow2 by lia.
Qed.

(** Word 0 for a direction bit and the two-bit fields it is built
    from. *)
Lemma word0_fields (dirbit dh sh : Z) :
  0 <= dirbit <= 1 -> 0 <= dh <= 3 -> 0 <= sh <= 3 ->
  let w := Z.lor (Z.lor (Z.lor (Z.lor dirbit (Z.shiftl dh 1)) 0x0400) (Z.shiftl sh 11))
             0x2000 in
  0 <= w <= 65535 /\
  Z.testbit w 0 = (dirbit =? 1) /\
  Z.land (Z.shiftr w 1) 3 = dh /\
  Z.land (Z.shiftr w 11) 3 = sh.
Proof.
  intros Hd Hdh Hsh.
  assert (Cd : dirbit = 0 \/ dirbit = 1) by lia.
  assert (Cdh : dh = 0 \/ dh = 1 \/ dh = 2 \/ dh = 3) by lia.
  assert (Csh : sh = 0 \/ sh = 1 \/ sh = 2 \/ sh = 3) by lia.
  destruct Cd as [-> | ->];
    destruct Cdh as [-> | [-> | [-> | ->]]];
    destruct Csh as [-> | [-> | [-> | ->]]];
    vm_compute; repeat split; intro; discriminate.
Qed.

Lemma word3_fields (inh p : Z) :
  0 <= inh <= 1 -> 0 <= p <= 7 ->
  let w := Z.lor (Z.lor (Z.lor (Z.lor 0 0x0002) 0x03F8)
                    (if inh =? 1 then 0x0800 else 0))
             (Z.shiftl (Z.land p 0x07) 13) in
  0 <= w <= 65535 /\
  Z.testbit w 11 = (inh =? 1) /\
  Z.shiftr w 13 = p.
Proof.
  intros Hi Hp.
  assert (Ci : inh = 0 \/ inh = 1) by lia.
  assert (Cp : p = 0 \/ p = 1 \/ p = 2 \/ p = 3 \/ p = 4 \/ p = 5 \/ p = 6 \/ p = 7) by lia.
  destruct Ci as [-> | ->];
    destruct Cp as [-> | [-> | [-> | [-> | [-> | [-> | [-> | ->]]]]]]];
    vm_compute; repeat split; intro; discriminate.
Qed.


(** The ten bytes [createPayload] writes for an action whose ports are
    in 1..1024 and whose priority is in 0..7, read back field by field
    as the comments of the source lay them out.  The direction, the
    enable/inhibit bit, the priority and the source port (as
    [sourcePort - 1], bits 8-9 in word 0 and bits 0-7 in the high byte of
    word 1) are all there.  The low byte of the destination is that of
    [destinationPort - 1], but its bits 8-9 in word 0 are taken from
    [destinationPort] itself: the ten-bit destination on the wire is
    [destinationPort - 1] exactly when [destinationPort] is not a
    multiple of 256. *)
Theorem crosspoint_action_wire_fields (a : CrosspointAction) :
  validatePorts (sourcePort a) (destinationPort a) = true ->
  0 <= priority a <= 7 ->
  let w0 := word0 a in
  let w1 := word1 a in
  let w3 := word3 a in
  encodeAction a = Ok (u16be 1 ++ u16be w0 ++ u16be w1 ++ u16be 0 ++ u16be w3) /\
  Z.testbit w0 0 = (match direction a with add => true | delete => false end) /\
  Z.land (Z.shiftr w0 11) 3 * 256 + Z.shiftr w1 8 = sourcePort a - 1 /\
  Z.land w1 255 = (destinationPort a - 1) mod 256 /\
  Z.land (Z.shiftr w0 1) 3 = (destinationPort a / 256) mod 4 /\
  (Z.land (Z.shiftr w0 1) 3 * 256 + Z.land w1 255 = destinationPort a - 1
   <-> destinationPort a mod 256 <> 0) /\
  Z.testbit w3 11 = (match enableDisable a with inhibit => true | enable => false end) /\
  Z.shiftr w3 13 = priority a.
Proof.
  intros Hv Hp. apply validatePorts_spec in Hv as [Hs Hd].
  set (s := sourcePort a - 1). set (d := destinationPort a).
  assert (Hs' : 0 <= s <= 1023) by (unfold s; lia).
  fold d in Hd.
  (* word 0 *)
  set (dirbit := match direction a with add => 1 | delete => 0 end).
  set (dh := Z.land (Z.shiftr d 8) 3).
  set (sh := Z.land (Z.shiftr s 8) 3).
  assert (Hdh : dh = (d / 256) mod 4).
  { unfold dh. rewrite Z.shiftr_div_pow2 by lia. apply land_3.
    apply Z.div_pos; lia. }
  assert (Hsh : sh = s / 256).
  { unfold sh. rewrite Z.shiftr_div_pow2 by lia.
    rewrite land_3 by (apply Z.div_pos; lia).
    apply Z.mod_small. split; [apply Z.div_pos; lia|].
    apply Z.div_lt_upper_bound; lia. }
  assert (Hw0 : word0 a
                = Z.lor (Z.lor (Z.lor (Z.lor dirbit (Z.shiftl dh 1)) 0x0400)
                           (Z.shiftl sh 11)) 0x2000).
  { unfold word0, dirbit, dh, sh, d, s. now destruct (direction a). }
  destruct (word0_fields dirbit dh sh) as (R0 & B0 & D0 & S0).
  { unfold dirbit. destruct (direction a); lia. }
  { rewrite Hdh. pose proof (Z.mod_pos_bound (d / 256) 4). lia. }
  { rewrite Hsh. split; [apply Z.div_pos; lia|].
    assert (s / 256 < 4) by (apply Z.div_lt_upper_bound; lia). lia. }
  rewrite <- Hw0 in R0, B0, D0, S0.
  (* word 1 *)
  set (dl := Z.land (d - 1) 0xFF). set (sl := Z.land s 0xFF).
  assert (Hdl : dl = (d - 1) mod 256) by (unfold dl; apply land_255; lia).
  assert (Hsl : sl = s mod 256) by (unfold sl; apply land_255; lia).
  assert (Hw1 : word1 a = dl + sl * 256).
  { unfold word1. fold d s dl sl. rewrite Z.lor_0_l.
    rewrite lor_shiftl_disjoint; [reflexivity|lia|].
    rewrite Hdl. apply Z.mod_pos_bound. lia. }
  assert (Bdl : 0 <= dl < 256) by (rewrite Hdl; apply Z.mod_pos_bound; lia).
  assert (Bsl : 0 <= sl < 256) by (rewrite Hsl; apply Z.mod_pos_bound; lia).
  assert (L1 : Z.land (word1 a) 255 = dl).
  { rewrite land_255 by (rewrite Hw1; lia). rewrite Hw1.
    rewrite Z.mod_add by lia. apply Z.mod_small. lia. }
  assert (H1 : Z.shiftr (word1 a) 8 = sl).
  { rewrite Z.shiftr_div_pow2 by lia. rewrite Hw1.
    change (2 ^ 8) with 256. rewrite Z.div_add by lia.
    rewrite Z.div_small by lia. lia. }
  (* word 3 *)
  set (inh := match enableDisable a with inhibit => 1 | enable => 0 end).
  assert (Hw3 : word3 a
                = Z.lor (Z.lor (Z.lor (Z.lor 0 0x0002) 0x03F8)
                           (if inh =? 1 then 0x0800 else 0))
                    (Z.shiftl (Z.land (priority a) 0x07) 13)).
  { unfold word3, inh. now destruct (enableDisable a). }
  destruct (word3_fields inh (priority a)) as (R3 & B3 & P3).
  { unfold inh. destruct (enableDisable a); lia. }
  { exact Hp. }
  rewrite <- Hw3 in R3, B3, P3.
  cbv zeta. split; [|split; [|split; [|split; [|split; [|split; [|split]]]]]].
  - unfold encodeAction.
    replace (validatePorts (sourcePort a) (destinationPort a)) with true
      by (symmetry; apply validatePorts_spec; fold d; unfold s in Hs'; lia).
    cbn [negb].
    replace (priority a <? 0) with false by (symmetry; apply Z.ltb_ge; lia).
    replace (priority a >? 7) with false
      by (symmetry; rewrite Z.gtb_ltb; apply Z.ltb_ge; lia).
    cbn [orb].
    rewrite (writeUInt16BE_ok 1) by lia. cbn [bind].
    rewrite (writeUInt16BE_ok (word0 a)) by exact R0. cbn [bind].
    rewrite (writeUInt16BE_ok (word1 a)) by (rewrite Hw1; lia). cbn [bind].
    rewrite (writeUInt16BE_ok 0) by lia. cbn [bind].
    rewrite (writeUInt16BE_ok (word3 a)) by exact R3. cbn [bind].
    unfold Buffer.concat, u16be. simpl. reflexivity.
  - rewrite B0. unfold dirbit. now destruct (direction a).
  - rewrite S0, H1, Hsh, Hsl. pose proof (Z.div_mod s 256). lia.
  - rewrite L1. exact Hdl.
  - rewrite D0. exact Hdh.
  - rewrite D0, L1, Hdh, Hdl.
    pose proof (Z.div_mod d 256 ltac:(lia)) as Ed.
    pose proof (Z.mod_pos_bound d 256 ltac:(lia)) as Bd.
    assert (Hq : 0 <= d / 256 <= 4).
    { split; [apply Z.div_pos; lia|]. apply Z.div_le_upper_bound; lia. }
    destruct (Z.eq_dec (d mod 256) 0) as [Hz|Hnz].
    + (* a multiple of 256 *)
      assert (Hm : (d - 1) mod 256 = 255).
      { replace (d - 1) with (255 + (d / 256 - 1) * 256) by lia.
        rewrite Z.mod_add by lia. reflexivity. }
      rewrite Hm. split; [|intro H; contradiction].
      intro H. exfalso.
      pose proof (Z.mod_pos_bound (d / 256) 4 ltac:(lia)) as B4.
      assert (Hcase : d / 256 = 1 \/ d / 256 = 2 \/ d / 256 = 3 \/ d / 256 = 4) by lia.
      assert (Hk : (d / 256) mod 4 = d / 256 - 1) by lia.
      destruct Hcase as [E|[E|[E|E]]]; rewrite E in Hk; vm_compute in Hk;
        discriminate Hk.
    + assert (Hm : (d - 1) mod 256 = d mod 256 - 1).
      { replace (d - 1) with ((d mod 256 - 1) + (d / 256) * 256) by lia.
        rewrite Z.mod_add by lia. apply Z.mod_small. lia. }
      rewrite Hm. split; [intros _; exact Hnz|]. intros _.
      assert (Hq' : 0 <= d / 256 <= 3).
      { split; [lia|]. assert (d / 256 < 4); [|lia].
        apply Z.div_lt_upper_bound; lia. }
      rewrite (Z.mod_small (d / 256) 4) by lia. lia.
  - rewrite B3. unfold inh. now destruct (enableDisable a).
  - exact P3.
Qed.

Lemma crosspoint_action_wire_fields_witness :
  let a := {| direction := add; destinationPort := 256; sourcePort := 256;
              enableDisable := enable; priority := 1 |} in
  encodeAction a = Ok [x00; x01; x24; x03; xff; xff; x00; x00; x23; xfa] /\
  Z.land (Z.shiftr (word0 a) 11) 3 * 256 + Z.shiftr (word1 a) 8 = 255 /\
  Z.land (Z.shiftr (word0 a) 1) 3 * 256 + Z.land (word1 a) 255 = 511.
Proof.
  cbv zeta.
  pose proof (crosspoint_action_wire_fields
                {| direction := add; destinationPort := 256; sourcePort := 256;
                   enableDisable := enable; priority := 1 |}
                eq_refl ltac:(simpl; lia)) as H.
  cbv zeta in H. destruct H as (H1 & _ & H2 & _).
  split; [exact H1|]. split; [exact H2|]. reflexivity.
Defined.

End CrosspointActionBits.

(* ================================================================== *)
(** ** [ReplyCrosspointLevelStatus.parse] on arbitrary payloads *)

Section ParseLevelStatus.
Import ReplyCrosspointLevelStatus.

Lemma parseEntries_total (n : nat) :
  forall (payload : Buffer.t) (offset : Z),
    0 <= offset ->
    offset + 6 * Z.of_nat n <= Buffer.length payload ->
    exists entries,
      parseEntries n payload offset = Ok (Some entries) /\
      length entries = n /\
      Forall (fun e => 1 <= destinationPort e <= 65536 /\
                       1 <= sourcePort e <= 65536 /\
                       0 <= levelValue e <= 65535) entries.
Proof.
  induction n as [|n IH]; intros payload offset H0 Hl.
  - exists []. repeat split. constructor.
  - cbn [parseEntries].
    replace (offset + 6 >? Buffer.length payload) with false
      by (symmetry; rewrite Z.gtb_ltb; apply Z.ltb_ge; lia).
    destruct (readUInt16BE_ok payload offset) as (d & -> & Hd); [lia|lia|].
    destruct (readUInt16BE_ok payload (offset + 2)) as (s & -> & Hs); [lia|lia|].
    destruct (readUInt16BE_ok payload (offset + 4)) as (l & -> & Hlv); [lia|lia|].
    cbn [bind].
    destruct (IH payload (offset + 6)) as (rest & -> & Hlen & Hall); [lia|lia|].
    cbn [bind option_map]. eexists. split; [reflexivity|]. split.
    + simpl. now rewrite Hlen.
    + constructor; [|exact Hall]. simpl. lia.
Qed.

Lemma parseEntries_app (n : nat) :
  forall (payload extra : Buffer.t) (offset : Z),
    0 <= offset ->
    offset + 6 * Z.of_nat n <= Buffer.length payload ->
    parseEntries n (payload ++ extra) offset = parseEntries n payload offset.
Proof.
  induction n as [|n IH]; intros payload extra offset H0 Hl; [reflexivity|].
  cbn [parseEntries]. pose proof (length_nonneg extra) as He.
  replace (offset + 6 >? Buffer.length (payload ++ extra)) with false
    by (symmetry; rewrite Z.gtb_ltb; apply Z.ltb_ge; rewrite length_app; lia).
  replace (offset + 6 >? Buffer.length payload) with false
    by (symmetry; rewrite Z.gtb_ltb; apply Z.ltb_ge; lia).
  rewrite !readUInt16BE_app_l by lia.
  now rewrite IH by lia.
Qed.

(** [parse] never throws, whatever the payload.  It returns [null]
    exactly when the payload has fewer than two bytes or fewer than
    [2 + 6 * count] bytes, [count] being its first two bytes; otherwise
    it returns [count] entries, and bytes after the last entry are
    ignored. *)
Theorem parse_level_status_is_total (payload : Buffer.t) (now : Z) :
  exists result,
    parse payload now = Ok result /\
    match result with
    | None =>
        Buffer.length payload < 2 \/
        exists n, Buffer.readUInt16BE payload 0 = Ok n /\
                  Buffer.length payload < 2 + n * 6
    | Some data =>
        Buffer.readUInt16BE payload 0 = Ok (count data) /\
        2 + count data * 6 <= Buffer.length payload /\
        Z.of_nat (length (levelData data)) = count data /\
        Forall (fun e => 1 <= destinationPort e <= 65536 /\
                         1 <= sourcePort e <= 65536 /\
                         0 <= levelValue e <= 65535) (levelData data) /\
        rawPayload data = payload /\
        forall extra : Buffer.t,
          parse (payload ++ extra) now
          = Ok (Some {| messageID := messageID data; timestamp := timestamp data;
                        count := count data; levelData := levelData data;
                        rawPayload := payload ++ extra |})
    end.
Proof.
  unfold parse. destruct (Buffer.length payload <? 2) eqn:E2.
  - apply Z.ltb_lt in E2. exists None. split; [reflexivity|now left].
  - apply Z.ltb_ge in E2.
    destruct (readUInt16BE_ok payload 0) as (n & Hn & Hr); [lia|lia|].
    rewrite Hn. cbn [bind].
    destruct (Buffer.length payload <? 2 + n * 6) eqn:E6.
    + apply Z.ltb_lt in E6. exists None. split; [reflexivity|].
      right. now exists n.
    + apply Z.ltb_ge in E6.
      destruct (parseEntries_total (Z.to_nat n) payload 2) as (entries & He & Hlen & Hall);
        [lia|lia|].
      rewrite He. cbn [bind option_map]. eexists. split; [reflexivity|].
      cbn [count levelData rawPayload messageID timestamp].
      split; [reflexivity|]. split; [lia|]. split; [lia|]. split; [exact Hall|].
      split; [reflexivity|]. intro extra. pose proof (length_nonneg extra) as Hx.
      replace (Buffer.length (payload ++ extra) <? 2) with false
        by (symmetry; apply Z.ltb_ge; rewrite length_app; lia).
      rewrite readUInt16BE_app_l, Hn by lia. cbn [bind].
      replace (Buffer.length (payload ++ extra) <? 2 + n * 6) with false
        by (symmetry; apply Z.ltb_ge; rewrite length_app; lia).
      rewrite parseEntries_app, He by lia. reflexivity.
Qed.

End ParseLevelStatus.

(* ================================================================== *)
(** ** [RequestCrosspointStatus]: the constructor and the methods *)

Section CrosspointStatusRequest.
Import RequestCrosspointStatus.

(** The payload for a list of ports: their count, then each port, as
    big-endian 16-bit words. *)
Lemma validatePorts_iff (ports : list Z) :
  validatePorts ports = Ok tt <-> Forall (fun p => 0 <= p <= 1023) ports.
Proof.
  induction ports as [|p ports IH]; simpl.
  - split; [constructor|reflexivity].
  - destruct ((p <? 0) || (p >? 1023)) eqn:E.
    + split; [discriminate|]. intro H. inversion H as [|? ? Hp _]. subst.
      apply orb_true_iff in E as [E|E].
      * apply Z.ltb_lt in E. lia.
      * rewrite Z.gtb_ltb in E. apply Z.ltb_lt in E. lia.
    + apply orb_false_iff in E as [E1 E2].
      apply Z.ltb_ge in E1. rewrite Z.gtb_ltb in E2. apply Z.ltb_ge in E2.
      rewrite IH. split.
      * intro H. constructor; [lia|exact H].
      * intro H. now inversion H.
Qed.

Lemma validatePorts_cases (ports : list Z) :
  validatePorts ports = Ok tt \/ validatePorts ports = Threw ValidationError.
Proof.
  induction ports as [|p ports IH]; simpl; [now left|].
  destruct ((p <? 0) || (p >? 1023)); [now right|exact IH].
Qed.

Lemma checkPorts_iff (ports : list Z) :
  checkPorts ports = Ok tt <->
  (1 <= Z.of_nat (length ports) <= 495 /\ Forall (fun p => 0 <= p <= 1023) ports).
Proof.
  unfold checkPorts.
  destruct ((Z.of_nat (length ports) <? 1) || (Z.of_nat (length ports) >? 495)) eqn:E.
  - split; [discriminate|]. intros [H _].
    apply orb_true_iff in E as [E|E].
    + apply Z.ltb_lt in E. lia.
    + rewrite Z.gtb_ltb in E. apply Z.ltb_lt in E. lia.
  - apply orb_false_iff in E as [E1 E2].
    apply Z.ltb_ge in E1. rewrite Z.gtb_ltb in E2. apply Z.ltb_ge in E2.
    rewrite validatePorts_iff. split; [intro H; split; [lia|exact H]|now intros [_ H]].
Qed.

Lemma checkPorts_cases (ports : list Z) :
  checkPorts ports = Ok tt \/ checkPorts ports = Threw ValidationError.
Proof.
  unfold checkPorts. destruct (_ || _); [now right|apply validatePorts_cases].
Qed.

Lemma encodePorts_ok (ports : list Z) :
  Forall (fun p => 0 <= p <= 1023) ports ->
  encodePorts ports = Ok (map u16be ports).
Proof.
  induction 1 as [|p ports Hp _ IH]; simpl; [reflexivity|].
  rewrite writeUInt16BE_ok by lia. cbn [bind]. rewrite IH. reflexivity.
Qed.

Lemma concat_u16be_length (ports : list Z) :
  Buffer.length (concat (map u16be ports)) = Z.of_nat (length ports) * 2.
Proof.
  induction ports as [|p ports IH]; [reflexivity|].
  cbn [map concat]. rewrite length_app, IH. change (Buffer.length (u16be p)) with 2.
  cbn [length]. lia.
Qed.

Lemma createPayload_ok (ports : list Z) :
  Z.of_nat (length ports) <= 495 ->
  Forall (fun p => 0 <= p <= 1023) ports ->
  createPayload ports
  = Ok (u16be (Z.of_nat (length ports)) ++ concat (map u16be ports)).
Proof.
  intros Hn Hp. unfold createPayload.
  rewrite writeUInt16BE_ok by lia. cbn [bind].
  rewrite (encodePorts_ok ports Hp). cbn [bind].
  unfold Buffer.concat. cbn [concat]. now rewrite app_nil_r.
Qed.

(** What holds of a request that is in order. *)
Lemma in_order_facts (o : t) :
  1 <= Z.of_nat (length (Ports o)) <= 495 ->
  Forall (fun p => 0 <= p <= 1023) (Ports o) ->
  HCIRequest.Data (request o)
  = u16be (Z.of_nat (length (Ports o))) ++ concat (map u16be (Ports o)) ->
  Buffer.length (HCIRequest.Data (request o)) = getPayloadSize o.
Proof.
  intros _ _ ->. rewrite length_app, concat_u16be_length.
  change (Buffer.length (u16be _)) with 2. reflexivity.
Qed.

Lemma updatePayload_in_order (request0 : HCIRequest.t) (ports : list Z) :
  1 <= Z.of_nat (length ports) <= 495 ->
  Forall (fun p => 0 <= p <= 1023) ports ->
  updatePayload {| request := request0; Ports := ports |}
  = ({| request := HCIRequest.set_Data request0
                     (u16be (Z.of_nat (length ports)) ++ concat (map u16be ports));
        Ports := ports |}, Ok tt).
Proof.
  intros Hn Hp. unfold updatePayload. cbn [Ports request].
  now rewrite createPayload_ok by (try lia; exact Hp).
Qed.


Lemma new_in_order (ports : list Z) (urgent : bool) (responseID : option Z) (now : Z)
    (o : t) :
  new ports urgent responseID now = Ok o ->
  Ports o = ports /\ portsInOrder o /\
  HCIRequest.RequestID (request o) = 0x000D /\ HCIRequest.Version (request o) = 2.
Proof.
  unfold new. destruct (checkPorts ports) as [[]|] eqn:E; [|discriminate].
  apply checkPorts_iff in E as [Hn Hp]. cbn [bind].
  rewrite createPayload_ok by (try lia; exact Hp). cbn [bind].
  intro H. injection H as <-. unfold portsInOrder. cbn. auto.
Qed.

Lemma includes_false (ports : list Z) (port : Z) :
  includes ports port = false -> ~ In port ports.
Proof.
  unfold includes. intros H Hin.
  assert (existsb (Z.eqb port) ports = true); [|congruence].
  apply existsb_exists. exists port. split; [exact Hin|apply Z.eqb_refl].
Qed.

Lemma addPort_in_order (o o' : t) (port : Z) :
  portsInOrder o -> addPort o port = (o', Ok tt) -> portsInOrder o'.
Proof.
  intros (Hn & Hp & Hd). unfold addPort.
  destruct ((port <? 0) || (port >? 1023)) eqn:E; [discriminate|].
  apply orb_false_iff in E as [E1 E2].
  apply Z.ltb_ge in E1. rewrite Z.gtb_ltb in E2. apply Z.ltb_ge in E2.
  destruct (Z.of_nat (length (Ports o)) >=? 495) eqn:E3; [discriminate|].
  rewrite Z.geb_leb in E3. apply Z.leb_gt in E3.
  destruct (negb (includes (Ports o) port)).
  - rewrite updatePayload_in_order.
    + intro H. injection H as <-. unfold portsInOrder. cbn [Ports request].
      rewrite List.length_app. cbn [length]. split; [lia|].
      split; [apply Forall_app; split; [exact Hp|constructor; [lia|constructor]]|].
      now destruct (request o).
    + rewrite List.length_app. cbn [length]. lia.
    + apply Forall_app. split; [exact Hp|]. constructor; [lia|constructor].
  - intro H. injection H as <-. now repeat split.
Qed.

Lemma splice_length {A : Type} (l : list A) (i : nat) :
  (i < length l)%nat ->
  length (firstn i l ++ skipn (S i) l) = (length l - 1)%nat.
Proof.
  intro H. rewrite List.length_app, length_firstn, length_skipn. lia.
Qed.

Lemma splice_Forall {A : Type} (P : A -> Prop) (l : list A) (i : nat) :
  Forall P l -> Forall P (firstn i l ++ skipn (S i) l).
Proof.
  intro H. rewrite Forall_forall in H. apply Forall_forall. intros x Hx.
  apply in_app_or in Hx as [Hx|Hx]; apply H.
  - rewrite <- (firstn_skipn i l). apply in_or_app. now left.
  - rewrite <- (firstn_skipn (S i) l). apply in_or_app. now right.
Qed.

Lemma indexOf_bounds (ports : list Z) (port i k : Z) :
  indexOf ports port i = k -> k <> -1 -> 0 <= i ->
  i <= k < i + Z.of_nat (length ports).
Proof.
  revert i. induction ports as [|p ports IH]; intros i H Hk Hi; simpl in H.
  - congruence.
  - destruct (p =? port).
    + subst k. cbn [length]. lia.
    + specialize (IH (i + 1) H Hk ltac:(lia)). cbn [length]. lia.
Qed.

Lemma removePort_in_order (o o' : t) (port : Z) (b : bool) :
  portsInOrder o -> removePort o port = (o', Ok b) -> portsInOrder o'.
Proof.
  intros (Hn & Hp & Hd). unfold removePort. cbv zeta.
  destruct (negb (indexOf (Ports o) port 0 =? -1)) eqn:E.
  - apply negb_true_iff, Z.eqb_neq in E.
    pose proof (indexOf_bounds (Ports o) port 0 _ eq_refl E ltac:(lia)) as Hi.
    cbn [Ports].
    set (spliced := firstn _ (Ports o) ++ skipn _ (Ports o)).
    assert (Hl : length spliced = (length (Ports o) - 1)%nat)
      by (apply splice_length; lia).
    destruct (Z.of_nat (length spliced) =? 0) eqn:E0; [discriminate|].
    apply Z.eqb_neq in E0.
    rewrite updatePayload_in_order.
    + intro H. injection H as <- _. unfold portsInOrder. cbn [Ports request].
      split; [lia|]. split; [now apply splice_Forall|]. now destruct (request o).
    + lia.
    + now apply splice_Forall.
  - intro H. injection H as <- _. now repeat split.
Qed.

Lemma setPorts_in_order (o o' : t) (ports : list Z) :
  setPorts o ports = (o', Ok tt) -> portsInOrder o'.
Proof.
  unfold setPorts. destruct (checkPorts ports) as [[]|] eqn:E; [|discriminate].
  apply checkPorts_iff in E as [Hn Hp].
  rewrite updatePayload_in_order by assumption.
  intro H. injection H as <-. unfold portsInOrder. cbn [Ports request].
  repeat split; try assumption; try lia.
Qed.

Lemma addPorts_in_order (ports : list Z) :
  forall o o' : t,
    portsInOrder o -> addPorts o ports = (o', Ok tt) -> portsInOrder o'.
Proof.
  induction ports as [|p ports IH]; intros o o' Ho; cbn [addPorts].
  - intro H. now injection H as <-.
  - destruct (addPort o p) as [o1 [[]|e]] eqn:E; [|discriminate].
    apply IH. exact (addPort_in_order o o1 p Ho E).
Qed.

Lemma returned_true {T A : Type} (r : ended T A) (o' : T) :
  returned r = (o', true) -> exists a, r = (o', Ok a).
Proof.
  destruct r as [o1 [a|e]]; simpl; intro H; [|discriminate].
  injection H as <-. now exists a.
Qed.

Lemma invoke_in_order (o o' : t) (c : call) :
  portsInOrder o -> invoke o c = (o', true) -> portsInOrder o'.
Proof.
  intros Ho H. destruct c; cbn [invoke] in H; apply returned_true in H as [a H].
  - destruct a. exact (addPort_in_order _ _ _ Ho H).
  - exact (removePort_in_order _ _ _ _ Ho H).
  - destruct a. exact (setPorts_in_order _ _ _ H).
  - destruct a. exact (addPorts_in_order _ _ _ Ho H).
  - discriminate H.
Qed.

Lemma invokeAll_in_order (cs : list call) :
  forall o o' : t, portsInOrder o -> invokeAll o cs = (o', true) -> portsInOrder o'.
Proof.
  induction cs as [|c cs IH]; intros o o' Ho; cbn [invokeAll].
  - intro H. now injection H as <-.
  - destruct (invoke o c) as [o1 ok] eqn:E1.
    destruct (invokeAll o1 cs) as [o2 ok'] eqn:E2.
    intro H. injection H as <- Hok. apply andb_prop in Hok as [-> ->].
    exact (IH o1 o2 (invoke_in_order o o1 c Ho E1) E2).
Qed.

(** After the constructor and any calls of [addPort], [removePort],
    [setPorts] and [addPorts] that all returned, the request is in
    order: it has between 1 and 495 ports, each in 0..1023, its payload
    is the count followed by the ports, and [getPayloadSize()] is the
    length of the payload.  ([clearPorts] never returns.) *)
Theorem crosspoint_status_request_stays_in_order
    (ports : list Z) (urgent : bool) (responseID : option Z) (now : Z)
    (cs : list call) (o o' : t) :
  new ports urgent responseID now = Ok o ->
  invokeAll o cs = (o', true) ->
  portsInOrder o' /\
  Buffer.length (HCIRequest.Data (request o')) = getPayloadSize o' /\
  ~ In ClearPorts cs.
Proof.
  intros Hn Hc. apply new_in_order in Hn as (_ & Hn & _).
  pose proof (invokeAll_in_order cs o o' Hn Hc) as H.
  split; [exact H|]. split.
  - destruct H as (H1 & H2 & H3). now apply in_order_facts.
  - clear - Hc. revert o Hc. induction cs as [|c cs IH]; intros o Hc; [intros []|].
    cbn [invokeAll] in Hc.
    destruct (invoke o c) as [o1 ok] eqn:E1.
    destruct (invokeAll o1 cs) as [o2 ok'] eqn:E2.
    injection Hc as -> Hok. apply andb_prop in Hok as [-> ->].
    intros [->|Hin]; [discriminate E1|]. exact (IH o1 E2 Hin).
Qed.

Lemma crosspoint_status_request_stays_in_order_witness :
  exists o o',
    new [5; 7] false None 0 = Ok o /\
    invokeAll o [AddPort 1023; AddPort 5; RemovePort 7; RemovePort 9] = (o', true) /\
    Ports o' = [5; 1023] /\
    HCIRequest.Data (request o') = [x00; x02; x00; x05; x03; xff] /\
    Buffer.length (HCIRequest.Data (request o')) = getPayloadSize o'.
Proof.
  eexists. eexists. split; [reflexivity|]. split; [reflexivity|].
  split; [reflexivity|]. split; [reflexivity|].
  exact (proj1 (proj2 (crosspoint_status_request_stays_in_order [5; 7] false None 0
                         [AddPort 1023; AddPort 5; RemovePort 7; RemovePort 9]
                         _ _ eq_refl eq_refl))).
Defined.


Lemma new_accepts_iff (ports : list Z) (urgent : bool) (responseID : option Z)
    (now : Z) :
  (exists o, new ports urgent responseID now = Ok o) <->
  (1 <= Z.of_nat (length ports) <= 495 /\ Forall (fun p => 0 <= p <= 1023) ports).
Proof.
  split.
  - intros [o H]. unfold new in H.
    destruct (checkPorts ports) as [[]|] eqn:E; [|discriminate H].
    now apply checkPorts_iff.
  - intros [Hn Hp]. unfold new.
    rewrite (proj2 (checkPorts_iff ports) (conj Hn Hp)). cbn [bind].
    rewrite createPayload_ok by (try lia; exact Hp). cbn [bind]. eexists. reflexivity.
Qed.

Lemma portRange_length (n : nat) (port : Z) : length (portRange port n) = n.
Proof. revert port. induction n as [|n IH]; intro port; simpl; [|rewrite IH]; reflexivity. Qed.

Lemma portRange_In (n : nat) :
  forall port p : Z, In p (portRange port n) <-> port <= p < port + Z.of_nat n.
Proof.
  induction n as [|n IH]; intros port p; cbn [portRange In].
  - split; [intros []|lia].
  - rewrite IH. lia.
Qed.

(** Which arguments the constructor and [forPortRange] accept: a list
    of 1 to 495 ports, each in 0..1023; and a range [startPort..endPort]
    inside 0..1023 that holds at most 495 ports, which then are the
    ports of the request, in ascending order. *)
Theorem crosspoint_status_constructor_accepts
    (ports : list Z) (startPort endPort : Z) (urgent : bool)
    (responseID : option Z) (now : Z) :
  ((exists o, new ports urgent responseID now = Ok o) <->
   (1 <= Z.of_nat (length ports) <= 495 /\ Forall (fun p => 0 <= p <= 1023) ports)) /\
  ((exists o, forPortRange startPort endPort urgent now = Ok o) <->
   (0 <= startPort /\ startPort <= endPort /\ endPort <= 1023 /\
    endPort - startPort + 1 <= 495)) /\
  (forall o, forPortRange startPort endPort urgent now = Ok o ->
             Z.of_nat (length (Ports o)) = endPort - startPort + 1 /\
             forall p, In p (Ports o) <-> startPort <= p <= endPort).
Proof.
  split; [apply new_accepts_iff|].
  unfold forPortRange. destruct (startPort >? endPort) eqn:E.
  - rewrite Z.gtb_ltb in E. apply Z.ltb_lt in E. split.
    + split; [intros [o H]; discriminate H|lia].
    + intros o H. discriminate H.
  - rewrite Z.gtb_ltb in E. apply Z.ltb_ge in E.
    set (n := Z.to_nat (endPort - startPort + 1)).
    assert (Hn : Z.of_nat n = endPort - startPort + 1) by (unfold n; lia).
    split.
    + rewrite new_accepts_iff, portRange_length, Hn. split.
      * intros [Hc Hp]. rewrite Forall_forall in Hp.
        pose proof (Hp startPort (proj2 (portRange_In n startPort startPort)
                                    ltac:(lia))).
        pose proof (Hp endPort (proj2 (portRange_In n startPort endPort) ltac:(lia))).
        lia.
      * intros (H0 & H1 & H2 & H3). split; [lia|].
        apply Forall_forall. intros p Hp. apply portRange_In in Hp. lia.
    + intros o H. apply new_in_order in H as (-> & _).
      rewrite portRange_length. split; [exact Hn|].
      intro p. rewrite portRange_In. lia.
Qed.

(** [removePort] splices the port out before it checks that a port is
    left.  On a request with a single port the call throws, but the port
    is gone from [Ports]: the instance is left with no port at all while
    its payload still asks for the removed one. *)
Theorem removing_the_only_port (o : t) (port : Z) :
  portsInOrder o ->
  Ports o = [port] ->
  let o' := {| request := request o; Ports := [] |} in
  removePort o port = (o', Threw ValidationError) /\
  getPortCount o' = 0 /\
  hasPort o' port = false /\
  HCIRequest.Data (request o') = u16be 1 ++ u16be port /\
  ~ portsInOrder o'.
Proof.
  intros (Hn & Hp & Hd) HP o'. rewrite HP in Hd. cbn in Hd.
  split; [|split; [|split; [|split]]].
  - unfold removePort. rewrite HP. cbn [indexOf]. rewrite Z.eqb_refl.
    reflexivity.
  - reflexivity.
  - reflexivity.
  - exact Hd.
  - intros (H & _). cbn in H. lia.
Qed.

Lemma removing_the_only_port_witness :
  exists o,
    new [7] false None 0 = Ok o /\
    removePort o 7 = ({| request := request o; Ports := [] |}, Threw ValidationError) /\
    HCIRequest.Data (request o) = [x00; x01; x00; x07].
Proof.
  eexists. split; [reflexivity|].
  match goal with |- removePort ?o _ = _ /\ _ =>
    assert (Ho : portsInOrder o)
      by (unfold portsInOrder; cbn; repeat split;
          [lia | lia | repeat constructor; lia]);
    pose proof (removing_the_only_port o 7 Ho eq_refl) as H
  end.
  cbv zeta in H. destruct H as (H1 & _ & _ & H2 & _). split; [exact H1|exact H2].
Defined.

End CrosspointStatusRequest.

(* ================================================================== *)
(** ** [ReplyCrosspointStatus.parse] on arbitrary payloads *)

Section ParseCrosspointStatus.
Import ReplyCrosspointStatus.

Lemma land_1FFF (x : Z) : 0 <= Z.land x 0x1FFF < 8192.
Proof.
  change 0x1FFF with (Z.ones 13). rewrite Z.land_ones by lia.
  change (2 ^ 13) with 8192. apply Z.mod_pos_bound. lia.
Qed.

Lemma connectedPortsLoop_total (fuel : nat) :
  forall (payload : Buffer.t) (offset : Z),
    0 <= offset ->
    Buffer.length payload - offset < Z.of_nat fuel \/ Buffer.length payload < offset + 2 ->
    exists connectedPorts offset',
      connectedPortsLoop fuel payload offset = Some (Ok (connectedPorts, offset')) /\
      offset <= offset' /\
      Forall (fun c => 0 <= ConnectedPortData.portNumber c < 8192) connectedPorts.
Proof.
  induction fuel as [|fuel IH]; intros payload offset H0 Hf.
  - simpl. replace (offset + 2 <=? Buffer.length payload) with false
      by (symmetry; apply Z.leb_gt; lia).
    exists [], offset. repeat split; [lia|constructor].
  - cbn [connectedPortsLoop].
    destruct (offset + 2 <=? Buffer.length payload) eqn:E.
    + apply Z.leb_le in E.
      destruct (readUInt16BE_ok payload offset) as (w & -> & _); [lia|lia|].
      cbv zeta. destruct (negb (Z.land w 0x8000 =? 0)).
      * exists [], offset. repeat split; [lia|constructor].
      * destruct (IH payload (offset + 2)) as (cs & off' & -> & Ho & Hall); [lia|lia|].
        eexists. eexists. split; [reflexivity|]. split; [lia|].
        constructor; [|exact Hall]. cbn. apply land_1FFF.
    + exists [], offset. repeat split; [lia|constructor].
Qed.

Lemma monitoredPortsLoop_total (n : nat) :
  forall (payload : Buffer.t) (offset : Z),
    0 <= offset ->
    exists result,
      monitoredPortsLoop n (length payload) payload offset = Some (Ok result) /\
      match result with
      | None => True
      | Some monitoredPorts =>
          length monitoredPorts = n /\
          Forall (fun m =>
                    0 <= MonitoredPortData.portNumber m < 8192 /\
                    Forall (fun c => 0 <= ConnectedPortData.portNumber c < 8192)
                      (MonitoredPortData.connectedPorts m)) monitoredPorts
      end.
Proof.
  induction n as [|n IH]; intros payload offset H0.
  - exists (Some []). split; [reflexivity|]. split; [reflexivity|constructor].
  - cbn [monitoredPortsLoop].
    destruct (offset + 2 >? Buffer.length payload) eqn:E.
    + exists None. now split.
    + rewrite Z.gtb_ltb in E. apply Z.ltb_ge in E.
      destruct (readUInt16BE_ok payload offset) as (w & -> & _); [lia|lia|].
      cbv zeta. destruct (negb (negb (Z.land w 0x8000 =? 0))).
      * exists None. now split.
      * destruct (connectedPortsLoop_total (length payload) payload (offset + 2))
          as (cs & off' & -> & Ho & Hall); [lia|left; unfold Buffer.length; lia|].
        destruct (IH payload off') as (r & -> & Hr); [lia|].
        destruct r as [ms|].
        -- eexists. split; [reflexivity|]. destruct Hr as [Hl Hm].
           split; [simpl; now rewrite Hl|].
           constructor; [|exact Hm]. cbn. split; [apply land_1FFF|exact Hall].
        -- exists None. now split.
Qed.

(** [parse] returns for every payload: its loops end and it never
    throws.  When it does not return [null], the record holds exactly
    [count] monitored ports, [count] being the first two bytes of the
    payload, and every port number in it, monitored or connected, is
    below 8192. *)
Theorem parse_crosspoint_status_is_total (payload : Buffer.t) (now : Z) :
  exists result,
    parse payload now = Some (Ok result) /\
    match result with
    | None => True
    | Some data =>
        Buffer.readUInt16BE payload 0 = Ok (count data) /\
        Z.of_nat (length (monitoredPorts data)) = count data /\
        Forall (fun m =>
                  0 <= MonitoredPortData.portNumber m < 8192 /\
                  Forall (fun c => 0 <= ConnectedPortData.portNumber c < 8192)
                    (MonitoredPortData.connectedPorts m)) (monitoredPorts data) /\
        rawPayload data = payload
    end.
Proof.
  unfold parse. destruct (Buffer.length payload <? 2) eqn:E2.
  - exists None. now split.
  - apply Z.ltb_ge in E2.
    destruct (readUInt16BE_ok payload 0) as (n & Hn & Hr); [lia|lia|].
    rewrite Hn.
    destruct (monitoredPortsLoop_total (Z.to_nat n) payload 2) as (r & -> & H); [lia|].
    destruct r as [ms|].
    + eexists. split; [reflexivity|]. cbn. destruct H as [Hl Hm].
      repeat split; try assumption. lia.
    + exists None. now split.
Qed.

End ParseCrosspointStatus.

(* ================================================================== *)
(** ** [RequestUnicodeAliasAdd]: validation against encoding *)

Section UnicodeAlias.
Import RequestUnicodeAliasAdd.

Lemma charCode_range (unit : byte * byte) : 0 <= charCode unit <= 65535.
Proof.
  unfold charCode. pose proof (u8_range (fst unit)). pose proof (u8_range (snd unit)). lia.
Qed.

Lemma encodeText_ok (n : nat) :
  forall t : jsstring,
    (n <= length t)%nat ->
    exists b, encodeText n t = Ok b /\ Buffer.length b = Z.of_nat n * 2.
Proof.
  induction n as [|n IH]; intros t Hl.
  - exists []. now split.
  - destruct t as [|u t]; [simpl in Hl; lia|]. cbn [encodeText].
    rewrite writeUInt16BE_ok by apply charCode_range. cbn [bind].
    destruct (IH t) as (b & -> & Hb); [simpl in Hl; lia|].
    cbn [bind]. eexists. split; [reflexivity|].
    rewrite length_app, Hb. change (Buffer.length [_; _]) with 2. lia.
Qed.

Lemma padEnd10_length (t : jsstring) : (10 <= length (padEnd10 t))%nat.
Proof. unfold padEnd10. rewrite List.length_app, repeat_length. lia. Qed.

Lemma validateAlias_inv (alias : UnicodeAliasEntry) :
  validateAlias alias = Ok tt ->
  0 <= system alias <= 255 /\ 1 <= port alias <= 1024 /\
  Z.of_nat (length (text alias)) <= 10.
Proof.
  unfold validateAlias.
  destruct ((system alias <? 0) || (system alias >? 255)) eqn:E1; [discriminate|].
  destruct ((port alias <? 1) || (port alias >? 1024)) eqn:E2; [discriminate|].
  destruct (Z.of_nat (length (text alias)) >? 10) eqn:E3; [discriminate|].
  intros _. apply orb_false_iff in E1 as [A B], E2 as [C D].
  rewrite Z.gtb_ltb in B, D, E3.
  apply Z.ltb_ge in A, B, C, D, E3. lia.
Qed.

Lemma flags_range (alias : UnicodeAliasEntry) :
  let flags := 0 in
  let flags := if inhibitRemote alias then Z.lor flags 0x4000 else flags in
  let flags := if inhibitLocal alias then Z.lor flags 0x8000 else flags in
  0 <= flags <= 65535.
Proof. cbv zeta. destruct (inhibitRemote alias), (inhibitLocal alias); simpl; lia. Qed.

Lemma writeUInt8_ok (v : Z) :
  0 <= v <= 255 -> Buffer.writeUInt8 v = Ok [Buffer.byte_of_Z v].
Proof.
  intro H. unfold Buffer.writeUInt8.
  replace (0 <=? v) with true by (symmetry; apply Z.leb_le; lia).
  replace (v <=? 255) with true by (symmetry; apply Z.leb_le; lia).
  reflexivity.
Qed.

Lemma writeUInt8_throws (v : Z) :
  255 < v -> Buffer.writeUInt8 v = Threw RangeError.
Proof.
  intro H. unfold Buffer.writeUInt8.
  replace (v <=? 255) with false by (symmetry; apply Z.leb_gt; lia).
  now rewrite andb_false_r.
Qed.

Lemma encodeAlias_cases (alias : UnicodeAliasEntry) :
  validateAlias alias = Ok tt ->
  if port alias <=? 256
  then exists b, encodeAlias alias = Ok b /\ Buffer.length b = 28
  else encodeAlias alias = Threw RangeError.
Proof.
  intro Hv. apply validateAlias_inv in Hv as (Hs & Hp & Ht).
  unfold encodeAlias. pose proof (flags_range alias) as Hf. cbv zeta in *.
  rewrite writeUInt16BE_ok by exact Hf. cbn [bind].
  rewrite (writeUInt8_ok (system alias)) by lia. cbn [bind].
  rewrite (writeUInt8_ok 1), (writeUInt8_ok 0) by lia. cbn [bind].
  destruct (port alias <=? 256) eqn:E.
  - apply Z.leb_le in E. rewrite (writeUInt8_ok (port alias - 1)) by lia.
    cbn [bind].
    destruct (encodeText_ok 10 (padEnd10 (text alias)) (padEnd10_length _))
      as (t & -> & Hl).
    cbn [bind]. rewrite (writeUInt16BE_ok 0x8000) by lia. cbn [bind].
    eexists. split; [reflexivity|].
    rewrite !length_app, Hl. reflexivity.
  - apply Z.leb_gt in E. rewrite (writeUInt8_throws (port alias - 1)) by lia.
    reflexivity.
Qed.

Lemma encodeAliases_cases (aliases : list UnicodeAliasEntry) :
  Forall (fun a => validateAlias a = Ok tt) aliases ->
  if forallb (fun a => port a <=? 256) aliases
  then exists bs, encodeAliases aliases = Ok bs /\
                  Buffer.length (concat bs) = Z.of_nat (length aliases) * 28
  else encodeAliases aliases = Threw RangeError.
Proof.
  induction 1 as [|a aliases Ha _ IH]; cbn [forallb encodeAliases].
  - exists []. now split.
  - pose proof (encodeAlias_cases a Ha) as Hc.
    destruct (port a <=? 256); cbn [andb].
    + destruct Hc as (b & -> & Hb). cbn [bind].
      destruct (forallb _ aliases).
      * destruct IH as (bs & -> & Hbs). cbn [bind]. eexists. split; [reflexivity|].
        cbn [concat]. rewrite length_app, Hb, Hbs. cbn [length]. lia.
      * now rewrite IH.
    + now rewrite Hc.
Qed.

(** [validateAlias] accepts ports 1..1024, but [createPayload] stores
    [port - 1] in a single byte.  For aliases that pass [validateAlias]
    (at most 65535 of them), [createPayload] returns a payload exactly
    when every port is at most 256, and the payload then has the
    [2 + 28 * count] bytes of [getPayloadSize]; with any port from 257
    to 1024 it throws a RangeError. *)
Theorem alias_ports_above_256_are_not_encodable (aliases : list UnicodeAliasEntry) :
  Forall (fun a => validateAlias a = Ok tt) aliases ->
  Z.of_nat (length aliases) <= 65535 ->
  ((exists payload, createPayload aliases = Ok payload) <->
   Forall (fun a => port a <= 256) aliases) /\
  (forall payload, createPayload aliases = Ok payload ->
                   Buffer.length payload = getPayloadSize aliases) /\
  (Exists (fun a => 257 <= port a <= 1024) aliases ->
   createPayload aliases = Threw RangeError).
Proof.
  intros Hv Hn. pose proof (encodeAliases_cases aliases Hv) as Hc.
  unfold createPayload. rewrite writeUInt16BE_ok by lia. cbn [bind].
  destruct (forallb (fun a => port a <=? 256) aliases) eqn:E.
  - destruct Hc as (bs & -> & Hl). cbn [bind].
    assert (HF : Forall (fun a => port a <= 256) aliases).
    { apply Forall_forall. intros a Hin.
      apply Z.leb_le. exact (proj1 (forallb_forall _ _) E a Hin). }
    split; [split; [intros _; exact HF|intros _; eexists; reflexivity]|].
    split.
    + intros payload H. injection H as <-. rewrite app_nil_r.
      change (Buffer.length (?a :: ?b :: Buffer.concat bs))
        with (Buffer.length ([a; b] ++ concat bs)).
      rewrite length_app, Hl. reflexivity.
    + intro Hex. exfalso. apply Exists_exists in Hex as (a & Hin & Ha).
      pose proof (proj1 (Forall_forall _ _) HF a Hin) as Hle. cbv beta in Hle. lia.
  - rewrite Hc. cbn [bind].
    assert (HF : ~ Forall (fun a => port a <= 256) aliases).
    { intro HF. assert (forallb (fun a => port a <=? 256) aliases = true); [|congruence].
      apply forallb_forall. intros a Hin. apply Z.leb_le.
      exact (proj1 (Forall_forall _ _) HF a Hin). }
    split; [split; [intros [p H]; discriminate H|intro H; contradiction]|].
    split; [intros p H; discriminate H|reflexivity].
Qed.

Lemma alias_ports_above_256_are_not_encodable_witness :
  let alias := {| system := 1; port := 300; text := [(x00, x41)];
                  inhibitLocal := false; inhibitRemote := false |} in
  validateAlias alias = Ok tt /\ createPayload [alias] = Threw RangeError.
Proof.
  cbv zeta. split; [reflexivity|].
  refine (proj2 (proj2 (alias_ports_above_256_are_not_encodable
                          [{| system := 1; port := 300; text := [(x00, x41)];
                              inhibitLocal := false; inhibitRemote := false |}]
                          _ _)) _).
  - repeat constructor.
  - simpl. lia.
  - constructor. simpl. lia.
Defined.

End UnicodeAlias.

(* ================================================================== *)
(** ** Levels through [levelToDB] and back *)

Section LevelRoundTrip.
Import JSNumber LevelConversion.

Lemma level_roundtrip_nat (n : nat) :
  (n <= 287)%nat ->
  dBToLevel (levelToDB (of_Z (Z.of_nat n)))
  = if Z.of_nat n =? 1 then of_Z 0 else of_Z (Z.of_nat n).
Proof.
  intro H.
  do 288 (destruct n as [|n]; [vm_compute; reflexivity|]).
  exfalso. lia.
Qed.

(** For every valid level (an integer from 0 to 287),
    [dBToLevel(levelToDB(level))] is the level again, except for level 1,
    whose dB value (1 - 204) * 0.355 is below -72 and comes back as 0. *)
Theorem valid_level_survives_dB_except_1 (l : Z) :
  isValidLevel l = true ->
  dBToLevel (levelToDB (of_Z l)) = if l =? 1 then of_Z 0 else of_Z l.
Proof.
  unfold isValidLevel. intro H.
  apply andb_true_iff in H. destruct H as [H0 H1].
  apply Z.leb_le in H0. apply Z.leb_le in H1.
  rewrite <- (Z2Nat.id l) by assumption.
  apply level_roundtrip_nat. lia.
Qed.

Lemma valid_level_survives_dB_except_1_witness :
  dBToLevel (levelToDB (of_Z 100)) = of_Z 100.
Proof.
  exact (valid_level_survives_dB_except_1 100 eq_refl).
Defined.

End LevelRoundTrip.

(* ================================================================== *)
(** ** Aliases through [createPayload] and [parse] *)

Section AliasRoundTrip.

(** C3.  The alias pair does not round-trip.  Two aliases with the
    one-letter texts A and B are encoded by
    [RequestUnicodeAliasAdd.createPayload] into 58 bytes.
    [ReplyUnicodeAliasStatus.parse] reads the first text up to its first
    padding character and goes on from there: the Unicode bit of the
    first alias is read from the padding (false, where the encoder wrote
    0x8000), and the second alias comes back as system 0, port 1 with an
    empty text and no inhibit flag, read from the middle of the first
    entry.  An alias with port 300 passes [validateAlias] and makes
    [createPayload] throw. *)
Theorem alias_roundtrip_fails :
  let a1 := {| RequestUnicodeAliasAdd.system := 1;
               RequestUnicodeAliasAdd.port := 1;
               RequestUnicodeAliasAdd.text := [(x00, x41)];
               RequestUnicodeAliasAdd.inhibitLocal := false;
               RequestUnicodeAliasAdd.inhibitRemote := false |} in
  let a2 := {| RequestUnicodeAliasAdd.system := 2;
               RequestUnicodeAliasAdd.port := 2;
               RequestUnicodeAliasAdd.text := [(x00, x42)];
               RequestUnicodeAliasAdd.inhibitLocal := true;
               RequestUnicodeAliasAdd.inhibitRemote := true |} in
  let a3 := {| RequestUnicodeAliasAdd.system := 1;
               RequestUnicodeAliasAdd.port := 300;
               RequestUnicodeAliasAdd.text := [(x00, x41)];
               RequestUnicodeAliasAdd.inhibitLocal := false;
               RequestUnicodeAliasAdd.inhibitRemote := false |} in
  (exists payload,
      RequestUnicodeAliasAdd.validateAlias a1 = Ok tt /\
      RequestUnicodeAliasAdd.validateAlias a2 = Ok tt /\
      RequestUnicodeAliasAdd.createPayload [a1; a2] = Ok payload /\
      Buffer.length payload = 58 /\
      forall (flags : EclipseHCI.Flags) (now : Z),
        ReplyUnicodeAliasStatus.parse payload flags now
        = Ok (Some
                {| ReplyUnicodeAliasStatus.messageID := 0x00F5;
                   ReplyUnicodeAliasStatus.timestamp := now;
                   ReplyUnicodeAliasStatus.isResponse := EclipseHCI.U flags;
                   ReplyUnicodeAliasStatus.count := 2;
                   ReplyUnicodeAliasStatus.aliases :=
                     [ {| ReplyUnicodeAliasStatus.system := 1;
                          ReplyUnicodeAliasStatus.port := 1;
                          ReplyUnicodeAliasStatus.text := [(x00, x41)];
                          ReplyUnicodeAliasStatus.inhibitLocal := false;
                          ReplyUnicodeAliasStatus.inhibitRemote := false;
                          ReplyUnicodeAliasStatus.isUnicode := false;
                          ReplyUnicodeAliasStatus.listenKeysOnly := false |};
                       {| ReplyUnicodeAliasStatus.system := 0;
                          ReplyUnicodeAliasStatus.port := 1;
                          ReplyUnicodeAliasStatus.text := [];
                          ReplyUnicodeAliasStatus.inhibitLocal := false;
                          ReplyUnicodeAliasStatus.inhibitRemote := false;
                          ReplyUnicodeAliasStatus.isUnicode := false;
                          ReplyUnicodeAliasStatus.listenKeysOnly := false |} ];
                   ReplyUnicodeAliasStatus.rawPayload := payload |})) /\
  RequestUnicodeAliasAdd.validateAlias a3 = Ok tt /\
  RequestUnicodeAliasAdd.createPayload [a3] = Threw RangeError.
Proof.
  cbv zeta. split.
  - eexists. split; [reflexivity|]. split; [reflexivity|].
    split; [vm_compute; reflexivity|].
    split; [reflexivity|].
    intros flags now. reflexivity.
  - split; vm_compute; reflexivity.
Qed.

End AliasRoundTrip.

(* ================================================================== *)
(** ** Port 1024 in a crosspoint action *)

Section Port1024.
Import RequestCrosspointActions.

(** C6.  A crosspoint action with destination port 1024 is not
    rejected: [validatePorts] accepts it, the constructor returns and
    the request is put on the queue.  Its payload carries 0 in the
    destination bits 8-9 of word 0 and FF in the destination byte of
    word 1, which is port 255 on the wire.
    [RequestCrosspointStatus], whose ports are 0..1023, throws on
    1024 in its constructor. *)
Theorem crosspoint_port_1024_is_sent_as_255 :
  let a := {| direction := add; destinationPort := 1024; sourcePort := 1;
              enableDisable := enable; priority := 1 |} in
  let s0 := EclipseHCI.init 100 in
  let r := Submit.crosspointActions s0 [a] false 0 in
  validatePorts (sourcePort a) (destinationPort a) = true /\
  snd r = Ok tt /\
  map HCIRequest.Data (EclipseHCI.messageQueue (fst r))
  = [ [x00; x01; x00; x01; x24; x01; x00; xff; x00; x00; x23; xfa] ] /\
  word0 a = 0x2401 /\ word1 a = 0x00FF /\
  Z.land (Z.shiftr (word0 a) 1) 3 * 256 + Z.land (word1 a) 255 = 255 /\
  RequestCrosspointStatus.new [1024] false None 0 = Threw ValidationError.
Proof.
  cbv zeta. repeat split; vm_compute; reflexivity.
Qed.

End Port1024.
